(** * KOOK channel extension: gateway session and inbound message handling

    A shallow embedding of [extensions/kook/src/bot.ts] (the message handler
    and its policy gates), of the gateway monitor ([connectWebSocket] and
    its closures), and of what sends and configures: the REST client, the
    sender, the outbound adapter, the reply dispatcher, the probe and the
    plugin's edits of the configuration; followed by the properties
    established about them.

    Conventions.
    - A JavaScript [number] is an integer [Z]; the code only compares,
      increments and exponentiates the numbers modelled here.
    - An optional value ([x?: T], [T | undefined]) is an [option].
    - A JavaScript object used as a dictionary is a [gmap] over its own
      string keys; [Map<string, V>] likewise.
    - Truthiness is written out: the empty string is falsy, so [if (s)] on
      an optional string is [truthy s] below. *)

From Stdlib Require Import ZArith Lia.
From stdpp Require Import base option list gmap strings pretty.

Local Open Scope string_scope.
Local Open Scope list_scope.

(** ** JavaScript primitives used by the sources *)

Module JS.

(** [x ?? y] *)
Definition nullish {A} (x : option A) (y : A) : A := default y x.

(** Truthiness of a [string | undefined]. *)
Definition truthy (s : option string) : bool :=
  match s with
  | Some v => negb (String.eqb v "")
  | None => false
  end.

(** [a === b] on strings. *)
Definition strict_eq (a b : string) : bool := String.eqb a b.

(** [xs.includes(x)] on an array of strings. *)
Definition includes (xs : list string) (x : string) : bool :=
  existsb (strict_eq x) xs.

(** The double-quote character. *)
Definition dquote : string := String (Ascii.ascii_of_N 34) EmptyString.

(** The line feed. *)
Definition newline : string := String (Ascii.ascii_of_N 10) EmptyString.

(** The text primitives backed by the regular-expression engine and by
    UTF-16 slicing.  The handler treats their results as opaque payload,
    so they are an interface here. *)
Record Text := {
  (** [text.replace(new RegExp(`\\(met\\)${botId}\\(met\\)`, "g"), "")] *)
  strip_met : string -> string -> string;
  (** [.replace(/\s{2,}/g, " ")] *)
  squeeze_spaces : string -> string;
  (** [.trim()] *)
  trim : string -> string;
  (** [.replace(/\s+/g, " ").slice(0, 160)] *)
  preview160 : string -> string;
}.

End JS.

(** ** [types.ts] *)

Inductive ChannelType := GROUP | PERSON | BROADCAST.

#[global] Instance ChannelType_eq_dec : EqDecision ChannelType.
Proof. solve_decision. Defined.

(** An allow-list entry, [string | number]. *)
Inductive AllowEntry :=
| AStr (s : string)
| ANum (n : Z).

(** [String(entry)]: a string is itself, an integer prints in decimal. *)
Definition String_ (e : AllowEntry) : string :=
  match e with
  | AStr s => s
  | ANum n => pretty n
  end.

Record KookAuthor := { username : string }.
Record KookKMarkdown := { raw_content : option string }.
Record KookQuote := { quote_content : string }.

(** [KookEventData.extra], with the fields the handler reads. *)
Record KookExtra := {
  guild_id : option string;
  mention : option (list string);
  author : option KookAuthor;
  kmarkdown : option KookKMarkdown;
  quote : option KookQuote;
}.

(** [KookEventData].  [extra] is read through [?.] everywhere, so it is
    optional here. *)
Record KookEventData := {
  channel_type : ChannelType;
  type_ : Z;
  target_id : string;
  author_id : string;
  content : string;
  msg_id : string;
  msg_timestamp : Z;
  nonce : string;
  extra : option KookExtra;
}.

(** One entry of [groups] in the channel configuration.  The schema gives it
    [enabled], [requireMention] and [allowFrom]; [gc_other] holds whatever
    further keys the raw object carries, which no code path reads. *)
Record KookGroupConfig := {
  gc_enabled : option bool;
  gc_requireMention : option bool;
  gc_allowFrom : option (list AllowEntry);
  gc_other : list (string * string);
}.

(** [KookConfig]: the merged view held by a resolved account. *)
Record KookConfig := {
  dmPolicy : option string;
  allowFrom : option (list AllowEntry);
  groupPolicy : option string;
  groupAllowFrom : option (list AllowEntry);
  requireMention : option bool;
  groups : option (gmap string KookGroupConfig);
}.

(** [ResolvedKookAccount] *)
Record ResolvedKookAccount := {
  accountId : string;
  enabled : bool;
  configured : bool;
  token : option string;
  config : KookConfig;
}.

(** [HistoryEntry] of the plugin SDK. *)
Record HistoryEntry := {
  sender : string;
  body : string;
  timestamp : Z;
  messageId : string;
}.

(** [ClawdbotConfig], reduced to what the handler reads of it:
    [cfg.messages?.groupChat?.historyLimit]. *)
Record ClawdbotConfig := {
  groupChat_historyLimit : option Z;
}.

(** ** The pending history buffer of the plugin SDK

    [bot.ts] imports these helpers from [openclaw/plugin-sdk]; their source
    is not part of the extension. *)

Abbreviation HistoryMap := (gmap string (list HistoryEntry)).

Module History.

(** Modelled from the spec: the "per-channel" buffer of the history map, the
    entries held under a channel's key, none when the key is absent. *)
Definition entriesOf (historyMap : HistoryMap) (historyKey : string)
  : list HistoryEntry :=
  default [] (historyMap !! historyKey).

(** Modelled from the spec: "capacity-bounded (oldest evicted first)", that
    is, the newest [limit] entries are kept. *)
Definition evictOldest (limit : Z) (l : list HistoryEntry) : list HistoryEntry :=
  drop (length l - Z.to_nat limit) l.

(** Modelled from the spec: [recordPendingHistoryEntryIfEnabled] of the
    plugin SDK is missing from the sources.  The spec describes the buffer
    as a "per-channel bounded ordered sequence, capacity = resolved history
    limit", to which "unaddressed group messages are appended", "stored
    per-channel in insertion order, capacity-bounded (oldest evicted
    first)". *)
Definition recordPendingHistoryEntryIfEnabled
    (historyMap : HistoryMap) (historyKey : string) (limit : Z)
    (entry : HistoryEntry) : HistoryMap :=
  <[historyKey := evictOldest limit (entriesOf historyMap historyKey ++ [entry])]>
    historyMap.

(** Modelled from the spec: [buildPendingHistoryContextFromMap] of the
    plugin SDK is missing from the sources.  The spec says that "the
    channel's buffered entries are formatted and prepended as context ahead
    of the addressed message". *)
Definition buildPendingHistoryContextFromMap
    (historyMap : HistoryMap) (historyKey : string) (limit : Z)
    (currentMessage : string) (formatEntry : HistoryEntry -> string) : string :=
  foldr (fun e acc => formatEntry e +:+ acc) currentMessage
        (entriesOf historyMap historyKey).

(** Modelled from the spec: [clearHistoryEntriesIfEnabled] of the plugin
    SDK is missing from the sources.  The spec says "then the buffer is
    cleared" and "the buffer is empty immediately after a successful
    dispatch". *)
Definition clearHistoryEntriesIfEnabled
    (historyMap : HistoryMap) (historyKey : string) (limit : Z) : HistoryMap :=
  <[historyKey := []]> historyMap.

End History.

(** ** The host runtime ([PluginRuntime]) as the handler consumes it *)

Record AgentRoute := {
  sessionKey : string;
  route_accountId : string;
  agentId : string;
}.

Inductive PeerKind := PeerGroup | PeerDm.

Record RoutePeer := { peer_kind : PeerKind; peer_id : string }.

(** The value of [resolveEnvelopeFormatOptions(cfg)], opaque to the handler. *)
Inductive EnvelopeFormatOptions := EnvelopeOptions (repr : string).

Record EnvelopeArgs := {
  env_channel : string;
  env_from : string;
  env_timestamp : Z;
  env_envelope : EnvelopeFormatOptions;
  env_body : string;
}.

Inductive ChatType := ChatGroup | ChatDirect.

(** The inbound context handed to [finalizeInboundContext]; the constant
    fields (Provider, Surface, OriginatingChannel = "kook",
    CommandAuthorized = true) are left out. *)
Record MsgContext := {
  Body : string;
  RawBody : string;
  CommandBody : string;
  From : string;
  To : string;
  SessionKey : string;
  AccountId : string;
  ctx_ChatType : ChatType;
  GroupSubject : option string;
  SenderName : string;
  SenderId : string;
  MessageSid : string;
  Timestamp : Z;
  WasMentioned : bool;
  OriginatingTo : string;
}.

(** What [createKookReplyDispatcher] is given; it determines the dispatcher. *)
Record KookReplyDispatcher := {
  rd_agentId : string;
  rd_channelId : string;
  rd_replyToMessageId : string;
  rd_accountId : string;
  rd_isDm : bool;
}.

Record DispatchResult := { queuedFinal : bool; counts_final : Z }.

(** A call that either returns or throws. *)
Inductive Completion (A : Type) :=
| Returned (a : A)
| Threw (err : string).
Arguments Returned {A} a.
Arguments Threw {A} err.

Record SystemEvent := {
  se_text : string;
  se_sessionKey : string;
  se_contextKey : string;
}.

Record PluginRuntime := {
  resolveAgentRoute : ClawdbotConfig -> string -> RoutePeer -> AgentRoute;
  resolveEnvelopeFormatOptions : ClawdbotConfig -> EnvelopeFormatOptions;
  formatAgentEnvelope : EnvelopeArgs -> string;
  finalizeInboundContext : MsgContext -> MsgContext;
  (** [await dispatchReplyFromConfig({ ctx, cfg, dispatcher, replyOptions })] *)
  dispatchReplyFromConfig :
    MsgContext -> ClawdbotConfig -> KookReplyDispatcher -> Completion DispatchResult;
}.

(** The effects of the handler on the host, in order of occurrence. *)
Record Host := {
  systemEvents : list SystemEvent;
  dispatches : list (MsgContext * KookReplyDispatcher);
  idleMarks : nat;
}.

Definition enqueueSystemEvent (e : SystemEvent) (h : Host) : Host :=
  {| systemEvents := systemEvents h ++ [e];
     dispatches := dispatches h;
     idleMarks := idleMarks h |}.

Definition noteDispatch (c : MsgContext) (d : KookReplyDispatcher) (h : Host) : Host :=
  {| systemEvents := systemEvents h;
     dispatches := dispatches h ++ [(c, d)];
     idleMarks := idleMarks h |}.

Definition markDispatchIdle (h : Host) : Host :=
  {| systemEvents := systemEvents h;
     dispatches := dispatches h;
     idleMarks := S (idleMarks h) |}.

(** [runtime.ts]: [getKookRuntime] throws until [setKookRuntime] has run. *)
Definition getKookRuntime (runtime : option PluginRuntime) : Completion PluginRuntime :=
  match runtime with
  | Some r => Returned r
  | None => Threw "KOOK runtime not initialized - plugin not registered"
  end.

(** ** [bot.ts] *)

Module Bot.

(** [extractContent] *)
Definition extractContent (event : KookEventData) : string :=
  let raw := (extra event ≫= kmarkdown) ≫= raw_content in
  if (type_ event =? 9)%Z && JS.truthy raw
  then default (content event) raw
  else content event.

(** [checkBotMentioned] *)
Definition checkBotMentioned (event : KookEventData) (botId : option string) : bool :=
  if negb (JS.truthy botId) then false
  else
    let mentions := JS.nullish (extra event ≫= mention) [] in
    JS.includes mentions (default "" botId).

(** [stripBotMention] *)
Definition stripBotMention (txt : JS.Text) (text : string) (botId : option string)
  : string :=
  if negb (JS.truthy botId) then text
  else JS.trim txt (JS.squeeze_spaces txt (JS.strip_met txt (default "" botId) text)).

(** [isGroupAllowed] *)
Definition isGroupAllowed (groupPolicy : string) (allowFrom : list AllowEntry)
    (guildId channelId : string) : bool :=
  if JS.strict_eq groupPolicy "disabled" then false
  else if JS.strict_eq groupPolicy "open" then true
  else existsb (fun entry =>
                  JS.strict_eq (String_ entry) guildId
                  || JS.strict_eq (String_ entry) channelId) allowFrom.

(** [isDmAllowed] *)
Definition isDmAllowed (dmPolicy : string) (allowFrom : list AllowEntry)
    (senderId : string) : bool :=
  if JS.strict_eq dmPolicy "open" then true
  else if JS.strict_eq dmPolicy "allowlist"
  then existsb (fun entry => JS.strict_eq (String_ entry) senderId) allowFrom
  else true.

(** Where [handleKookMessage] returns. *)
Inductive Exit :=
| NotInGroupAllowlist
| GroupDisabled
| RecordedToHistory
| NotInDmAllowlist
| DispatchComplete (r : DispatchResult)
| DispatchFailed (err : string).

Record Result := {
  host : Host;
  chatHistories : option HistoryMap;
  exit : Exit;
}.

(** [kookCfg?.groups?.[channelId] ?? kookCfg?.groups?.[guildId ?? ""]] *)
Definition lookupGroupConfig (kookCfg : KookConfig) (channelId : string)
    (guildId : option string) : option KookGroupConfig :=
  match groups kookCfg ≫= (fun g => g !! channelId) with
  | Some gc => Some gc
  | None => groups kookCfg ≫= (fun g => g !! JS.nullish guildId "")
  end.

(** [groupConfig?.requireMention ?? kookCfg?.requireMention ?? true] *)
Definition resolveRequireMention (groupConfig : option KookGroupConfig)
    (kookCfg : KookConfig) : bool :=
  match groupConfig ≫= gc_requireMention with
  | Some b => b
  | None => JS.nullish (requireMention kookCfg) true
  end.

(** [kookCfg?.groupPolicy ?? "allowlist"] *)
Definition resolveGroupPolicy (kookCfg : KookConfig) : string :=
  JS.nullish (groupPolicy kookCfg) "allowlist".

Section Handler.

Context (txt : JS.Text).
(** [DEFAULT_GROUP_HISTORY_LIMIT] is a constant of the plugin SDK. *)
Context (DEFAULT_GROUP_HISTORY_LIMIT : Z).

(** [Math.max(0, cfg.messages?.groupChat?.historyLimit ?? DEFAULT_GROUP_HISTORY_LIMIT)] *)
Definition historyLimitOf (cfg : ClawdbotConfig) : Z :=
  Z.max 0 (JS.nullish (groupChat_historyLimit cfg) DEFAULT_GROUP_HISTORY_LIMIT).

(** The entry recorded for an unaddressed group message. *)
Definition pendingEntry (event : KookEventData) (botId : option string) (now : Z)
  : HistoryEntry :=
  let senderName := username <$> (extra event ≫= author) in
  let senderId := author_id event in
  {| sender := senderId;
     body := JS.nullish senderName senderId +:+ ": "
             +:+ stripBotMention txt (extractContent event) botId;
     timestamp := now;
     messageId := msg_id event |}.

(** The envelope of a buffered entry, as passed to
    [buildPendingHistoryContextFromMap]. *)
Definition formatEntry (core : PluginRuntime) (envelopeOptions : EnvelopeFormatOptions)
    (channelId : string) (entry : HistoryEntry) : string :=
  formatAgentEnvelope core
    {| env_channel := "KOOK";
       env_from := channelId +:+ ":" +:+ sender entry;
       env_timestamp := timestamp entry;
       env_envelope := envelopeOptions;
       env_body := body entry |}.

(** The envelope of the message being handled ([body] in the source). *)
Definition envelopeOfCurrent (core : PluginRuntime) (cfg : ClawdbotConfig)
    (event : KookEventData) (botId : option string) (now : Z) : string :=
  let isGroup := bool_decide (channel_type event = GROUP) in
  let content := stripBotMention txt (extractContent event) botId in
  let senderName := username <$> (extra event ≫= author) in
  let senderId := author_id event in
  let channelId := target_id event in
  let quotedContent := quote_content <$> (extra event ≫= quote) in
  let messageBody :=
    if JS.truthy quotedContent
    then "[Replying to: " +:+ JS.dquote +:+ default "" quotedContent
         +:+ JS.dquote +:+ "]" +:+ JS.newline +:+ JS.newline +:+ content
    else content in
  let speaker := JS.nullish senderName senderId in
  let messageBody := speaker +:+ ": " +:+ messageBody in
  let envelopeFrom := if isGroup then channelId +:+ ":" +:+ senderId else senderId in
  formatAgentEnvelope core
    {| env_channel := "KOOK";
       env_from := envelopeFrom;
       env_timestamp := now;
       env_envelope := resolveEnvelopeFormatOptions core cfg;
       env_body := messageBody |}.

(** [isGroup && historyKey && chatHistories], with
    [historyKey = isGroup ? channelId : undefined]. *)
Definition usesHistory (event : KookEventData) (chatHistories : option HistoryMap)
  : option HistoryMap :=
  let isGroup := bool_decide (channel_type event = GROUP) in
  let historyKey := if isGroup then Some (target_id event) else None in
  if isGroup && JS.truthy historyKey then chatHistories else None.

(** The argument of [finalizeInboundContext]. *)
Definition inboundContext (core : PluginRuntime) (cfg : ClawdbotConfig)
    (account : ResolvedKookAccount) (event : KookEventData)
    (botId : option string) (chatHistories : option HistoryMap) (now : Z)
  : MsgContext :=
  let isGroup := bool_decide (channel_type event = GROUP) in
  let content := stripBotMention txt (extractContent event) botId in
  let senderName := username <$> (extra event ≫= author) in
  let senderId := author_id event in
  let channelId := target_id event in
  let kookFrom := "kook:" +:+ senderId in
  let kookTo := if isGroup then "channel:" +:+ channelId
                else "user:" +:+ senderId in
  let route :=
    resolveAgentRoute core cfg (accountId account)
      {| peer_kind := if isGroup then PeerGroup else PeerDm;
         peer_id := if isGroup then channelId else senderId |} in
  let envelopeOptions := resolveEnvelopeFormatOptions core cfg in
  let body := envelopeOfCurrent core cfg event botId now in
  let combinedBody :=
    match usesHistory event chatHistories with
    | Some historyMap =>
        History.buildPendingHistoryContextFromMap historyMap channelId
          (historyLimitOf cfg) body (formatEntry core envelopeOptions channelId)
    | None => body
    end in
  {| Body := combinedBody;
     RawBody := content;
     CommandBody := content;
     From := kookFrom;
     To := kookTo;
     SessionKey := sessionKey route;
     AccountId := route_accountId route;
     ctx_ChatType := if isGroup then ChatGroup else ChatDirect;
     GroupSubject := if isGroup then Some channelId else None;
     SenderName := JS.nullish senderName senderId;
     SenderId := senderId;
     MessageSid := msg_id event;
     Timestamp := now;
     WasMentioned := checkBotMentioned event botId;
     OriginatingTo := kookTo |}.

(** The dispatcher [createKookReplyDispatcher] is asked for. *)
Definition replyDispatcher (core : PluginRuntime) (cfg : ClawdbotConfig)
    (account : ResolvedKookAccount) (event : KookEventData) : KookReplyDispatcher :=
  let isGroup := bool_decide (channel_type event = GROUP) in
  let route :=
    resolveAgentRoute core cfg (accountId account)
      {| peer_kind := if isGroup then PeerGroup else PeerDm;
         peer_id := if isGroup then target_id event else author_id event |} in
  {| rd_agentId := agentId route;
     rd_channelId := target_id event;
     rd_replyToMessageId := msg_id event;
     rd_accountId := accountId account;
     rd_isDm := negb isGroup |}.

(** The system event enqueued ahead of the dispatch. *)
Definition inboundSystemEvent (core : PluginRuntime) (cfg : ClawdbotConfig)
    (account : ResolvedKookAccount) (event : KookEventData)
    (botId : option string) : SystemEvent :=
  let isGroup := bool_decide (channel_type event = GROUP) in
  let content := stripBotMention txt (extractContent event) botId in
  let senderId := author_id event in
  let channelId := target_id event in
  let route :=
    resolveAgentRoute core cfg (accountId account)
      {| peer_kind := if isGroup then PeerGroup else PeerDm;
         peer_id := if isGroup then channelId else senderId |} in
  let preview := JS.preview160 txt content in
  let inboundLabel :=
    if isGroup
    then "KOOK[" +:+ accountId account +:+ "] message in channel " +:+ channelId
    else "KOOK[" +:+ accountId account +:+ "] DM from " +:+ senderId in
  {| se_text := inboundLabel +:+ ": " +:+ preview;
     se_sessionKey := sessionKey route;
     se_contextKey := "kook:message:" +:+ channelId +:+ ":" +:+ msg_id event |}.

(** The [try] block of [handleKookMessage] with its [catch]. *)
Definition dispatchMessage (runtime : option PluginRuntime) (cfg : ClawdbotConfig)
    (account : ResolvedKookAccount) (event : KookEventData)
    (botId : option string) (chatHistories : option HistoryMap) (now : Z)
    (h : Host) : Result :=
  match getKookRuntime runtime with
  | Threw err =>
      {| host := h; chatHistories := chatHistories; exit := DispatchFailed err |}
  | Returned core =>
      let h1 := enqueueSystemEvent (inboundSystemEvent core cfg account event botId) h in
      let ctxPayload :=
        finalizeInboundContext core
          (inboundContext core cfg account event botId chatHistories now) in
      let dispatcher := replyDispatcher core cfg account event in
      let h2 := noteDispatch ctxPayload dispatcher h1 in
      match dispatchReplyFromConfig core ctxPayload cfg dispatcher with
      | Threw err =>
          {| host := h2; chatHistories := chatHistories; exit := DispatchFailed err |}
      | Returned r =>
          let h3 := markDispatchIdle h2 in
          let cleared :=
            match usesHistory event chatHistories with
            | Some historyMap =>
                Some (History.clearHistoryEntriesIfEnabled historyMap
                        (target_id event) (historyLimitOf cfg))
            | None => chatHistories
            end in
          {| host := h3; chatHistories := cleared; exit := DispatchComplete r |}
      end
  end.

(** [handleKookMessage].  [account] is [resolveKookAccount({ cfg, accountId })],
    whose source ([accounts.ts]) is not part of the sources; [now] is the
    clock ([Date.now()]); log lines are not modelled. *)
Definition handleKookMessage (runtime : option PluginRuntime) (cfg : ClawdbotConfig)
    (account : ResolvedKookAccount) (event : KookEventData)
    (botId : option string) (chatHistories : option HistoryMap) (now : Z)
    (h : Host) : Result :=
  let kookCfg := config account in
  let isGroup := bool_decide (channel_type event = GROUP) in
  let mentionedBot := checkBotMentioned event botId in
  let senderId := author_id event in
  let guildId := extra event ≫= guild_id in
  let channelId := target_id event in
  let historyLimit := historyLimitOf cfg in
  if isGroup then
    let groupPolicy := resolveGroupPolicy kookCfg in
    let groupAllowFrom := JS.nullish (groupAllowFrom kookCfg) [] in
    if negb (isGroupAllowed groupPolicy groupAllowFrom (JS.nullish guildId "") channelId)
    then {| host := h; chatHistories := chatHistories; exit := NotInGroupAllowlist |}
    else
      let groupConfig := lookupGroupConfig kookCfg channelId guildId in
      if bool_decide (groupConfig ≫= gc_enabled = Some false)
      then {| host := h; chatHistories := chatHistories; exit := GroupDisabled |}
      else
        let requireMention := resolveRequireMention groupConfig kookCfg in
        if requireMention && negb mentionedBot
        then
          {| host := h;
             chatHistories :=
               (fun historyMap =>
                  History.recordPendingHistoryEntryIfEnabled historyMap channelId
                    historyLimit (pendingEntry event botId now))
               <$> chatHistories;
             exit := RecordedToHistory |}
        else dispatchMessage runtime cfg account event botId chatHistories now h
  else
    let dmPolicy := JS.nullish (dmPolicy kookCfg) "pairing" in
    let allowFrom := JS.nullish (allowFrom kookCfg) [] in
    if negb (isDmAllowed dmPolicy allowFrom senderId)
    then {| host := h; chatHistories := chatHistories; exit := NotInDmAllowlist |}
    else dispatchMessage runtime cfg account event botId chatHistories now h.

(** The handler run on a series of events, each with its clock reading,
    every call completing before the next starts. *)
Fixpoint handleAll (runtime : option PluginRuntime) (cfg : ClawdbotConfig)
    (account : ResolvedKookAccount) (botId : option string)
    (events : list (KookEventData * Z)) (chatHistories : option HistoryMap)
    (h : Host) : Host * option HistoryMap :=
  match events with
  | [] => (h, chatHistories)
  | (event, now) :: events =>
      let r := handleKookMessage runtime cfg account event botId chatHistories now h in
      handleAll runtime cfg account botId events (Bot.chatHistories r) (host r)
  end.

End Handler.

End Bot.

(** ** The gateway monitor: [connectWebSocket] and its closures *)

Module Monitor.

Definition HEARTBEAT_INTERVAL_MS : Z := 30000.
Definition HELLO_TIMEOUT_MS : Z := 6000.
Definition RECONNECT_BASE_MS : Z := 2000.
Definition MAX_RECONNECT_WAIT_MS : Z := 60000.

(** [KookApiResponse<T>] *)
Record KookApiResponse (T : Type) := {
  code : Z;
  message : string;
  data : T;
}.
Arguments code {T} _.
Arguments message {T} _.
Arguments data {T} _.

Record KookUserData := { user_id : string; user_username : string }.
Record KookGatewayData := { url : string }.

(** [fetchBotId], given how [getBotInfo(opts)] completes. *)
Definition fetchBotId (res : Completion (KookApiResponse KookUserData))
  : option string :=
  match res with
  | Returned r => if (code r =? 0)%Z then Some (user_id (data r)) else None
  | Threw _ => None
  end.

(** [frame.d]: a hello or resume-ack payload, or event data. *)
Inductive Payload :=
| SessionData (session_id : option string)
| EventData (eventData : KookEventData).

(** [KookSignalFrame] *)
Record KookSignalFrame := {
  frame_s : Z;
  frame_d : Payload;
  frame_sn : option Z;
}.

(** [wsEvent.data]: text that [JSON.parse] rejects, or a frame. *)
Inductive WsData :=
| Unparseable
| Parsed (frame : KookSignalFrame).

(** [helloData.session_id] / [resumeData.session_id] *)
Definition payload_session_id (d : Payload) : option string :=
  match d with
  | SessionData sid => sid
  | EventData _ => None
  end.

(** What the monitor does to the outside, in order. *)
Inductive Action :=
| GetGateway
| NewWebSocket (gatewayUrl : string)
| WsClose
| WsSendPing (sn : Z)
| SetHelloTimer (ms : Z)
| ClearHelloTimer
| SetHeartbeatTimer (ms : Z)
| ClearHeartbeatTimer
| SetReconnectTimer (ms : Z)
| HandleKookMessage (event : KookEventData)
| LogParseError.

(** How the promise returned by [connectWebSocket] stands. *)
Inductive Outcome :=
| Pending
| Resolved
| Rejected (err : string).

Inductive ReadyState := CONNECTING | OPEN | CLOSING | CLOSED.

#[global] Instance ReadyState_eq_dec : EqDecision ReadyState.
Proof. solve_decision. Defined.

(** The variables of one promise executor in [connect]: the socket and the
    [let]s around it.  A timer variable is [true] while it holds a handle. *)
Record Conn := {
  readyState : ReadyState;
  heartbeatTimer : bool;
  helloTimer : bool;
  resolved : bool;
  abortListener : bool;
}.

(** The variables of [connectWebSocket].  [conn] is the closure of the
    latest socket; [fetching] holds while [connect] awaits [getGateway];
    [waiting] holds the delay while [scheduleReconnect] awaits its timer;
    [strayHeartbeats] counts the intervals whose handle was overwritten
    by a later [setInterval]. *)
Record Session := {
  botId : option string;
  aborted : bool;
  sn : Z;
  sessionId : string;
  reconnectAttempt : Z;
  conn : option Conn;
  fetching : bool;
  waiting : option Z;
  outcome : Outcome;
  strayHeartbeats : nat;
}.

Definition with_aborted (v : bool) (st : Session) : Session :=
  {| botId := botId st; aborted := v; sn := sn st; sessionId := sessionId st;
     reconnectAttempt := reconnectAttempt st; conn := conn st;
     fetching := fetching st; waiting := waiting st; outcome := outcome st;
     strayHeartbeats := strayHeartbeats st |}.

Definition with_sn (v : Z) (st : Session) : Session :=
  {| botId := botId st; aborted := aborted st; sn := v; sessionId := sessionId st;
     reconnectAttempt := reconnectAttempt st; conn := conn st;
     fetching := fetching st; waiting := waiting st; outcome := outcome st;
     strayHeartbeats := strayHeartbeats st |}.

Definition with_sessionId (v : string) (st : Session) : Session :=
  {| botId := botId st; aborted := aborted st; sn := sn st; sessionId := v;
     reconnectAttempt := reconnectAttempt st; conn := conn st;
     fetching := fetching st; waiting := waiting st; outcome := outcome st;
     strayHeartbeats := strayHeartbeats st |}.

Definition with_reconnectAttempt (v : Z) (st : Session) : Session :=
  {| botId := botId st; aborted := aborted st; sn := sn st; sessionId := sessionId st;
     reconnectAttempt := v; conn := conn st;
     fetching := fetching st; waiting := waiting st; outcome := outcome st;
     strayHeartbeats := strayHeartbeats st |}.

Definition with_conn (v : option Conn) (st : Session) : Session :=
  {| botId := botId st; aborted := aborted st; sn := sn st; sessionId := sessionId st;
     reconnectAttempt := reconnectAttempt st; conn := v;
     fetching := fetching st; waiting := waiting st; outcome := outcome st;
     strayHeartbeats := strayHeartbeats st |}.

Definition with_fetching (v : bool) (st : Session) : Session :=
  {| botId := botId st; aborted := aborted st; sn := sn st; sessionId := sessionId st;
     reconnectAttempt := reconnectAttempt st; conn := conn st;
     fetching := v; waiting := waiting st; outcome := outcome st;
     strayHeartbeats := strayHeartbeats st |}.

Definition with_waiting (v : option Z) (st : Session) : Session :=
  {| botId := botId st; aborted := aborted st; sn := sn st; sessionId := sessionId st;
     reconnectAttempt := reconnectAttempt st; conn := conn st;
     fetching := fetching st; waiting := v; outcome := outcome st;
     strayHeartbeats := strayHeartbeats st |}.

Definition with_outcome (v : Outcome) (st : Session) : Session :=
  {| botId := botId st; aborted := aborted st; sn := sn st; sessionId := sessionId st;
     reconnectAttempt := reconnectAttempt st; conn := conn st;
     fetching := fetching st; waiting := waiting st; outcome := v;
     strayHeartbeats := strayHeartbeats st |}.

Definition with_strayHeartbeats (v : nat) (st : Session) : Session :=
  {| botId := botId st; aborted := aborted st; sn := sn st; sessionId := sessionId st;
     reconnectAttempt := reconnectAttempt st; conn := conn st;
     fetching := fetching st; waiting := waiting st; outcome := outcome st;
     strayHeartbeats := v |}.

(** [resolve()] / [reject(err)] on the chain of promises that ends in the
    one [connectWebSocket] returned: a settled promise stays as it is. *)
Definition settle (o : Outcome) (st : Session) : Session :=
  match outcome st with
  | Pending => with_outcome o st
  | _ => st
  end.

(** [ws.close()] on the ready state. *)
Definition closeCalled (r : ReadyState) : ReadyState :=
  match r with
  | CLOSED => CLOSED
  | _ => CLOSING
  end.

(** [cleanup] *)
Definition cleanup (c : Conn) : Conn * list Action :=
  ({| readyState := closeCalled (readyState c);
      heartbeatTimer := false;
      helloTimer := false;
      resolved := resolved c;
      abortListener := abortListener c |},
   ((if heartbeatTimer c then [ClearHeartbeatTimer] else [])
      ++ (if helloTimer c then [ClearHelloTimer] else [])
      ++ [WsClose])%list).

Definition markResolved (c : Conn) : Conn :=
  {| readyState := readyState c; heartbeatTimer := heartbeatTimer c;
     helloTimer := helloTimer c; resolved := true;
     abortListener := abortListener c |}.

(** [abortSignal?.removeEventListener("abort", handleAbort)] *)
Definition removeAbortListener (c : Conn) : Conn :=
  {| readyState := readyState c; heartbeatTimer := heartbeatTimer c;
     helloTimer := helloTimer c; resolved := resolved c;
     abortListener := false |}.

Definition withReadyState (r : ReadyState) (c : Conn) : Conn :=
  {| readyState := r; heartbeatTimer := heartbeatTimer c;
     helloTimer := helloTimer c; resolved := resolved c;
     abortListener := abortListener c |}.

(** [Math.min(RECONNECT_BASE_MS * 2 ** (reconnectAttempt - 1), MAX_RECONNECT_WAIT_MS)] *)
Definition reconnectWait (reconnectAttempt : Z) : Z :=
  Z.min (RECONNECT_BASE_MS * 2 ^ (reconnectAttempt - 1)) MAX_RECONNECT_WAIT_MS.

(** [connect], up to its [await getGateway(apiOpts, 0)]. *)
Definition connect (st : Session) : Session * list Action :=
  if aborted st then (settle Resolved st, [])
  else (with_fetching true st, [GetGateway]).

(** [scheduleReconnect], up to its [await] of the timer. *)
Definition scheduleReconnect (st : Session) : Session * list Action :=
  if aborted st then (settle Resolved st, [])
  else
    let n := (reconnectAttempt st + 1)%Z in
    let waitMs := reconnectWait n in
    (with_waiting (Some waitMs) (with_reconnectAttempt n st),
     [SetReconnectTimer waitMs]).

(** [scheduleReconnect] after its timer: the second abort check, then
    [connect()]. *)
Definition reconnectTimerFired (st : Session) : Session * list Action :=
  match waiting st with
  | None => (st, [])
  | Some _ =>
      let st := with_waiting None st in
      if aborted st then (settle Resolved st, [])
      else connect st
  end.

(** The admission of an event frame's payload: the three [break]s of
    [case 0], in the order of the source, or the call of the handler. *)
Inductive Admission :=
| SkipSelf
| SkipSystem
| SkipUnsupported
| Forward.

#[global] Instance Admission_eq_dec : EqDecision Admission.
Proof. solve_decision. Defined.

Definition admission (botId : option string) (eventData : KookEventData) : Admission :=
  if JS.truthy botId && JS.strict_eq (author_id eventData) (default "" botId)
  then SkipSelf
  else if (type_ eventData =? 255)%Z then SkipSystem
  else if negb (type_ eventData =? 1)%Z && negb (type_ eventData =? 9)%Z
          && negb (type_ eventData =? 10)%Z
  then SkipUnsupported
  else Forward.

(** After [cleanup(); abortSignal?.removeEventListener(...)]:
    [if (!resolved) { resolved = true; scheduleReconnect().then(resolve, reject); }] *)
Definition resolveByReconnect (c : Conn) (st : Session) : Session * list Action :=
  if resolved c then (with_conn (Some c) st, [])
  else scheduleReconnect (with_conn (Some (markResolved c)) st).

(** The ["message"] listener, on a parsed frame. *)
Definition onFrame (c : Conn) (frame : KookSignalFrame) (st : Session)
  : Session * list Action :=
  if (frame_s frame =? 1)%Z then
    (* Hello *)
    let c1 := {| readyState := readyState c; heartbeatTimer := true;
                 helloTimer := false; resolved := resolved c;
                 abortListener := abortListener c |} in
    let st1 := with_sessionId
                 (JS.nullish (payload_session_id (frame_d frame)) (sessionId st)) st in
    let st2 := if heartbeatTimer c
               then with_strayHeartbeats (S (strayHeartbeats st1)) st1 else st1 in
    (with_conn (Some c1) st2,
     ((if helloTimer c then [ClearHelloTimer] else [])
        ++ [SetHeartbeatTimer HEARTBEAT_INTERVAL_MS])%list)
  else if (frame_s frame =? 0)%Z then
    (* Event dispatch *)
    let st1 := match frame_sn frame with
               | Some n => with_sn n st
               | None => st
               end in
    match frame_d frame with
    | EventData eventData =>
        match admission (botId st) eventData with
        | Forward => (st1, [HandleKookMessage eventData])
        | _ => (st1, [])
        end
    | SessionData _ => (st1, [])
    end
  else if (frame_s frame =? 3)%Z then
    (* Pong *)
    (st, [])
  else if (frame_s frame =? 5)%Z then
    (* Reconnect request from server *)
    let st1 := with_sessionId "" (with_sn 0 st) in
    let '(c1, acts) := cleanup c in
    let c2 := removeAbortListener c1 in
    let '(st2, acts2) := resolveByReconnect c2 st1 in
    (st2, (acts ++ acts2)%list)
  else if (frame_s frame =? 6)%Z then
    (* Resume ACK *)
    (with_sessionId
       (JS.nullish (payload_session_id (frame_d frame)) (sessionId st)) st, [])
  else (st, []).

(** The ["message"] listener. *)
Definition onMessage (c : Conn) (data : WsData) (st : Session)
  : Session * list Action :=
  match data with
  | Unparseable => (st, [LogParseError])
  | Parsed frame => onFrame c frame st
  end.

(** The ["open"] listener. *)
Definition onOpen (c : Conn) (st : Session) : Session * list Action :=
  (with_reconnectAttempt 0 (with_conn (Some (withReadyState OPEN c)) st), []).

(** The ["close"] listener. *)
Definition onClose (c : Conn) (st : Session) : Session * list Action :=
  let '(c1, acts) := cleanup (withReadyState CLOSED c) in
  let c2 := removeAbortListener c1 in
  if negb (resolved c2) && negb (aborted st) then
    let '(st1, acts1) := scheduleReconnect (with_conn (Some (markResolved c2)) st) in
    (st1, (acts ++ acts1)%list)
  else if negb (resolved c2) then
    (settle Resolved (with_conn (Some (markResolved c2)) st), acts)
  else (with_conn (Some c2) st, acts).

(** The callback of the hello timer. *)
Definition onHelloTimeout (c : Conn) (st : Session) : Session * list Action :=
  let '(c1, acts) := cleanup c in
  let c2 := removeAbortListener c1 in
  let '(st1, acts1) := resolveByReconnect c2 st in
  (st1, (acts ++ acts1)%list).

(** [handleAbort]; the listener is registered with [{ once: true }]. *)
Definition handleAbort (c : Conn) (st : Session) : Session * list Action :=
  let '(c1, acts) := cleanup c in
  let c2 := removeAbortListener c1 in
  if resolved c2 then (with_conn (Some c2) st, acts)
  else (settle Resolved (with_conn (Some (markResolved c2)) st), acts).

(** [connect] after [getGateway] completed: the check of the response and
    the promise executor up to the registration of the listeners. *)
Definition gatewayResponded (r : Completion (KookApiResponse KookGatewayData))
    (st : Session) : Session * list Action :=
  let st := with_fetching false st in
  match r with
  | Threw err => (settle (Rejected err) st, [])
  | Returned gwRes =>
      if negb (code gwRes =? 0)%Z then
        (settle (Rejected ("Failed to get KOOK gateway: "
                           +:+ (if String.eqb (message gwRes) "" then
                                  "code " +:+ pretty (code gwRes)
                                else message gwRes))) st, [])
      else
        let gatewayUrl := url (data gwRes) in
        let stray := if default false (heartbeatTimer <$> conn st)
                     then S (strayHeartbeats st) else strayHeartbeats st in
        let st := with_strayHeartbeats stray st in
        if aborted st then
          (* cleanup(); resolve(); return; no listener was registered *)
          (settle Resolved (with_conn None st), [NewWebSocket gatewayUrl; WsClose])
        else
          (with_conn (Some {| readyState := CONNECTING; heartbeatTimer := false;
                              helloTimer := true; resolved := false;
                              abortListener := true |}) st,
           [NewWebSocket gatewayUrl; SetHelloTimer HELLO_TIMEOUT_MS])
  end.

(** What happens to a session from outside. *)
Inductive Event :=
| Abort
| GatewayResponse (r : Completion (KookApiResponse KookGatewayData))
| WsOpen
| WsMessage (data : WsData)
| WsClosed
| WsError
| HelloTimerFired
| HeartbeatTick
| ReconnectTimerFired.

(** One turn of the event loop.  An event that the platform cannot deliver
    in the state at hand changes nothing: a socket fires ["open"] only
    while connecting, ["message"] only while open, ["close"] once; a
    cleared timer does not fire; the abort signal fires once.  Socket events
    are those of the latest socket: an earlier one has been closed by
    [cleanup] and its closure is resolved, so all it can still receive is
    its ["close"], on which it runs [cleanup] again and nothing else.
    [new WebSocket(url)] is taken not to throw, and a frame to have the
    fields of its type. *)
Definition step (st : Session) (e : Event) : Session * list Action :=
  match e with
  | Abort =>
      if aborted st then (st, [])
      else
        let st := with_aborted true st in
        match conn st with
        | Some c => if abortListener c then handleAbort c st else (st, [])
        | None => (st, [])
        end
  | GatewayResponse r =>
      if fetching st then gatewayResponded r st else (st, [])
  | WsOpen =>
      match conn st with
      | Some c => if bool_decide (readyState c = CONNECTING)
                  then onOpen c st else (st, [])
      | None => (st, [])
      end
  | WsMessage data =>
      match conn st with
      | Some c => if bool_decide (readyState c = OPEN)
                  then onMessage c data st else (st, [])
      | None => (st, [])
      end
  | WsClosed =>
      match conn st with
      | Some c => if bool_decide (readyState c = CLOSED)
                  then (st, []) else onClose c st
      | None => (st, [])
      end
  | WsError => (st, [])
  | HelloTimerFired =>
      match conn st with
      | Some c => if helloTimer c then onHelloTimeout c st else (st, [])
      | None => (st, [])
      end
  | HeartbeatTick =>
      if default false (heartbeatTimer <$> conn st)
         || bool_decide (strayHeartbeats st ≠ 0%nat)
      then (st, [WsSendPing (sn st)])
      else (st, [])
  | ReconnectTimerFired => reconnectTimerFired st
  end.

(** A run of the event loop, with everything it did. *)
Fixpoint run (st : Session) (es : list Event) : Session * list Action :=
  match es with
  | [] => (st, [])
  | e :: es =>
      let '(st1, acts1) := step st e in
      let '(st2, acts2) := run st1 es in
      (st2, (acts1 ++ acts2)%list)
  end.

(** The variables of [connectWebSocket] as it declares them. *)
Definition initial (botId : option string) (aborted : bool) : Session :=
  {| botId := botId; aborted := aborted; sn := 0; sessionId := "";
     reconnectAttempt := 0; conn := None; fetching := false; waiting := None;
     outcome := Pending; strayHeartbeats := 0 |}.

(** [connectWebSocket], given how the self-identity probe completes and
    whether the signal is aborted on entry: the token check, [fetchBotId],
    and the first [connect()]. *)
Definition connectWebSocket (account : ResolvedKookAccount)
    (botInfo : Completion (KookApiResponse KookUserData)) (aborted : bool)
  : Session * list Action :=
  if negb (JS.truthy (token account)) then
    (with_outcome
       (Rejected ("KOOK account " +:+ JS.dquote +:+ accountId account
                  +:+ JS.dquote +:+ " has no token"))
       (initial None aborted), [])
  else connect (initial (fetchBotId botInfo) aborted).

End Monitor.

(** ** Strings at the level of their characters

    Where the sources look into a string (prefixes, [trim], character
    classes), a [string] stands for a JavaScript string whose code units are
    all below 256, one [ascii] per code unit; ids, prefixes and the tokens
    of the platform are of that kind. *)

Module Chars.

Definition code (a : Ascii.ascii) : N := Ascii.N_of_ascii a.

Definition isUpper (a : Ascii.ascii) : bool := (65 <=? code a)%N && (code a <=? 90)%N.

(** The lower-case form of an ASCII letter; other characters are left, as
    a regular expression without the [u] flag never equates a character
    above 127 with an ASCII one. *)
Definition toLower (a : Ascii.ascii) : Ascii.ascii :=
  if isUpper a then Ascii.ascii_of_N (code a + 32) else a.

(** Equality of two characters under the [i] flag. *)
Definition eqIgnoreCase (a b : Ascii.ascii) : bool := Ascii.eqb (toLower a) (toLower b).

(** [\d] *)
Definition isDigit (a : Ascii.ascii) : bool := (48 <=? code a)%N && (code a <=? 57)%N.

(** [[a-f0-9]] under the [i] flag. *)
Definition isHexDigit (a : Ascii.ascii) : bool :=
  isDigit a || ((97 <=? code (toLower a))%N && (code (toLower a) <=? 102)%N).

(** The white space and line terminators that [trim] removes, among the
    code units below 256: tab, line feed, vertical tab, form feed, carriage
    return, space, no-break space. *)
Definition isSpace (a : Ascii.ascii) : bool :=
  ((9 <=? code a)%N && (code a <=? 13)%N) || (code a =? 32)%N || (code a =? 160)%N.

(** The rest of [s] after [prefix], when [s.startsWith(prefix)]. *)
Fixpoint dropPrefix (prefix s : string) : option string :=
  match prefix with
  | EmptyString => Some s
  | String p prefix' =>
      match s with
      | String a s' => if Ascii.eqb p a then dropPrefix prefix' s' else None
      | EmptyString => None
      end
  end.

(** [s.startsWith(prefix)] *)
Definition startsWith (s prefix : string) : bool :=
  match dropPrefix prefix s with
  | Some _ => true
  | None => false
  end.

(** The rest of [s] after a match of the literal [prefix] at its start,
    under the [i] flag. *)
Fixpoint dropPrefixI (prefix s : string) : option string :=
  match prefix with
  | EmptyString => Some s
  | String p prefix' =>
      match s with
      | String a s' => if eqIgnoreCase p a then dropPrefixI prefix' s' else None
      | EmptyString => None
      end
  end.

Fixpoint trimStart (s : string) : string :=
  match s with
  | EmptyString => EmptyString
  | String a s' => if isSpace a then trimStart s' else s
  end.

Fixpoint trimEnd (s : string) : string :=
  match s with
  | EmptyString => EmptyString
  | String a s' =>
      match trimEnd s' with
      | EmptyString => if isSpace a then EmptyString else String a EmptyString
      | t => String a t
      end
  end.

(** [s.trim()] *)
Definition trim (s : string) : string := trimEnd (trimStart s).

(** Every character of [s] is of the class [p]. *)
Fixpoint all (p : Ascii.ascii -> bool) (s : string) : bool :=
  match s with
  | EmptyString => true
  | String a s' => p a && all p s'
  end.

(** [!s] on a string. *)
Definition isEmpty (s : string) : bool := String.eqb s EmptyString.

(** [s.replace(/^kook:(channel|user|dm|group):/i, "")] *)
Definition stripKookKind (s : string) : string :=
  match dropPrefixI "kook:" s with
  | Some rest =>
      match dropPrefixI "channel:" rest, dropPrefixI "user:" rest,
            dropPrefixI "dm:" rest, dropPrefixI "group:" rest with
      | Some r, _, _, _ => r
      | None, Some r, _, _ => r
      | None, None, Some r, _ => r
      | None, None, None, Some r => r
      | None, None, None, None => s
      end
  | None => s
  end.

(** [s.replace(/^kook:/i, "")] *)
Definition stripKook (s : string) : string :=
  default s (dropPrefixI "kook:" s).

(** [s.replace(/^kook:(?:user:)?/i, "")] *)
Definition stripKookUser (s : string) : string :=
  match dropPrefixI "kook:" s with
  | Some rest => default rest (dropPrefixI "user:" rest)
  | None => s
  end.

(** [/^[a-f0-9]{24,}$/i.test(s)] *)
Definition isChatCode (s : string) : bool :=
  all isHexDigit s && (24 <=? String.length s)%nat.


End Chars.

(** ** [kook/client.ts] *)

Module Client.

Definition KOOK_API_BASE : string := "https://www.kookapp.cn/api/v3".

(** A value of a request body. *)
Inductive JsonValue :=
| JStr (s : string)
| JNum (n : Z).

(** What [kookRequest] hands to [fetch]: the method, the URL without its
    query, the search parameters, the headers and the body before
    [JSON.stringify], each in the order of insertion. *)
Record HttpRequest := {
  method : string;
  url : string;
  searchParams : list (string * string);
  headers : list (string * string);
  body : option (list (string * JsonValue));
}.

(** [url.searchParams.set(k, v)] *)
Fixpoint searchParamsSet (k v : string) (ps : list (string * string))
  : list (string * string) :=
  match ps with
  | [] => [(k, v)]
  | (k', v') :: ps' =>
      if String.eqb k k'
      then (k, v) :: filter (fun p => negb (String.eqb k (fst p))) ps'
      else (k', v') :: searchParamsSet k v ps'
  end.

(** [kookRequest], up to its call of [fetch]. *)
Definition kookRequest (token method path : string)
    (body : option (list (string * JsonValue)))
    (query : option (list (string * string))) : HttpRequest :=
  let sendsBody :=
    match body with
    | Some _ => String.eqb method "POST" || String.eqb method "PUT"
                || String.eqb method "PATCH"
    | None => false
    end in
  {| method := method;
     url := KOOK_API_BASE +:+ path;
     searchParams :=
       foldl (fun ps kv => searchParamsSet (fst kv) (snd kv) ps) []
             (default [] query);
     headers := ("Authorization", "Bot " +:+ token)
                :: (if sendsBody then [("Content-Type", "application/json")] else []);
     body := if sendsBody then body else None |}.

(** [...(x ? { key: x } : {})] *)
Definition optionalField (key : string) (x : option string)
  : list (string * JsonValue) :=
  match x with
  | Some v => if Chars.isEmpty v then [] else [(key, JStr v)]
  | None => []
  end.

(** [getGateway] *)
Definition getGateway (token : string) (compress : Z) : HttpRequest :=
  kookRequest token "GET" "/gateway/index" None (Some [("compress", pretty compress)]).

(** [getBotInfo] *)
Definition getBotInfo (token : string) : HttpRequest :=
  kookRequest token "GET" "/user/me" None None.

(** The parameters of [sendChannelMessage]. *)
Record ChannelMessageParams := {
  cm_target_id : string;
  cm_content : string;
  cm_type : option Z;
  cm_quote : option string;
  cm_temp_target_id : option string;
}.

(** [sendChannelMessage] *)
Definition sendChannelMessage (token : string) (params : ChannelMessageParams)
  : HttpRequest :=
  kookRequest token "POST" "/message/create"
    (Some ([("target_id", JStr (cm_target_id params));
            ("content", JStr (cm_content params));
            ("type", JNum (default 9%Z (cm_type params)))]
           ++ optionalField "quote" (cm_quote params)
           ++ optionalField "temp_target_id" (cm_temp_target_id params)))
    None.

(** The parameters of [sendDirectMessage]. *)
Record DirectMessageParams := {
  dm_target_id : option string;
  dm_chat_code : option string;
  dm_content : string;
  dm_type : option Z;
  dm_quote : option string;
}.

(** [sendDirectMessage] *)
Definition sendDirectMessage (token : string) (params : DirectMessageParams)
  : HttpRequest :=
  kookRequest token "POST" "/direct-message/create"
    (Some ([("content", JStr (dm_content params));
            ("type", JNum (default 9%Z (dm_type params)))]
           ++ optionalField "target_id" (dm_target_id params)
           ++ optionalField "chat_code" (dm_chat_code params)
           ++ optionalField "quote" (dm_quote params)))
    None.

(** [updateChannelMessage] *)
Definition updateChannelMessage (token msg_id content : string) : HttpRequest :=
  kookRequest token "POST" "/message/update"
    (Some [("msg_id", JStr msg_id); ("content", JStr content)]) None.

(** [deleteChannelMessage] *)
Definition deleteChannelMessage (token msg_id : string) : HttpRequest :=
  kookRequest token "POST" "/message/delete" (Some [("msg_id", JStr msg_id)]) None.

(** [createUserChat] *)
Definition createUserChat (token target_id : string) : HttpRequest :=
  kookRequest token "POST" "/user-chat/create"
    (Some [("target_id", JStr target_id)]) None.

(** [KookMessageCreateData] / [KookDmCreateData] *)
Record KookMessageCreateData := {
  created_msg_id : string;
  created_msg_timestamp : Z;
  created_nonce : string;
}.

(** [KookUserChatData], with the field that is read. *)
Record KookUserChatData := { chat_code : string }.

(** The platform as the client meets it: how [fetch] and [res.json()]
    complete for a request, given the requests made before it. *)
Definition Network (T : Type) : Type :=
  list HttpRequest -> HttpRequest -> Completion (Monitor.KookApiResponse T).

(** A computation that makes requests: from the requests made so far to
    the requests made in the end and its completion. *)
Definition Api (A : Type) : Type := list HttpRequest -> list HttpRequest * Completion A.

Definition ret {A} (a : A) : Api A := fun trace => (trace, Returned a).

Definition throw {A} (err : string) : Api A := fun trace => (trace, Threw err).

Definition bind {A B} (m : Api A) (k : A -> Api B) : Api B :=
  fun trace =>
    match m trace with
    | (trace', Returned a) => k a trace'
    | (trace', Threw err) => (trace', Threw err)
    end.

(** [await] of one of the calls above. *)
Definition call {T} (net : Network T) (req : HttpRequest)
  : Api (Monitor.KookApiResponse T) :=
  fun trace => (trace ++ [req], net trace req).

(** [res.message || `code ${res.code}`] *)
Definition messageOrCode {T} (res : Monitor.KookApiResponse T) : string :=
  if Chars.isEmpty (Monitor.message res)
  then "code " +:+ pretty (Monitor.code res)
  else Monitor.message res.

End Client.

(** ** [kook/send.ts] *)

Module Send.

(** [KookSendResult] *)
Record KookSendResult := { messageId : string; chatId : string }.

(** [SendKookMessageParams]; the account is the one [resolveKookAccount]
    yields for [cfg] and [accountId], and an absent [isDm] reads [false]. *)
Record SendKookMessageParams := {
  to : string;
  text : string;
  replyToMessageId : option string;
  isDm : bool;
}.

(** [normalizeTarget] *)
Definition normalizeTarget (target : string) : string :=
  Chars.trim (Chars.stripKook (Chars.stripKookKind target)).

(** [isDm || to.startsWith("user:") || to.startsWith("kook:user:")] *)
Definition isDirectMessage (isDm : bool) (to : string) : bool :=
  isDm || Chars.startsWith to "user:" || Chars.startsWith to "kook:user:".

(** [...(replyToMessageId ? { quote: replyToMessageId } : {})] *)
Definition quoteOf (replyToMessageId : option string) : option string :=
  if JS.truthy replyToMessageId then replyToMessageId else None.

(** [sendMessageKook] *)
Definition sendMessageKook (net : Client.Network Client.KookMessageCreateData)
    (account : ResolvedKookAccount) (params : SendKookMessageParams)
  : Client.Api KookSendResult :=
  if negb (configured account) || negb (JS.truthy (token account)) then
    Client.throw ("KOOK account " +:+ JS.dquote +:+ accountId account
                  +:+ JS.dquote +:+ " not configured")
  else
    let apiToken := default "" (token account) in
    let targetId := normalizeTarget (to params) in
    if Chars.isEmpty targetId then
      Client.throw ("Invalid KOOK target: " +:+ to params)
    else if isDirectMessage (isDm params) (to params) then
      let isChatCode := Chars.isChatCode targetId in
      let dmParams :=
        {| Client.dm_target_id := if isChatCode then None else Some targetId;
           Client.dm_chat_code := if isChatCode then Some targetId else None;
           Client.dm_content := text params;
           Client.dm_type := Some 9%Z;
           Client.dm_quote := quoteOf (replyToMessageId params) |} in
      Client.bind (Client.call net (Client.sendDirectMessage apiToken dmParams))
        (fun res =>
           if negb (Monitor.code res =? 0)%Z then
             Client.throw ("KOOK DM send failed: " +:+ Client.messageOrCode res)
           else
             Client.ret {| messageId := Client.created_msg_id (Monitor.data res);
                           chatId := targetId |})
    else
      Client.bind
        (Client.call net
           (Client.sendChannelMessage apiToken
              {| Client.cm_target_id := targetId;
                 Client.cm_content := text params;
                 Client.cm_type := Some 9%Z;
                 Client.cm_quote := quoteOf (replyToMessageId params);
                 Client.cm_temp_target_id := None |}))
        (fun res =>
           if negb (Monitor.code res =? 0)%Z then
             Client.throw ("KOOK send failed: " +:+ Client.messageOrCode res)
           else
             Client.ret {| messageId := Client.created_msg_id (Monitor.data res);
                           chatId := targetId |}).

(** [createKookDmSession] *)
Definition createKookDmSession (net : Client.Network Client.KookUserChatData)
    (account : ResolvedKookAccount) (userId : string) : Client.Api string :=
  if negb (configured account) || negb (JS.truthy (token account)) then
    Client.throw ("KOOK account " +:+ JS.dquote +:+ accountId account
                  +:+ JS.dquote +:+ " not configured")
  else
    Client.bind
      (Client.call net (Client.createUserChat (default "" (token account)) userId))
      (fun res =>
         if negb (Monitor.code res =? 0)%Z then
           Client.throw ("KOOK create DM session failed: "
                         +:+ Client.messageOrCode res)
         else Client.ret (Client.chat_code (Monitor.data res))).

End Send.

(** ** [outbound.ts] *)

Module Outbound.

(** What [sendText] and [sendMedia] return: [{ channel: "kook", ...result }]. *)
Record OutboundResult := {
  channel : string;
  out_messageId : string;
  out_chatId : string;
}.

Definition tagged (result : Send.KookSendResult) : OutboundResult :=
  {| channel := "kook"; out_messageId := Send.messageId result;
     out_chatId := Send.chatId result |}.

(** [to.startsWith("user:") || to.startsWith("kook:user:")] *)
Definition isDmTarget (to : string) : bool :=
  Chars.startsWith to "user:" || Chars.startsWith to "kook:user:".

(** The call of [sendMessageKook] that every branch makes. *)
Definition send (net : Client.Network Client.KookMessageCreateData)
    (account : ResolvedKookAccount) (to text : string) : Client.Api Send.KookSendResult :=
  Send.sendMessageKook net account
    {| Send.to := to; Send.text := text; Send.replyToMessageId := None;
       Send.isDm := isDmTarget to |}.

(** [kookOutbound.sendText] *)
Definition sendText (net : Client.Network Client.KookMessageCreateData)
    (account : ResolvedKookAccount) (to text : string) : Client.Api OutboundResult :=
  Client.bind (send net account to text) (fun result => Client.ret (tagged result)).

(** [kookOutbound.sendMedia] *)
Definition sendMedia (net : Client.Network Client.KookMessageCreateData)
    (account : ResolvedKookAccount) (to : string) (text mediaUrl : option string)
  : Client.Api OutboundResult :=
  Client.bind
    (if JS.truthy (Chars.trim <$> text)
     then Client.bind (send net account to (default "" text))
                      (fun _ => Client.ret tt)
     else Client.ret tt)
    (fun _ =>
       if JS.truthy mediaUrl then
         Client.bind (send net account to (default "" mediaUrl))
                     (fun result => Client.ret (tagged result))
       else
         Client.bind (send net account to (JS.nullish text ""))
                     (fun result => Client.ret (tagged result))).

End Outbound.

(** ** The reply dispatcher ([createKookReplyDispatcher]) *)

Module ReplyDispatcher.

(** The [for] loop of [deliver]. *)
Fixpoint sendChunks (net : Client.Network Client.KookMessageCreateData)
    (account : ResolvedKookAccount) (to : string) (replyToMessageId : option string)
    (isDm : bool) (chunks : list string) : Client.Api unit :=
  match chunks with
  | [] => Client.ret tt
  | chunk :: chunks' =>
      Client.bind
        (Send.sendMessageKook net account
           {| Send.to := to; Send.text := chunk;
              Send.replyToMessageId := replyToMessageId; Send.isDm := isDm |})
        (fun _ => sendChunks net account to replyToMessageId isDm chunks')
  end.

(** [deliver], the callback handed to the host's dispatcher.
    [chunkTextWithMode] is the host's chunker at the resolved limit and mode;
    an absent [isDm] reads [false]. *)
Definition deliver (net : Client.Network Client.KookMessageCreateData)
    (account : ResolvedKookAccount) (chunkTextWithMode : string -> list string)
    (channelId : string) (replyToMessageId : option string) (isDm : bool)
    (payloadText : option string) : Client.Api unit :=
  let text := JS.nullish payloadText "" in
  if Chars.isEmpty (Chars.trim text) then Client.ret tt
  else
    let chunks := chunkTextWithMode text in
    let to := if isDm then "user:" +:+ channelId else channelId in
    sendChunks net account to replyToMessageId isDm chunks.

End ReplyDispatcher.

(** ** [kook/probe.ts] *)

Module Probe.

(** [KookProbeResult] *)
Record KookProbeResult := {
  ok : bool;
  error : option string;
  botId : option string;
  botName : option string;
}.

(** [probeKook], given the token of [opts] and how [getBotInfo(opts)]
    completes; a thrown value is represented by its message. *)
Definition probeKook (token : option string)
    (botInfo : Completion (Monitor.KookApiResponse Monitor.KookUserData))
  : KookProbeResult :=
  if negb (JS.truthy token) then
    {| ok := false; error := Some "missing credentials (token)";
       botId := None; botName := None |}
  else
    match botInfo with
    | Returned res =>
        if negb (Monitor.code res =? 0)%Z then
          {| ok := false; error := Some ("API error: " +:+ Client.messageOrCode res);
             botId := None; botName := None |}
        else
          {| ok := true; error := None;
             botId := Some (Monitor.user_id (Monitor.data res));
             botName := Some (Monitor.user_username (Monitor.data res)) |}
    | Threw err =>
        {| ok := false; error := Some err; botId := None; botName := None |}
    end.

End Probe.

(** ** [channel.ts] *)

Module Channel.

(** An entry of [channels.kook.accounts] as a raw object: the keys the
    plugin writes, and the policy keys it leaves alone. *)
Record AccountEntry := {
  acc_enabled : option bool;
  acc_name : option string;
  acc_token : option string;
  acc_policies : KookConfig;
}.

(** [channels.kook] as a raw object. *)
Record KookSection := {
  sec_enabled : option bool;
  sec_token : option string;
  sec_name : option string;
  sec_policies : KookConfig;
  sec_accounts : option (gmap string AccountEntry);
}.

(** The configuration as the plugin edits it: [channels.kook], and all the
    rest, which every edit copies over. *)
Record Config := {
  kook : option KookSection;
  rest : ClawdbotConfig;
}.

Definition noPolicies : KookConfig :=
  {| dmPolicy := None; allowFrom := None; groupPolicy := None;
     groupAllowFrom := None; requireMention := None; groups := None |}.

(** [{}] as a section and as an account entry. *)
Definition emptySection : KookSection :=
  {| sec_enabled := None; sec_token := None; sec_name := None;
     sec_policies := noPolicies; sec_accounts := None |}.

Definition emptyEntry : AccountEntry :=
  {| acc_enabled := None; acc_name := None; acc_token := None;
     acc_policies := noPolicies |}.

(** [(cfg.channels?.kook ?? {})] *)
Definition sectionOf (cfg : Config) : KookSection := JS.nullish (kook cfg) emptySection.

(** [(kookCfg.accounts ?? {})] *)
Definition accountsOf (kookCfg : KookSection) : gmap string AccountEntry :=
  JS.nullish (sec_accounts kookCfg) ∅.

(** [{ ...accounts[accountId] }] *)
Definition entryOf (accounts : gmap string AccountEntry) (accountId : string)
  : AccountEntry :=
  default emptyEntry (accounts !! accountId).

(** [{ ...cfg, channels: { ...cfg.channels, kook } }] *)
Definition withSection (cfg : Config) (kookCfg : KookSection) : Config :=
  {| kook := Some kookCfg; rest := rest cfg |}.

(** [{ ...kookCfg, accounts }] *)
Definition withAccounts (kookCfg : KookSection) (accounts : gmap string AccountEntry)
  : KookSection :=
  {| sec_enabled := sec_enabled kookCfg; sec_token := sec_token kookCfg;
     sec_name := sec_name kookCfg; sec_policies := sec_policies kookCfg;
     sec_accounts := Some accounts |}.

Section Plugin.

(** [DEFAULT_ACCOUNT_ID] and [PAIRING_APPROVED_MESSAGE] are constants of
    the plugin SDK. *)
Context (DEFAULT_ACCOUNT_ID PAIRING_APPROVED_MESSAGE : string).

(** [pairing.notifyApproval] *)
Definition notifyApproval (net : Client.Network Client.KookMessageCreateData)
    (account : ResolvedKookAccount) (id : string) : Client.Api unit :=
  Client.bind
    (Send.sendMessageKook net account
       {| Send.to := "user:" +:+ id; Send.text := PAIRING_APPROVED_MESSAGE;
          Send.replyToMessageId := None; Send.isDm := true |})
    (fun _ => Client.ret tt).

(** [config.setAccountEnabled] *)
Definition setAccountEnabled (cfg : Config) (accountId : string) (enabled : bool)
  : Config :=
  let kookCfg := sectionOf cfg in
  if JS.strict_eq accountId DEFAULT_ACCOUNT_ID then
    withSection cfg
      {| sec_enabled := Some enabled; sec_token := sec_token kookCfg;
         sec_name := sec_name kookCfg; sec_policies := sec_policies kookCfg;
         sec_accounts := sec_accounts kookCfg |}
  else
    let accounts := accountsOf kookCfg in
    let entry := entryOf accounts accountId in
    withSection cfg
      (withAccounts kookCfg
         (<[accountId := {| acc_enabled := Some enabled; acc_name := acc_name entry;
                            acc_token := acc_token entry;
                            acc_policies := acc_policies entry |}]> accounts)).

(** [config.deleteAccount] *)
Definition deleteAccount (cfg : Config) (accountId : string) : Config :=
  let kookCfg := sectionOf cfg in
  if JS.strict_eq accountId DEFAULT_ACCOUNT_ID then
    withSection cfg
      {| sec_enabled := None; sec_token := None;
         sec_name := sec_name kookCfg; sec_policies := sec_policies kookCfg;
         sec_accounts := sec_accounts kookCfg |}
  else
    withSection cfg (withAccounts kookCfg (delete accountId (accountsOf kookCfg))).

(** [setup.applyAccountName] *)
Definition applyAccountName (cfg : Config) (accountId : string) (name : option string)
  : Config :=
  let kookCfg := sectionOf cfg in
  if JS.strict_eq accountId DEFAULT_ACCOUNT_ID then
    withSection cfg
      {| sec_enabled := sec_enabled kookCfg; sec_token := sec_token kookCfg;
         sec_name := name; sec_policies := sec_policies kookCfg;
         sec_accounts := sec_accounts kookCfg |}
  else
    let accounts := accountsOf kookCfg in
    let entry := entryOf accounts accountId in
    withSection cfg
      (withAccounts kookCfg
         (<[accountId := {| acc_enabled := acc_enabled entry; acc_name := name;
                            acc_token := acc_token entry;
                            acc_policies := acc_policies entry |}]> accounts)).

(** [setup.validateInput], on [input?.token]: the complaint, if any. *)
Definition validateInput (inputToken : option string) : option string :=
  if negb (JS.truthy (Chars.trim <$> inputToken))
  then Some "Bot token is required. Create one at https://developer.kookapp.cn"
  else None.

(** [setup.applyAccountConfig], on [input?.token]. *)
Definition applyAccountConfig (cfg : Config) (accountId : string)
    (inputToken : option string) : Config :=
  let token := Chars.trim <$> inputToken in
  let kookCfg := sectionOf cfg in
  if JS.strict_eq accountId DEFAULT_ACCOUNT_ID then
    withSection cfg
      {| sec_enabled := Some true; sec_token := token;
         sec_name := sec_name kookCfg; sec_policies := sec_policies kookCfg;
         sec_accounts := sec_accounts kookCfg |}
  else
    let accounts := accountsOf kookCfg in
    let entry := entryOf accounts accountId in
    withSection cfg
      (withAccounts kookCfg
         (<[accountId := {| acc_enabled := Some true; acc_name := acc_name entry;
                            acc_token := token;
                            acc_policies := acc_policies entry |}]> accounts)).

End Plugin.

(** [status.probeAccount], given how [getBotInfo] completes. *)
Definition probeAccount (account : ResolvedKookAccount)
    (botInfo : Completion (Monitor.KookApiResponse Monitor.KookUserData))
  : Probe.KookProbeResult :=
  if negb (JS.truthy (token account)) then
    {| Probe.ok := false; Probe.error := Some "no token";
       Probe.botId := None; Probe.botName := None |}
  else Probe.probeKook (token account) botInfo.

(** [pairing.normalizeAllowEntry] *)
Definition normalizeAllowEntry (entry : string) : string := Chars.stripKookUser entry.

(** [config.formatAllowFrom] *)
Definition formatAllowFrom (allowFrom : list AllowEntry) : list string :=
  map (fun entry => Chars.stripKookUser (String_ entry)) allowFrom.

(** [groups.resolveRequireMention], on the resolved account. *)
Definition resolveRequireMention (account : ResolvedKookAccount) (groupId : string)
  : bool :=
  match groups (config account) with
  | None => true
  | Some groups =>
      let groupConfig :=
        match groups !! groupId with
        | Some gc => Some gc
        | None => groups !! "*"
        end in
      match groupConfig ≫= gc_requireMention with
      | Some b => b
      | None => JS.nullish (requireMention (config account)) true
      end
  end.

(** [messaging.normalizeTarget]; [None] is [null]. *)
Definition normalizeTarget (target : string) : option string :=
  let trimmed := Chars.trim target in
  if Chars.isEmpty trimmed then None
  else Some (Chars.stripKook (Chars.stripKookKind trimmed)).


End Channel.
(** ** Vocabulary of the statements *)

(** The event is the bot's own echo: the bot id is known (a non-empty
    string) and equals the author id. *)
Definition selfEcho (botId : option string) (ev : KookEventData) : Prop :=
  JS.truthy botId = true /\ botId = Some (author_id ev).

(** The message types the monitor hands on: text, KMarkdown, card. *)
Definition supportedType (ev : KookEventData) : Prop :=
  type_ ev = 1%Z \/ type_ ev = 9%Z \/ type_ ev = 10%Z.

(** The ["message"] events of a series of frames. *)
Definition messagesOf (fs : list Monitor.KookSignalFrame) : list Monitor.Event :=
  map (fun f => Monitor.WsMessage (Monitor.Parsed f)) fs.

(** The sequence number held after a series of event frames, starting
    from [lo]: that of the last frame that carries one. *)
Definition lastSn (lo : Z) (fs : list Monitor.KookSignalFrame) : Z :=
  fold_left (fun acc f => default acc (Monitor.frame_sn f)) fs lo.

(** The frames carry sequence numbers that never go below the one held. *)
Fixpoint ascendingFrom (lo : Z) (fs : list Monitor.KookSignalFrame) : Prop :=
  match fs with
  | [] => True
  | f :: fs =>
      match Monitor.frame_sn f with
      | Some n => (lo <= n)%Z /\ ascendingFrom n fs
      | None => ascendingFrom lo fs
      end
  end.

(** The actions by which a session goes for another connection: arming
    the reconnect timer, and requesting the gateway endpoint. *)
Definition startsReconnect (a : Monitor.Action) : bool :=
  match a with
  | Monitor.SetReconnectTimer _ | Monitor.GetGateway => true
  | _ => false
  end.

(** [requireMention] as [handleKookMessage] resolves it for an event. *)
Definition requireMentionOf (account : ResolvedKookAccount) (event : KookEventData)
  : bool :=
  Bot.resolveRequireMention
    (Bot.lookupGroupConfig (config account) (target_id event)
       (extra event ≫= guild_id))
    (config account).

(** The event gets as far as the mention gate of [handleKookMessage]: it is a
    group message, the group policy lets it in, and its group is not
    switched off. *)
Definition reachesMentionGate (account : ResolvedKookAccount) (event : KookEventData)
  : Prop :=
  channel_type event = GROUP
  /\ Bot.isGroupAllowed (Bot.resolveGroupPolicy (config account))
       (JS.nullish (groupAllowFrom (config account)) [])
       (JS.nullish (extra event ≫= guild_id) "") (target_id event) = true
  /\ (Bot.lookupGroupConfig (config account) (target_id event)
        (extra event ≫= guild_id) ≫= gc_enabled) <> Some false.

(** A [groupPolicy] key on a per-channel entry of [groups], if the raw
    object carries one. *)
Definition perChannelGroupPolicy (groupConfig : option KookGroupConfig)
  : option string :=
  groupConfig ≫= fun gc =>
    snd <$> find (fun kv => String.eqb (fst kv) "groupPolicy") (gc_other gc).

Module Spec.

(** The override chain in the words of the spec: "per-channel override,
    then per-account default, then global default (allowlist)". *)
Definition effectiveGroupPolicy (perChannel perAccount : option string) : string :=
  JS.nullish perChannel (JS.nullish perAccount "allowlist").

End Spec.

(** ** Concrete inputs *)

Module Example.

Definition kookConfig : KookConfig :=
  {| dmPolicy := None; allowFrom := None; groupPolicy := Some "open";
     groupAllowFrom := None; requireMention := None; groups := None |}.

Definition account : ResolvedKookAccount :=
  {| accountId := "default"; enabled := true; configured := true;
     token := Some "token"; config := kookConfig |}.

Definition botInfo (id : string)
  : Completion (Monitor.KookApiResponse Monitor.KookUserData) :=
  Returned {| Monitor.code := 0; Monitor.message := "ok";
              Monitor.data := {| Monitor.user_id := id;
                                 Monitor.user_username := "bot" |} |}.

Definition gateway : Monitor.Event :=
  Monitor.GatewayResponse
    (Returned {| Monitor.code := 0; Monitor.message := "ok";
                 Monitor.data := {| Monitor.url := "wss://gateway" |} |}).

Definition hello : Monitor.Event :=
  Monitor.WsMessage
    (Monitor.Parsed {| Monitor.frame_s := 1;
                       Monitor.frame_d := Monitor.SessionData (Some "session-1");
                       Monitor.frame_sn := None |}).

(** A text message in a group channel. *)
Definition groupText (authorId channelId text : string) (mentions : list string)
  : KookEventData :=
  {| channel_type := GROUP; type_ := 1; target_id := channelId;
     author_id := authorId; content := text; msg_id := "m-" +:+ text;
     msg_timestamp := 0; nonce := "";
     extra := Some {| guild_id := Some "guild"; mention := Some mentions;
                      author := None; kmarkdown := None; quote := None |} |}.

Definition eventFrame (ev : KookEventData) (n : Z) : Monitor.KookSignalFrame :=
  {| Monitor.frame_s := 0; Monitor.frame_d := Monitor.EventData ev;
     Monitor.frame_sn := Some n |}.

Definition reconnectFrame : Monitor.KookSignalFrame :=
  {| Monitor.frame_s := 5; Monitor.frame_d := Monitor.SessionData None;
     Monitor.frame_sn := None |}.

(** A session started with the given probe result, up to its fetch of the
    gateway. *)
Definition started (id : string) : Monitor.Session :=
  fst (Monitor.connectWebSocket account (botInfo id) false).

(** The session once the socket is open and the hello frame has arrived. *)
Definition live (id : string) : Monitor.Session :=
  fst (Monitor.run (started id) [gateway; Monitor.WsOpen; hello]).

(** The gateway request answered with an error code. *)
Definition gatewayRefused : Monitor.Event :=
  Monitor.GatewayResponse
    (Returned {| Monitor.code := 401; Monitor.message := "unauthorized";
                 Monitor.data := {| Monitor.url := EmptyString |} |}).

(** Text primitives for texts without mention markup and without runs of
    blanks, on which they change nothing. *)
Definition text : JS.Text :=
  {| JS.strip_met := fun _ t => t; JS.squeeze_spaces := fun t => t;
     JS.trim := fun t => t; JS.preview160 := fun t => t |}.

Definition runtime : PluginRuntime :=
  {| resolveAgentRoute := fun _ acc peer =>
       {| sessionKey := "session:" +:+ peer_id peer; route_accountId := acc;
          agentId := "main" |};
     resolveEnvelopeFormatOptions := fun _ => EnvelopeOptions "default";
     formatAgentEnvelope := fun a =>
       "[" +:+ env_channel a +:+ " " +:+ env_from a +:+ "] " +:+ env_body a
       +:+ JS.newline;
     finalizeInboundContext := fun c => c;
     dispatchReplyFromConfig := fun _ _ _ =>
       Returned {| queuedFinal := true; counts_final := 1 |} |}.

Definition cfg : ClawdbotConfig := {| groupChat_historyLimit := None |}.

Definition host0 : Host := {| systemEvents := []; dispatches := []; idleMarks := 0 |}.

(** An account whose policy is "disabled" while the entry of the channel in
    [groups] carries a [groupPolicy] key of its own. *)
Definition accountWithChannelPolicy : ResolvedKookAccount :=
  {| accountId := "default"; enabled := true; configured := true;
     token := Some "token";
     config :=
       {| dmPolicy := None; allowFrom := None; groupPolicy := Some "disabled";
          groupAllowFrom := None; requireMention := Some false;
          groups := Some {[ "channel" :=
                              {| gc_enabled := None; gc_requireMention := None;
                                 gc_allowFrom := None;
                                 gc_other := [("groupPolicy", "open")] |} ]} |} |}.

(** An account left at the defaults: the policy resolves to "allowlist" and
    the allow-list is empty. *)
Definition defaultAccount : ResolvedKookAccount :=
  {| accountId := "default"; enabled := true; configured := true;
     token := Some "token";
     config := {| dmPolicy := None; allowFrom := None; groupPolicy := None;
                  groupAllowFrom := None; requireMention := None;
                  groups := None |} |}.

End Example.

(** ** Vocabulary of the further statements *)

(** [ws.close()] has been called on the socket of the closure, or the
    socket has closed. *)
Definition socketClosed (c : Monitor.Conn) : bool :=
  bool_decide (Monitor.readyState c = Monitor.CLOSING)
  || bool_decide (Monitor.readyState c = Monitor.CLOSED).

(** The promise of the session is not settled yet. *)
Definition pending (st : Monitor.Session) : bool :=
  match Monitor.outcome st with
  | Monitor.Pending => true
  | _ => false
  end.

(** The reconnect timer is armed. *)
Definition backingOff (st : Monitor.Session) : bool :=
  match Monitor.waiting st with
  | Some _ => true
  | None => false
  end.

(** What holds of a closure in every state a session goes through.  Once
    resolved, its socket is closed, its timers are cleared and the abort
    listener is gone.  Until then its socket is connecting or open, exactly
    one of the hello timer and the heartbeat ticker is armed (the hello timer
    while connecting), the abort listener is registered, and the session has
    neither been aborted nor settled and has no gateway request or reconnect
    timer pending. *)
Definition closureConsistent (st : Monitor.Session) (c : Monitor.Conn) : bool :=
  if Monitor.resolved c then
    socketClosed c && negb (Monitor.heartbeatTimer c) && negb (Monitor.helloTimer c)
    && negb (Monitor.abortListener c)
  else
    negb (socketClosed c)
    && xorb (Monitor.helloTimer c) (Monitor.heartbeatTimer c)
    && implb (bool_decide (Monitor.readyState c = Monitor.CONNECTING))
         (Monitor.helloTimer c)
    && Monitor.abortListener c
    && negb (Monitor.aborted st)
    && negb (Monitor.fetching st)
    && negb (backingOff st)
    && pending st.

(** What holds of a session in every state it goes through: its closure is
    consistent, and a pending gateway request or reconnect timer excludes the
    other and belongs to an unsettled session. *)
Definition sessionConsistent (st : Monitor.Session) : bool :=
  match Monitor.conn st with
  | Some c => closureConsistent st c
  | None => true
  end
  && implb (Monitor.fetching st) (negb (backingOff st) && pending st)
  && implb (backingOff st) (pending st).

(** Nothing of the session is in flight: no gateway request, no reconnect
    timer, no unresolved closure. *)
Definition inert (st : Monitor.Session) : Prop :=
  Monitor.fetching st = false
  /\ Monitor.waiting st = None
  /\ (forall c, Monitor.conn st = Some c -> Monitor.resolved c = true).

(** The actions by which a session reaches out: requesting the gateway
    endpoint, opening a socket, arming the reconnect timer. *)
Definition reachesOut (a : Monitor.Action) : bool :=
  match a with
  | Monitor.GetGateway | Monitor.NewWebSocket _ | Monitor.SetReconnectTimer _ => true
  | _ => false
  end.

(** The gateway request failed: it threw, or its answer bears an error
    code. *)
Definition gatewayFailed
    (r : Completion (Monitor.KookApiResponse Monitor.KookGatewayData)) : Prop :=
  match r with
  | Threw _ => True
  | Returned gwRes => Monitor.code gwRes <> 0%Z
  end.

(** One round of a socket that never opens: the endpoint arrives, the socket
    closes, the reconnect timer runs out. *)
Definition refusedRound (gatewayUrl : string) : list Monitor.Event :=
  [Monitor.GatewayResponse
     (Returned {| Monitor.code := 0; Monitor.message := "";
                  Monitor.data := {| Monitor.url := gatewayUrl |} |});
   Monitor.WsClosed; Monitor.ReconnectTimerFired].

(** The delays of the reconnect timers armed in a run, in order. *)
Definition reconnectTimers (acts : list Monitor.Action) : list Z :=
  omap (fun a => match a with
                 | Monitor.SetReconnectTimer ms => Some ms
                 | _ => None
                 end) acts.

(** One round of a socket that opens and then closes: the endpoint arrives,
    the socket opens, it closes, the reconnect timer runs out. *)
Definition openedRound (gatewayUrl : string) : list Monitor.Event :=
  [Monitor.GatewayResponse
     (Returned {| Monitor.code := 0; Monitor.message := "";
                  Monitor.data := {| Monitor.url := gatewayUrl |} |});
   Monitor.WsOpen; Monitor.WsClosed; Monitor.ReconnectTimerFired].

(** The handler got as far as its [try] block. *)
Definition attemptsDispatch (x : Bot.Exit) : bool :=
  match x with
  | Bot.DispatchComplete _ | Bot.DispatchFailed _ => true
  | _ => false
  end.

(** The direct-message gate of [handleKookMessage] for an event. *)
Definition dmAllowed (account : ResolvedKookAccount) (event : KookEventData) : bool :=
  Bot.isDmAllowed (JS.nullish (dmPolicy (config account)) "pairing")
    (JS.nullish (allowFrom (config account)) []) (author_id event).


(** ** Vocabulary of the statements about sending and configuring *)
(** The string with its ASCII letters in lower case. *)
Fixpoint lowerCase (s : string) : string :=
  match s with
  | EmptyString => EmptyString
  | String a s' => String (Chars.toLower a) (lowerCase s')
  end.

(** The prefixes that [normalizeTarget] strips as a whole. *)
Definition kindPrefixes : list string :=
  ["kook:channel:"; "kook:user:"; "kook:dm:"; "kook:group:"].


(** The account can send: it is configured and holds a non-empty token. *)
Definition canSend (account : ResolvedKookAccount) : bool :=
  configured account && JS.truthy (token account).

(** The value a request body gives to a key. *)
Fixpoint lookupField (key : string) (b : list (string * Client.JsonValue))
  : option Client.JsonValue :=
  match b with
  | [] => None
  | (k, v) :: b' => if String.eqb key k then Some v else lookupField key b'
  end.

Definition field (key : string) (req : Client.HttpRequest) : option Client.JsonValue :=
  Client.body req ≫= lookupField key.

(** The platform answered a request, and with code 0. *)
Definition accepted {T} (c : Completion (Monitor.KookApiResponse T)) : bool :=
  match c with
  | Returned res => (Monitor.code res =? 0)%Z
  | Threw _ => false
  end.

Definition returned {A} (c : Completion A) : bool :=
  match c with
  | Returned _ => true
  | Threw _ => false
  end.

(** The request of [sendMessageKook] for its parameters and the token of
    the account: the argument of its call of [sendDirectMessage] or of
    [sendChannelMessage]. *)
Definition sentRequest (tok : string) (params : Send.SendKookMessageParams)
  : Client.HttpRequest :=
  let targetId := Send.normalizeTarget (Send.to params) in
  if Send.isDirectMessage (Send.isDm params) (Send.to params) then
    Client.sendDirectMessage tok
      {| Client.dm_target_id := if Chars.isChatCode targetId then None else Some targetId;
         Client.dm_chat_code := if Chars.isChatCode targetId then Some targetId else None;
         Client.dm_content := Send.text params;
         Client.dm_type := Some 9%Z;
         Client.dm_quote := Send.quoteOf (Send.replyToMessageId params) |}
  else
    Client.sendChannelMessage tok
      {| Client.cm_target_id := targetId;
         Client.cm_content := Send.text params;
         Client.cm_type := Some 9%Z;
         Client.cm_quote := Send.quoteOf (Send.replyToMessageId params);
         Client.cm_temp_target_id := None |}.

(** The platform accepts whatever it is sent. *)
Definition accepting {T} (net : Client.Network T) : Prop :=
  forall trace req, accepted (net trace req) = true.

(** A direct message addressed to [user:<id>] as the user id, the prefix
    included, and not by a chat code. *)
Definition addressesPrefixedUser (id : string) (req : Client.HttpRequest) : Prop :=
  Client.url req = Client.KOOK_API_BASE +:+ "/direct-message/create"
  /\ field "target_id" req = Some (Client.JStr ("user:" +:+ Chars.trimEnd id))
  /\ field "chat_code" req = None.

(** The keys the plugin writes for an account, as the configuration holds
    them: those of [channels.kook] itself for the default account, and
    otherwise the entry of [channels.kook.accounts] ([{}] when there is
    none). *)
Definition rawAccount (DEFAULT_ACCOUNT_ID : string) (cfg : Channel.Config)
    (accountId : string) : Channel.AccountEntry :=
  let kookCfg := Channel.sectionOf cfg in
  if JS.strict_eq accountId DEFAULT_ACCOUNT_ID then
    {| Channel.acc_enabled := Channel.sec_enabled kookCfg;
       Channel.acc_name := Channel.sec_name kookCfg;
       Channel.acc_token := Channel.sec_token kookCfg;
       Channel.acc_policies := Channel.sec_policies kookCfg |}
  else Channel.entryOf (Channel.accountsOf kookCfg) accountId.

(** A request under the API base that carries the bot token as its first
    header. *)
Definition authorised (tok : string) (req : Client.HttpRequest) : Prop :=
  Client.headers req !! 0%nat = Some ("Authorization", "Bot " +:+ tok)
  /\ exists path, Client.url req = Client.KOOK_API_BASE +:+ path.

(** A POST with a JSON body, announced as such. *)
Definition jsonPost (req : Client.HttpRequest) : Prop :=
  Client.method req = "POST"
  /\ Client.body req <> None
  /\ Client.headers req !! 1%nat = Some ("Content-Type", "application/json")
  /\ Client.searchParams req = [].

(** A GET without body, with no header beside the token. *)
Definition plainGet (req : Client.HttpRequest) : Prop :=
  Client.method req = "GET"
  /\ Client.body req = None
  /\ length (Client.headers req) = 1%nat.

Module Sample.

(** The platform's answer to a message it accepts. *)
Definition created (msg_id : string)
  : Completion (Monitor.KookApiResponse Client.KookMessageCreateData) :=
  Returned {| Monitor.code := 0; Monitor.message := "ok";
              Monitor.data := {| Client.created_msg_id := msg_id;
                                 Client.created_msg_timestamp := 0;
                                 Client.created_nonce := "" |} |}.

(** A platform that accepts every message. *)
Definition online : Client.Network Client.KookMessageCreateData :=
  fun _ _ => created "m2".

(** A platform that cannot be reached. *)
Definition offline : Client.Network Client.KookMessageCreateData :=
  fun _ _ => Threw "fetch failed".

(** A configuration with the default account and one named account. *)
Definition settings : Channel.Config :=
  {| Channel.kook :=
       Some {| Channel.sec_enabled := Some true;
               Channel.sec_token := Some "token";
               Channel.sec_name := None;
               Channel.sec_policies := Channel.noPolicies;
               Channel.sec_accounts :=
                 Some {[ "work" := {| Channel.acc_enabled := Some true;
                                      Channel.acc_name := Some "Work";
                                      Channel.acc_token := Some "token2";
                                      Channel.acc_policies := Channel.noPolicies |} ]} |};
     Channel.rest := Example.cfg |}.


End Sample.

(** * Properties *)

(** ** Facts about the primitives *)

Lemma strict_eq_true a b : JS.strict_eq a b = true <-> a = b.
Proof. apply String.eqb_eq. Qed.

Lemma strict_eq_false a b : JS.strict_eq a b = false <-> a <> b.
Proof. apply String.eqb_neq. Qed.

Lemma truthy_Some s : JS.truthy (Some s) = true <-> s <> "".
Proof.
  simpl. rewrite negb_true_iff. apply String.eqb_neq.
Qed.

Lemma truthy_true_inv o : JS.truthy o = true -> exists s, o = Some s /\ s <> "".
Proof.
  destruct o as [s|]; [|discriminate].
  intros H. exists s. split; [done|]. by apply truthy_Some.
Qed.

(** ** The group policy gate *)

Section GroupPolicy.

Variables (allowFrom : list AllowEntry) (guildId channelId : string).

Lemma isGroupAllowed_disabled :
  Bot.isGroupAllowed "disabled" allowFrom guildId channelId = false.
Proof. reflexivity. Qed.

Lemma isGroupAllowed_open :
  Bot.isGroupAllowed "open" allowFrom guildId channelId = true.
Proof. reflexivity. Qed.

Lemma isGroupAllowed_allowlist :
  Bot.isGroupAllowed "allowlist" allowFrom guildId channelId = true
  <-> exists entry, entry ∈ allowFrom
                    /\ (String_ entry = guildId \/ String_ entry = channelId).
Proof.
  unfold Bot.isGroupAllowed. simpl.
  rewrite existsb_exists. split.
  - intros (entry & Hin & Hm). exists entry. split.
    + by apply list_elem_of_In.
    + apply orb_true_iff in Hm as [Hm|Hm]; apply strict_eq_true in Hm; auto.
  - intros (entry & Hin & Hm). exists entry. split.
    + by apply list_elem_of_In.
    + apply orb_true_iff. destruct Hm as [Hm|Hm]; [left|right];
        by apply strict_eq_true.
Qed.

End GroupPolicy.

(** ** The reconnect backoff *)

Lemma reconnectWait_eq (n : Z) :
  Monitor.reconnectWait n = Z.min (2000 * 2 ^ (n - 1)) 60000.
Proof. reflexivity. Qed.

Lemma reconnectWait_capped (n : Z) : (6 <= n)%Z -> Monitor.reconnectWait n = 60000%Z.
Proof.
  intros Hn. rewrite reconnectWait_eq.
  assert (2 ^ 5 <= 2 ^ (n - 1))%Z as Hpow
    by (apply Z.pow_le_mono_r; lia).
  change (2 ^ 5)%Z with 32%Z in Hpow. lia.
Qed.

Lemma scheduleReconnect_live (st : Monitor.Session) :
  Monitor.aborted st = false ->
  Monitor.scheduleReconnect st
  = (Monitor.with_waiting
       (Some (Monitor.reconnectWait (Monitor.reconnectAttempt st + 1)))
       (Monitor.with_reconnectAttempt (Monitor.reconnectAttempt st + 1) st),
     [Monitor.SetReconnectTimer
        (Monitor.reconnectWait (Monitor.reconnectAttempt st + 1))]).
Proof. intros Hab. unfold Monitor.scheduleReconnect. by rewrite Hab. Qed.

(** C8. The [n]-th reconnect attempt in a row, [n >= 1], arms the reconnect
    timer with [min(2000 * 2^(n-1), 60000)] milliseconds; at [n = 6] the
    product is 64000 and the wait is the cap, 60000, as it is from there on. *)
Theorem reconnect_backoff (st : Monitor.Session) (n : Z) :
  (1 <= n)%Z ->
  Monitor.aborted st = false ->
  Monitor.reconnectAttempt st = (n - 1)%Z ->
  let waitMs := Z.min (2000 * 2 ^ (n - 1)) 60000 in
  Monitor.scheduleReconnect st
  = (Monitor.with_waiting (Some waitMs) (Monitor.with_reconnectAttempt n st),
     [Monitor.SetReconnectTimer waitMs])
  /\ (n = 6%Z -> (2000 * 2 ^ (n - 1) = 64000)%Z /\ waitMs = 60000%Z)
  /\ (6 <= n -> waitMs = 60000)%Z.
Proof.
  intros Hn Hab Hatt waitMs. split; [|split].
  - rewrite (scheduleReconnect_live st Hab), Hatt.
    replace (n - 1 + 1)%Z with n by lia. reflexivity.
  - intros ->. split; reflexivity.
  - intros H6. subst waitMs. rewrite <- reconnectWait_eq.
    by apply reconnectWait_capped.
Qed.

Lemma reconnect_backoff_witness :
  let st := Monitor.with_reconnectAttempt 5 (Monitor.initial None false) in
  Monitor.scheduleReconnect st
  = (Monitor.with_waiting (Some 60000%Z) (Monitor.with_reconnectAttempt 6 st),
     [Monitor.SetReconnectTimer 60000]).
Proof.
  intros st.
  exact (proj1 (reconnect_backoff st 6 ltac:(lia) eq_refl eq_refl)).
Defined.

(** ** The admission of event frames *)

Section Admission.

Variables (botId : option string) (ev : KookEventData).

Lemma selfEcho_test :
  JS.truthy botId && JS.strict_eq (author_id ev) (default "" botId) = true
  <-> selfEcho botId ev.
Proof.
  unfold selfEcho. rewrite andb_true_iff. split.
  - intros [Ht He]. split; [done|].
    destruct botId as [b|]; [|discriminate].
    apply strict_eq_true in He. simpl in He. by subst.
  - intros [Ht ->]. split; [done|]. simpl. by apply strict_eq_true.
Qed.

Lemma admission_SkipSelf : Monitor.admission botId ev = Monitor.SkipSelf <-> selfEcho botId ev.
Proof.
  rewrite <- selfEcho_test. unfold Monitor.admission.
  destruct (JS.truthy botId && _); [done|].
  repeat case_match; split; congruence.
Qed.

Lemma admission_SkipSystem :
  Monitor.admission botId ev = Monitor.SkipSystem
  <-> ~ selfEcho botId ev /\ type_ ev = 255%Z.
Proof.
  rewrite <- selfEcho_test. unfold Monitor.admission.
  destruct (JS.truthy botId && _).
  - split; [congruence|]. intros [H _]. by destruct H.
  - destruct (Z.eqb_spec (type_ ev) 255) as [E|E].
    + split; [|done]. intros _. split; [congruence|done].
    + repeat case_match; split; try congruence; intros [_ ?]; done.
Qed.

Lemma admission_SkipUnsupported :
  Monitor.admission botId ev = Monitor.SkipUnsupported
  <-> ~ selfEcho botId ev /\ type_ ev <> 255%Z /\ ~ supportedType ev.
Proof.
  rewrite <- selfEcho_test. unfold Monitor.admission, supportedType.
  destruct (JS.truthy botId && _).
  - split; [congruence|]. intros [H _]. by destruct H.
  - destruct (Z.eqb_spec (type_ ev) 255) as [E|E].
    + split; [congruence|]. intros (_ & H & _). done.
    + destruct (Z.eqb_spec (type_ ev) 1), (Z.eqb_spec (type_ ev) 9),
        (Z.eqb_spec (type_ ev) 10); simpl;
        (split; [intros H; try congruence; repeat split; try congruence; lia
                | intros (_ & _ & H); try done; exfalso; apply H; lia]).
Qed.

Lemma admission_Forward :
  Monitor.admission botId ev = Monitor.Forward
  <-> ~ selfEcho botId ev /\ type_ ev <> 255%Z /\ supportedType ev.
Proof.
  rewrite <- selfEcho_test. unfold Monitor.admission, supportedType.
  destruct (JS.truthy botId && _).
  - split; [congruence|]. intros [H _]. by destruct H.
  - destruct (Z.eqb_spec (type_ ev) 255) as [E|E].
    + split; [congruence|]. intros (_ & H & _). done.
    + destruct (Z.eqb_spec (type_ ev) 1), (Z.eqb_spec (type_ ev) 9),
        (Z.eqb_spec (type_ ev) 10); simpl;
        (split; [intros H; try congruence; repeat split; try congruence; lia
                | intros (_ & _ & H); try done; exfalso; lia]).
Qed.

End Admission.


Lemma step_message_open (st : Monitor.Session) (c : Monitor.Conn)
    (data : Monitor.WsData) :
  Monitor.conn st = Some c ->
  Monitor.readyState c = Monitor.OPEN ->
  Monitor.step st (Monitor.WsMessage data) = Monitor.onMessage c data st.
Proof. intros Hc Hr. simpl. rewrite Hc, Hr. reflexivity. Qed.

Lemma onFrame_event (c : Monitor.Conn) (st : Monitor.Session)
    (d : Monitor.Payload) (n : option Z) :
  Monitor.onFrame c
    {| Monitor.frame_s := 0; Monitor.frame_d := d; Monitor.frame_sn := n |} st
  = (match n with Some k => Monitor.with_sn k st | None => st end,
     match d with
     | Monitor.EventData ev =>
         if decide (Monitor.admission (Monitor.botId st) ev = Monitor.Forward)
         then [Monitor.HandleKookMessage ev] else []
     | Monitor.SessionData _ => []
     end).
Proof.
  unfold Monitor.onFrame. simpl.
  destruct d as [sid|ev]; [by destruct n|].
  destruct n; simpl;
    destruct (Monitor.admission (Monitor.botId st) ev); by case_decide.
Qed.

(** The claim of C3 as it is worded fails for a bot id that is the empty
    string: [botId && ...] is then falsy, and an event whose author id is
    also empty is handed to the handler although the two ids are equal. *)
Lemma admission_forwards_equal_ids :
  let ev := Example.groupText "" "channel" "hi" [] in
  let st := Example.live "" in
  Monitor.botId st = Some (author_id ev)
  /\ Monitor.step st (Monitor.WsMessage (Monitor.Parsed (Example.eventFrame ev 1)))
     = (Monitor.with_sn 1 st, [Monitor.HandleKookMessage ev]).
Proof. split; reflexivity. Qed.

(** C3, amended. An event frame's payload goes through three checks in
    this order: the bot's own echo (the bot id is known, that is non-empty,
    and equals the author id), the system type 255, a type outside 1, 9, 10;
    it is handed to the handler exactly when it passes all three, and the
    frame produces no other action.  So no event whose author id equals a
    known bot id is ever handed on. *)
Theorem admission_pipeline (c : Monitor.Conn) (st : Monitor.Session)
    (ev : KookEventData) (n : option Z) :
  let botId := Monitor.botId st in
  let frame := {| Monitor.frame_s := 0; Monitor.frame_d := Monitor.EventData ev;
                  Monitor.frame_sn := n |} in
  (Monitor.admission botId ev = Monitor.SkipSelf <-> selfEcho botId ev)
  /\ (Monitor.admission botId ev = Monitor.SkipSystem
      <-> ~ selfEcho botId ev /\ type_ ev = 255%Z)
  /\ (Monitor.admission botId ev = Monitor.SkipUnsupported
      <-> ~ selfEcho botId ev /\ type_ ev <> 255%Z /\ ~ supportedType ev)
  /\ (Monitor.admission botId ev = Monitor.Forward
      <-> ~ selfEcho botId ev /\ type_ ev <> 255%Z /\ supportedType ev)
  /\ snd (Monitor.onFrame c frame st)
     = (if decide (Monitor.admission botId ev = Monitor.Forward)
        then [Monitor.HandleKookMessage ev] else [])
  /\ (selfEcho botId ev -> snd (Monitor.onFrame c frame st) = []).
Proof.
  intros botId frame.
  split; [apply admission_SkipSelf|].
  split; [apply admission_SkipSystem|].
  split; [apply admission_SkipUnsupported|].
  split; [apply admission_Forward|].
  subst frame. rewrite onFrame_event. simpl. split; [done|].
  intros Hself. apply admission_SkipSelf in Hself. fold botId.
  rewrite Hself. by case_decide.
Qed.

Lemma admission_pipeline_witness :
  let ev := Example.groupText "bot" "channel" "hi" [] in
  let st := Example.live "bot" in
  let c := {| Monitor.readyState := Monitor.OPEN; Monitor.heartbeatTimer := true;
              Monitor.helloTimer := false; Monitor.resolved := false;
              Monitor.abortListener := true |} in
  selfEcho (Monitor.botId st) ev
  /\ snd (Monitor.onFrame c (Example.eventFrame ev 1) st) = [].
Proof.
  intros ev st c.
  assert (selfEcho (Monitor.botId st) ev) as Hself by (split; reflexivity).
  split; [exact Hself|].
  exact (proj2 (proj2 (proj2 (proj2 (proj2
           (admission_pipeline c st ev (Some 1%Z)))))) Hself).
Defined.

(** ** The sequence number *)

Lemma frame_eta (f : Monitor.KookSignalFrame) :
  f = {| Monitor.frame_s := Monitor.frame_s f; Monitor.frame_d := Monitor.frame_d f;
         Monitor.frame_sn := Monitor.frame_sn f |}.
Proof. by destruct f. Qed.

Lemma step_event_frame (st : Monitor.Session) (c : Monitor.Conn)
    (f : Monitor.KookSignalFrame) :
  Monitor.conn st = Some c ->
  Monitor.readyState c = Monitor.OPEN ->
  Monitor.frame_s f = 0%Z ->
  fst (Monitor.step st (Monitor.WsMessage (Monitor.Parsed f)))
  = match Monitor.frame_sn f with
    | Some k => Monitor.with_sn k st
    | None => st
    end.
Proof.
  intros Hc Hr Hs. rewrite (step_message_open st c _ Hc Hr). simpl.
  rewrite (frame_eta f), Hs, onFrame_event. reflexivity.
Qed.

Lemma run_cons (st : Monitor.Session) (e : Monitor.Event) (es : list Monitor.Event) :
  fst (Monitor.run st (e :: es)) = fst (Monitor.run (fst (Monitor.step st e)) es).
Proof.
  simpl. destruct (Monitor.step st e) as [st1 a1]. simpl.
  by destruct (Monitor.run st1 es).
Qed.

Lemma run_app (st : Monitor.Session) (es1 es2 : list Monitor.Event) :
  fst (Monitor.run st (es1 ++ es2))
  = fst (Monitor.run (fst (Monitor.run st es1)) es2).
Proof.
  revert st. induction es1 as [|e es1 IH]; intros st; [done|].
  rewrite <- app_comm_cons, !run_cons. apply IH.
Qed.

Lemma run_event_frames (fs : list Monitor.KookSignalFrame) :
  forall (st : Monitor.Session) (c : Monitor.Conn),
    Monitor.conn st = Some c ->
    Monitor.readyState c = Monitor.OPEN ->
    Forall (fun f => Monitor.frame_s f = 0%Z) fs ->
    Monitor.sn (fst (Monitor.run st (messagesOf fs))) = lastSn (Monitor.sn st) fs
    /\ Monitor.conn (fst (Monitor.run st (messagesOf fs))) = Some c.
Proof.
  induction fs as [|f fs IH]; intros st c Hc Hr Hall; [done|].
  inversion Hall as [|? ? Hf Hfs]; subst.
  unfold messagesOf. rewrite map_cons, run_cons.
  rewrite (step_event_frame st c f Hc Hr Hf). fold (messagesOf fs).
  destruct (Monitor.frame_sn f) as [k|] eqn:Hk.
  - destruct (IH (Monitor.with_sn k st) c Hc Hr Hfs) as [IH1 IH2].
    split; [|done]. rewrite IH1. simpl. by rewrite Hk.
  - destruct (IH st c Hc Hr Hfs) as [IH1 IH2].
    split; [|done]. rewrite IH1. simpl. by rewrite Hk.
Qed.

Lemma lastSn_app (lo : Z) (fs1 fs2 : list Monitor.KookSignalFrame) :
  lastSn lo (fs1 ++ fs2) = lastSn (lastSn lo fs1) fs2.
Proof. apply fold_left_app. Qed.

Lemma ascendingFrom_le (fs : list Monitor.KookSignalFrame) :
  forall lo, ascendingFrom lo fs -> (lo <= lastSn lo fs)%Z.
Proof.
  induction fs as [|f fs IH]; intros lo Hasc; [simpl; lia|].
  simpl in *. destruct (Monitor.frame_sn f) as [k|]; simpl.
  - destruct Hasc as [Hle Hasc]. specialize (IH k Hasc). lia.
  - by apply IH.
Qed.

Lemma ascendingFrom_app (fs1 fs2 : list Monitor.KookSignalFrame) :
  forall lo, ascendingFrom lo (fs1 ++ fs2) -> ascendingFrom (lastSn lo fs1) fs2.
Proof.
  induction fs1 as [|f fs1 IH]; intros lo Hasc; [done|].
  simpl in *. destruct (Monitor.frame_sn f) as [k|]; simpl.
  - destruct Hasc as [_ Hasc]. by apply IH.
  - by apply IH.
Qed.

Lemma step_reconnect_frame_sn (st : Monitor.Session) (c : Monitor.Conn)
    (f : Monitor.KookSignalFrame) :
  Monitor.conn st = Some c ->
  Monitor.readyState c = Monitor.OPEN ->
  Monitor.frame_s f = 5%Z ->
  Monitor.sn (fst (Monitor.step st (Monitor.WsMessage (Monitor.Parsed f)))) = 0%Z
  /\ Monitor.sessionId (fst (Monitor.step st (Monitor.WsMessage (Monitor.Parsed f))))
     = "".
Proof.
  intros Hc Hr Hs. rewrite (step_message_open st c _ Hc Hr). simpl.
  unfold Monitor.onFrame. rewrite Hs. simpl.
  unfold Monitor.resolveByReconnect, Monitor.scheduleReconnect, Monitor.settle.
  simpl. repeat case_match; simplify_eq; done.
Qed.

(** The claim of C1 as it is worded fails: an event frame stores the
    sequence number it carries, whatever the one held.  After the frames
    numbered 5 and 3 the session holds 3. *)
Lemma lastSequence_decreases :
  let ev := Example.groupText "user" "channel" "hi" [] in
  let st5 := fst (Monitor.run (Example.live "bot")
                    (messagesOf [Example.eventFrame ev 5])) in
  let st3 := fst (Monitor.step st5
                    (Monitor.WsMessage (Monitor.Parsed (Example.eventFrame ev 3)))) in
  Monitor.sn st5 = 5%Z /\ Monitor.sn st3 = 3%Z /\ (Monitor.sn st3 < Monitor.sn st5)%Z.
Proof. repeat split. Qed.

(** C1, amended. On an open socket an event frame stores the sequence
    number it carries and leaves the stored one alone when it carries none;
    so across a series of event frames whose numbers never go below the one
    held, the stored number never decreases.  A reconnect frame (s = 5)
    resets it to 0, and a new session starts from 0. *)
Theorem lastSequence_follows_frames (st : Monitor.Session) (c : Monitor.Conn) :
  Monitor.conn st = Some c ->
  Monitor.readyState c = Monitor.OPEN ->
  (forall f, Monitor.frame_s f = 0%Z ->
     Monitor.sn (fst (Monitor.step st (Monitor.WsMessage (Monitor.Parsed f))))
     = default (Monitor.sn st) (Monitor.frame_sn f))
  /\ (forall fs1 fs2,
        Forall (fun f => Monitor.frame_s f = 0%Z) (fs1 ++ fs2) ->
        ascendingFrom (Monitor.sn st) (fs1 ++ fs2) ->
        (Monitor.sn st <= Monitor.sn (fst (Monitor.run st (messagesOf fs1)))
         <= Monitor.sn (fst (Monitor.run st (messagesOf (fs1 ++ fs2)))))%Z)
  /\ (forall f, Monitor.frame_s f = 5%Z ->
        Monitor.sn (fst (Monitor.step st (Monitor.WsMessage (Monitor.Parsed f))))
        = 0%Z)
  /\ (forall botId aborted, Monitor.sn (Monitor.initial botId aborted) = 0%Z).
Proof.
  intros Hc Hr. split; [|split; [|split]].
  - intros f Hs. rewrite (step_event_frame st c f Hc Hr Hs).
    by destruct (Monitor.frame_sn f).
  - intros fs1 fs2 Hall Hasc.
    apply Forall_app in Hall as [Hall1 Hall2].
    destruct (run_event_frames fs1 st c Hc Hr Hall1) as [Hsn1 Hc1].
    unfold messagesOf. rewrite map_app, run_app. fold (messagesOf fs1) (messagesOf fs2).
    destruct (run_event_frames fs2 _ c Hc1 Hr Hall2) as [Hsn2 _].
    rewrite Hsn2, Hsn1. split.
    + apply ascendingFrom_le.
      clear -Hasc. revert Hasc. generalize (Monitor.sn st).
      induction fs1 as [|f fs1 IH]; intros lo Hasc; [done|].
      simpl in *. destruct (Monitor.frame_sn f); [|by apply IH].
      destruct Hasc as [? Hasc]. split; [done|]. by apply IH.
    + apply ascendingFrom_le. by apply ascendingFrom_app.
  - intros f Hs. by apply (step_reconnect_frame_sn st c f Hc Hr Hs).
  - done.
Qed.

Lemma lastSequence_follows_frames_witness :
  let ev := Example.groupText "user" "channel" "hi" [] in
  let st := Example.live "bot" in
  (Monitor.sn st
   <= Monitor.sn (fst (Monitor.run st (messagesOf [Example.eventFrame ev 3])))
   <= Monitor.sn (fst (Monitor.run st (messagesOf ([Example.eventFrame ev 3]
                                                     ++ [Example.eventFrame ev 5])))))%Z
  /\ Monitor.sn (fst (Monitor.step st
                        (Monitor.WsMessage (Monitor.Parsed Example.reconnectFrame))))
     = 0%Z.
Proof.
  intros ev st.
  destruct (lastSequence_follows_frames st
              {| Monitor.readyState := Monitor.OPEN; Monitor.heartbeatTimer := true;
                 Monitor.helloTimer := false; Monitor.resolved := false;
                 Monitor.abortListener := true |} eq_refl eq_refl)
    as (_ & Hmono & Hreset & _).
  split.
  - apply Hmono.
    + repeat constructor.
    + simpl. lia.
  - apply Hreset. reflexivity.
Defined.

(** ** The hello frame and the attempt count *)

Lemma step_hello_frame (st : Monitor.Session) (c : Monitor.Conn)
    (f : Monitor.KookSignalFrame) :
  Monitor.conn st = Some c ->
  Monitor.readyState c = Monitor.OPEN ->
  Monitor.frame_s f = 1%Z ->
  let st' := fst (Monitor.step st (Monitor.WsMessage (Monitor.Parsed f))) in
  snd (Monitor.step st (Monitor.WsMessage (Monitor.Parsed f)))
  = ((if Monitor.helloTimer c then [Monitor.ClearHelloTimer] else [])
       ++ [Monitor.SetHeartbeatTimer 30000])%list
  /\ Monitor.conn st'
     = Some {| Monitor.readyState := Monitor.OPEN; Monitor.heartbeatTimer := true;
               Monitor.helloTimer := false; Monitor.resolved := Monitor.resolved c;
               Monitor.abortListener := Monitor.abortListener c |}
  /\ Monitor.sessionId st'
     = default (Monitor.sessionId st) (Monitor.payload_session_id (Monitor.frame_d f))
  /\ Monitor.reconnectAttempt st' = Monitor.reconnectAttempt st
  /\ Monitor.sn st' = Monitor.sn st.
Proof.
  intros Hc Hr Hs st'. subst st'.
  rewrite (step_message_open st c _ Hc Hr). simpl.
  unfold Monitor.onFrame. rewrite Hs, Hr. simpl.
  destruct (Monitor.heartbeatTimer c); simpl; done.
Qed.

Lemma step_open (st : Monitor.Session) (c : Monitor.Conn) :
  Monitor.conn st = Some c ->
  Monitor.readyState c = Monitor.CONNECTING ->
  Monitor.step st Monitor.WsOpen
  = (Monitor.with_reconnectAttempt 0
       (Monitor.with_conn (Some (Monitor.withReadyState Monitor.OPEN c)) st), []).
Proof. intros Hc Hr. simpl. rewrite Hc, Hr. reflexivity. Qed.

(** The claim of C5 as it is worded fails: the attempt count is reset by
    the socket's "open" event, not by the hello frame.  A gateway that
    accepts the socket and never says hello lets the count go from 1 back to
    0 although no hello frame has arrived in the whole run, and the next
    hello timeout waits 2000 ms again. *)
Lemma attempt_reset_without_hello :
  let es := [Example.gateway; Monitor.WsOpen; Monitor.HelloTimerFired;
             Monitor.ReconnectTimerFired; Example.gateway] in
  let st1 := fst (Monitor.run (Example.started "bot") es) in
  let st2 := fst (Monitor.step st1 Monitor.WsOpen) in
  Monitor.reconnectAttempt st1 = 1%Z
  /\ Monitor.reconnectAttempt st2 = 0%Z
  /\ (Monitor.heartbeatTimer <$> Monitor.conn st2) = Some false
  /\ snd (Monitor.step st2 Monitor.HelloTimerFired)
     = [Monitor.ClearHelloTimer; Monitor.WsClose; Monitor.SetReconnectTimer 2000].
Proof. repeat split. Qed.

(** C5, amended. A hello frame (s = 1) on an open socket that awaits it
    clears the hello timer, stores the session id the frame carries (keeping
    the old one when it carries none), and starts the heartbeat ticker of
    30000 ms, whose ticks send a ping with the stored sequence number; it
    leaves the reconnect attempt count as it is.  The attempt count is reset
    to 0 by the socket's "open" event. *)
Theorem hello_starts_heartbeat (st : Monitor.Session) (c : Monitor.Conn)
    (f : Monitor.KookSignalFrame) :
  Monitor.conn st = Some c ->
  Monitor.readyState c = Monitor.OPEN ->
  Monitor.helloTimer c = true ->
  Monitor.frame_s f = 1%Z ->
  let hello := Monitor.WsMessage (Monitor.Parsed f) in
  let st' := fst (Monitor.step st hello) in
  snd (Monitor.step st hello)
  = [Monitor.ClearHelloTimer; Monitor.SetHeartbeatTimer 30000]
  /\ (Monitor.helloTimer <$> Monitor.conn st') = Some false
  /\ (Monitor.heartbeatTimer <$> Monitor.conn st') = Some true
  /\ Monitor.sessionId st'
     = default (Monitor.sessionId st) (Monitor.payload_session_id (Monitor.frame_d f))
  /\ Monitor.step st' Monitor.HeartbeatTick = (st', [Monitor.WsSendPing (Monitor.sn st)])
  /\ Monitor.reconnectAttempt st' = Monitor.reconnectAttempt st
  /\ (forall st0 c0,
        Monitor.conn st0 = Some c0 ->
        Monitor.readyState c0 = Monitor.CONNECTING ->
        Monitor.reconnectAttempt (fst (Monitor.step st0 Monitor.WsOpen)) = 0%Z).
Proof.
  intros Hc Hr Hh Hs hello st'.
  destruct (step_hello_frame st c f Hc Hr Hs) as (Ha & Hc' & Hsid & Hatt & Hsn).
  fold hello in Ha, Hc', Hsid, Hatt, Hsn. fold st' in Hc', Hsid, Hatt, Hsn.
  rewrite Hh in Ha.
  split; [exact Ha|]. split; [by rewrite Hc'|]. split; [by rewrite Hc'|].
  split; [exact Hsid|]. split.
  - simpl. rewrite Hc'. simpl. by rewrite Hsn.
  - split; [exact Hatt|].
    intros st0 c0 Hc0 Hr0. by rewrite (step_open st0 c0 Hc0 Hr0).
Qed.

Lemma hello_starts_heartbeat_witness :
  let st := fst (Monitor.run (Example.started "bot")
                   [Example.gateway; Monitor.WsOpen]) in
  let st' := fst (Monitor.step st Example.hello) in
  snd (Monitor.step st Example.hello)
  = [Monitor.ClearHelloTimer; Monitor.SetHeartbeatTimer 30000]
  /\ Monitor.sessionId st' = "session-1".
Proof.
  intros st st'.
  destruct (hello_starts_heartbeat st
              {| Monitor.readyState := Monitor.OPEN; Monitor.heartbeatTimer := false;
                 Monitor.helloTimer := true; Monitor.resolved := false;
                 Monitor.abortListener := true |}
              {| Monitor.frame_s := 1;
                 Monitor.frame_d := Monitor.SessionData (Some "session-1");
                 Monitor.frame_sn := None |}
              eq_refl eq_refl eq_refl eq_refl)
    as (Ha & _ & _ & Hsid & _).
  split; [exact Ha | exact Hsid].
Defined.

(** ** The reconnect frame *)

(** The clearing of the timers that [cleanup] performs on a connection. *)
Lemma cleanup_actions (c : Monitor.Conn) :
  snd (Monitor.cleanup c)
  = ((if Monitor.heartbeatTimer c then [Monitor.ClearHeartbeatTimer] else [])
       ++ (if Monitor.helloTimer c then [Monitor.ClearHelloTimer] else [])
       ++ [Monitor.WsClose])%list
  /\ Monitor.heartbeatTimer (fst (Monitor.cleanup c)) = false
  /\ Monitor.helloTimer (fst (Monitor.cleanup c)) = false
  /\ Monitor.readyState (fst (Monitor.cleanup c))
     = Monitor.closeCalled (Monitor.readyState c).
Proof. done. Qed.

(** C7. A reconnect frame (s = 5) on a live session resets the session id
    to the empty string and the sequence number to 0, clears the timers and
    closes the socket, and arms the reconnect timer with the backoff wait;
    when that timer fires the session first requests the gateway endpoint
    again, and opens the next socket only on the endpoint it then receives. *)
Theorem reconnect_frame_resets (st : Monitor.Session) (c : Monitor.Conn)
    (f : Monitor.KookSignalFrame) :
  Monitor.conn st = Some c ->
  Monitor.readyState c = Monitor.OPEN ->
  Monitor.resolved c = false ->
  Monitor.aborted st = false ->
  Monitor.frame_s f = 5%Z ->
  let r1 := Monitor.step st (Monitor.WsMessage (Monitor.Parsed f)) in
  let waitMs := Monitor.reconnectWait (Monitor.reconnectAttempt st + 1) in
  let r2 := Monitor.step (fst r1) Monitor.ReconnectTimerFired in
  Monitor.sessionId (fst r1) = ""
  /\ Monitor.sn (fst r1) = 0%Z
  /\ snd r1
     = ((if Monitor.heartbeatTimer c then [Monitor.ClearHeartbeatTimer] else [])
          ++ (if Monitor.helloTimer c then [Monitor.ClearHelloTimer] else [])
          ++ [Monitor.WsClose; Monitor.SetReconnectTimer waitMs])%list
  /\ Monitor.conn (fst r1)
     = Some {| Monitor.readyState := Monitor.CLOSING; Monitor.heartbeatTimer := false;
               Monitor.helloTimer := false; Monitor.resolved := true;
               Monitor.abortListener := false |}
  /\ Monitor.waiting (fst r1) = Some waitMs
  /\ Monitor.fetching (fst r1) = Monitor.fetching st
  /\ snd r2 = [Monitor.GetGateway]
  /\ Monitor.fetching (fst r2) = true
  /\ (forall message gatewayUrl,
        snd (Monitor.step (fst r2)
               (Monitor.GatewayResponse
                  (Returned {| Monitor.code := 0; Monitor.message := message;
                               Monitor.data := {| Monitor.url := gatewayUrl |} |})))
        = [Monitor.NewWebSocket gatewayUrl; Monitor.SetHelloTimer 6000]).
Proof.
  intros Hc Hr Hres Hab Hs r1 waitMs r2. subst r1 r2 waitMs.
  rewrite (step_message_open st c _ Hc Hr). simpl Monitor.onMessage.
  destruct st as [bid ab sn0 sid att cn fe wa oc stray].
  destruct c as [rs hb he res al]. simpl in *. subst.
  unfold Monitor.onFrame. rewrite Hs. simpl.
  unfold Monitor.resolveByReconnect, Monitor.scheduleReconnect. simpl.
  repeat split; try reflexivity.
  - by rewrite <- !app_assoc.
Qed.

Lemma reconnect_frame_resets_witness :
  let r1 := Monitor.step (Example.live "bot")
              (Monitor.WsMessage (Monitor.Parsed Example.reconnectFrame)) in
  let r2 := Monitor.step (fst r1) Monitor.ReconnectTimerFired in
  Monitor.sessionId (fst r1) = ""
  /\ Monitor.sn (fst r1) = 0%Z
  /\ snd r1 = [Monitor.ClearHeartbeatTimer; Monitor.WsClose;
               Monitor.SetReconnectTimer 2000]
  /\ snd r2 = [Monitor.GetGateway].
Proof.
  intros r1 r2.
  destruct (reconnect_frame_resets (Example.live "bot")
              {| Monitor.readyState := Monitor.OPEN; Monitor.heartbeatTimer := true;
                 Monitor.helloTimer := false; Monitor.resolved := false;
                 Monitor.abortListener := true |}
              Example.reconnectFrame eq_refl eq_refl eq_refl eq_refl eq_refl)
    as (H1 & H2 & H3 & _ & _ & _ & H4 & _).
  split; [exact H1|]. split; [exact H2|]. split; [exact H3 | exact H4].
Defined.

(** ** Cancellation *)

(** Case analysis on the variables of a session and of a connection. *)
Ltac session st :=
  destruct st as [bid ab sn0 sid att cn fe wa oc stray]; simpl in *.

Ltac connection c :=
  destruct c as [rs hb he res al]; simpl in *.


Lemma settle_aborted (o : Monitor.Outcome) (st : Monitor.Session) :
  Monitor.aborted (Monitor.settle o st) = Monitor.aborted st.
Proof. unfold Monitor.settle. by destruct (Monitor.outcome st). Qed.

(** Closes the goals on a step that neither lifts the abort flag nor starts
    a reconnect. *)
Ltac quiet_step :=
  rewrite ?settle_aborted; simpl; split; try done; repeat constructor.

Lemma settle_settled (o : Monitor.Outcome) (st : Monitor.Session) :
  Monitor.outcome st <> Monitor.Pending ->
  Monitor.outcome (Monitor.settle o st) = Monitor.outcome st.
Proof.
  intros H. unfold Monitor.settle.
  destruct (Monitor.outcome st) eqn:E; [by destruct H|done..].
Qed.

Lemma step_after_abort (st : Monitor.Session) (e : Monitor.Event) :
  Monitor.aborted st = true ->
  Monitor.aborted (fst (Monitor.step st e)) = true
  /\ Forall (fun a => startsReconnect a = false) (snd (Monitor.step st e)).
Proof.
  intros Hab. session st. subst ab.
  destruct e as [ |r| |data| | | | | ]; simpl.
  - done.
  - destruct fe; [|done]. unfold Monitor.gatewayResponded. simpl.
    destruct r as [gw|err]; simpl; [|quiet_step].
    destruct (negb (Monitor.code gw =? 0)%Z); simpl; quiet_step.
  - destruct cn as [c|]; [|done]. case_bool_decide; done.
  - destruct cn as [c|]; [|done]. case_bool_decide; [|done].
    destruct data as [|f]; simpl; [quiet_step|].
    unfold Monitor.onFrame, Monitor.resolveByReconnect, Monitor.scheduleReconnect.
    connection c.
    repeat (case_match; simpl; simplify_eq); quiet_step.
  - destruct cn as [c|]; [|done]. case_bool_decide; [done|].
    unfold Monitor.onClose. connection c. rewrite andb_false_r.
    destruct res, hb, he; simpl; quiet_step.
  - done.
  - destruct cn as [c|]; [|done]. destruct (Monitor.helloTimer c) eqn:Hh; [|done].
    unfold Monitor.onHelloTimeout, Monitor.resolveByReconnect,
      Monitor.scheduleReconnect.
    connection c. subst.
    destruct res, hb; simpl; quiet_step.
  - case_match; quiet_step.
  - unfold Monitor.reconnectTimerFired. simpl.
    destruct wa; simpl; quiet_step.
Qed.

Lemma run_snd_cons (st : Monitor.Session) (e : Monitor.Event) (es : list Monitor.Event) :
  snd (Monitor.run st (e :: es))
  = (snd (Monitor.step st e) ++ snd (Monitor.run (fst (Monitor.step st e)) es))%list.
Proof.
  simpl. destruct (Monitor.step st e) as [st1 a1]. simpl.
  by destruct (Monitor.run st1 es).
Qed.

Lemma run_after_abort (es : list Monitor.Event) :
  forall st : Monitor.Session,
    Monitor.aborted st = true ->
    Monitor.aborted (fst (Monitor.run st es)) = true
    /\ Forall (fun a => startsReconnect a = false) (snd (Monitor.run st es)).
Proof.
  induction es as [|e es IH]; intros st Hab; [by split; [|constructor]|].
  destruct (step_after_abort st e Hab) as [Hab1 Hacts1].
  destruct (IH _ Hab1) as [Hab2 Hacts2].
  rewrite run_cons, run_snd_cons. split; [done|].
  by apply Forall_app.
Qed.

Lemma scheduleReconnect_settled (st : Monitor.Session) :
  Monitor.outcome st <> Monitor.Pending ->
  Monitor.outcome (fst (Monitor.scheduleReconnect st)) = Monitor.outcome st.
Proof.
  intros H. unfold Monitor.scheduleReconnect.
  destruct (Monitor.aborted st); simpl; [by apply settle_settled|done].
Qed.

Lemma step_settled (st : Monitor.Session) (e : Monitor.Event) :
  Monitor.outcome st <> Monitor.Pending ->
  Monitor.outcome (fst (Monitor.step st e)) = Monitor.outcome st.
Proof.
  intros Hoc.
  session st.
  assert (forall o st', Monitor.outcome st' = oc ->
            Monitor.outcome (Monitor.settle o st') = oc) as Hset.
  { intros o st' <-. by apply settle_settled. }
  destruct e as [ |r| |data| | | | | ]; simpl.
  - destruct ab; [done|]. simpl. destruct cn as [c|]; [|done].
    destruct (Monitor.abortListener c); [|done].
    unfold Monitor.handleAbort. simpl.
    destruct (Monitor.resolved c); simpl; [done|]. by apply Hset.
  - destruct fe; [|done]. unfold Monitor.gatewayResponded. simpl.
    destruct r as [gw|err]; simpl; [|by apply Hset].
    destruct (negb (Monitor.code gw =? 0)%Z); simpl; [by apply Hset|].
    destruct ab; simpl; [by apply Hset|done].
  - destruct cn as [c|]; [|done]. case_bool_decide; done.
  - destruct cn as [c|]; [|done]. case_bool_decide; [|done].
    destruct data as [|f]; simpl; [done|].
    unfold Monitor.onFrame, Monitor.resolveByReconnect, Monitor.scheduleReconnect.
    connection c.
    repeat (case_match; simpl; simplify_eq); try done; by apply Hset.
  - destruct cn as [c|]; [|done]. case_bool_decide; [done|].
    unfold Monitor.onClose, Monitor.scheduleReconnect. connection c.
    destruct res, ab; simpl; try done; by apply Hset.
  - done.
  - destruct cn as [c|]; [|done]. destruct (Monitor.helloTimer c) eqn:Hh; [|done].
    unfold Monitor.onHelloTimeout, Monitor.resolveByReconnect,
      Monitor.scheduleReconnect.
    connection c. subst.
    destruct res, ab; simpl; try done; by apply Hset.
  - by case_match.
  - unfold Monitor.reconnectTimerFired, Monitor.connect. simpl.
    destruct wa; simpl; [|done]. destruct ab; simpl; [by apply Hset|done].
Qed.

Lemma run_settled (es : list Monitor.Event) :
  forall st : Monitor.Session,
    Monitor.outcome st <> Monitor.Pending ->
    Monitor.outcome (fst (Monitor.run st es)) = Monitor.outcome st.
Proof.
  induction es as [|e es IH]; intros st Hoc; [done|].
  rewrite run_cons, IH; rewrite step_settled; done.
Qed.

(** The claim of C9 as it is worded fails while the session awaits the
    gateway endpoint: the signal is looked at before the request and after
    its answer is checked, so an answer with an error code makes [connect]
    throw and the session ends rejected, although it was cancelled. *)
Lemma cancellation_during_fetch_rejects :
  let st0 := Example.started "bot" in
  let st1 := fst (Monitor.step st0 Monitor.Abort) in
  let st2 := fst (Monitor.step st1 Example.gatewayRefused) in
  Monitor.fetching st0 = true
  /\ Monitor.aborted st1 = true
  /\ Monitor.outcome st1 = Monitor.Pending
  /\ Monitor.outcome st2 = Monitor.Rejected "Failed to get KOOK gateway: unauthorized".
Proof. repeat split. Qed.

(** C9, amended. When the cancellation signal fires while a socket holds
    the abort listener, the session clears the hello timer and the heartbeat
    ticker, closes the socket and resolves.  In whatever state it fires, the
    session never again arms the reconnect timer nor requests the gateway
    endpoint, and a resolved session stays resolved.  Fired during the
    backoff wait, it lets the session resolve, with no further action, when
    the wait is over; fired while the gateway endpoint is awaited, it lets
    an endpoint that arrives be opened and closed at once, and the session
    resolves. *)
Theorem cancellation_stops_session :
  (forall st c,
     Monitor.aborted st = false ->
     Monitor.conn st = Some c ->
     Monitor.abortListener c = true ->
     Monitor.resolved c = false ->
     Monitor.outcome st = Monitor.Pending ->
     let r := Monitor.step st Monitor.Abort in
     snd r
     = ((if Monitor.heartbeatTimer c then [Monitor.ClearHeartbeatTimer] else [])
          ++ (if Monitor.helloTimer c then [Monitor.ClearHelloTimer] else [])
          ++ [Monitor.WsClose])%list
     /\ Monitor.conn (fst r)
        = Some {| Monitor.readyState := Monitor.closeCalled (Monitor.readyState c);
                  Monitor.heartbeatTimer := false; Monitor.helloTimer := false;
                  Monitor.resolved := true; Monitor.abortListener := false |}
     /\ Monitor.outcome (fst r) = Monitor.Resolved
     /\ Monitor.aborted (fst r) = true
     /\ Monitor.waiting (fst r) = Monitor.waiting st
     /\ Monitor.fetching (fst r) = Monitor.fetching st)
  /\ (forall st es,
        Monitor.aborted st = true ->
        Monitor.aborted (fst (Monitor.run st es)) = true
        /\ Forall (fun a => startsReconnect a = false) (snd (Monitor.run st es))
        /\ (Monitor.outcome st = Monitor.Resolved ->
            Monitor.outcome (fst (Monitor.run st es)) = Monitor.Resolved))
  /\ (forall st waitMs,
        Monitor.aborted st = false ->
        Monitor.waiting st = Some waitMs ->
        (Monitor.abortListener <$> Monitor.conn st) <> Some true ->
        Monitor.outcome st = Monitor.Pending ->
        let r := Monitor.run st [Monitor.Abort; Monitor.ReconnectTimerFired] in
        snd r = [] /\ Monitor.outcome (fst r) = Monitor.Resolved
        /\ Monitor.waiting (fst r) = None)
  /\ (forall st message gatewayUrl,
        Monitor.aborted st = false ->
        Monitor.fetching st = true ->
        (Monitor.abortListener <$> Monitor.conn st) <> Some true ->
        Monitor.outcome st = Monitor.Pending ->
        let r := Monitor.run st
                   [Monitor.Abort;
                    Monitor.GatewayResponse
                      (Returned {| Monitor.code := 0; Monitor.message := message;
                                   Monitor.data := {| Monitor.url := gatewayUrl |} |})] in
        snd r = [Monitor.NewWebSocket gatewayUrl; Monitor.WsClose]
        /\ Monitor.outcome (fst r) = Monitor.Resolved
        /\ Monitor.conn (fst r) = None).
Proof.
  split; [|split; [|split]].
  - intros st c Hab Hc Hl Hres Hoc r. subst r.
    session st. connection c. subst. simpl.
    repeat split.
  - intros st es Hab. destruct (run_after_abort es st Hab) as [H1 H2].
    split; [done|]. split; [done|].
    intros Hoc. rewrite run_settled; [done|]. by rewrite Hoc.
  - intros st waitMs Hab Hw Hl Hoc r. subst r.
    session st. subst.
    destruct cn as [[rs hb he res []]|]; simpl in *; try done.
  - intros st message gatewayUrl Hab Hf Hl Hoc r. subst r.
    session st. subst.
    destruct cn as [[rs hb he res []]|]; simpl in *; try done.
Qed.

Lemma cancellation_stops_session_witness :
  let r := Monitor.step (Example.live "bot") Monitor.Abort in
  snd r = [Monitor.ClearHeartbeatTimer; Monitor.WsClose]
  /\ Monitor.outcome (fst r) = Monitor.Resolved
  /\ Forall (fun a => startsReconnect a = false)
       (snd (Monitor.run (fst r)
               [Monitor.WsClosed; Monitor.HeartbeatTick; Monitor.ReconnectTimerFired])).
Proof.
  intros r.
  destruct cancellation_stops_session as (Hlive & Hafter & _ & _).
  destruct (Hlive (Example.live "bot")
              {| Monitor.readyState := Monitor.OPEN; Monitor.heartbeatTimer := true;
                 Monitor.helloTimer := false; Monitor.resolved := false;
                 Monitor.abortListener := true |}
              eq_refl eq_refl eq_refl eq_refl eq_refl)
    as (Ha & _ & Ho & Hab & _).
  split; [exact Ha|]. split; [exact Ho|].
  exact (proj1 (proj2 (Hafter (fst r)
           [Monitor.WsClosed; Monitor.HeartbeatTick; Monitor.ReconnectTimerFired]
           Hab))).
Defined.


(** ** The message handler *)

Section HandlerFacts.

Context (txt : JS.Text) (DEFAULT_GROUP_HISTORY_LIMIT : Z).

Abbreviation handle := (Bot.handleKookMessage txt DEFAULT_GROUP_HISTORY_LIMIT).
Abbreviation dispatch := (Bot.dispatchMessage txt DEFAULT_GROUP_HISTORY_LIMIT).
Abbreviation limitOf := (Bot.historyLimitOf DEFAULT_GROUP_HISTORY_LIMIT).

Lemma handle_group runtime cfg account event botId chatHistories now h :
  channel_type event = GROUP ->
  handle runtime cfg account event botId chatHistories now h
  = if negb (Bot.isGroupAllowed (Bot.resolveGroupPolicy (config account))
               (JS.nullish (groupAllowFrom (config account)) [])
               (JS.nullish (extra event ≫= guild_id) "") (target_id event))
    then {| Bot.host := h; Bot.chatHistories := chatHistories;
            Bot.exit := Bot.NotInGroupAllowlist |}
    else if bool_decide
              (Bot.lookupGroupConfig (config account) (target_id event)
                 (extra event ≫= guild_id) ≫= gc_enabled = Some false)
    then {| Bot.host := h; Bot.chatHistories := chatHistories;
            Bot.exit := Bot.GroupDisabled |}
    else if requireMentionOf account event && negb (Bot.checkBotMentioned event botId)
    then {| Bot.host := h;
            Bot.chatHistories :=
              (fun historyMap =>
                 History.recordPendingHistoryEntryIfEnabled historyMap
                   (target_id event) (limitOf cfg)
                   (Bot.pendingEntry txt event botId now)) <$> chatHistories;
            Bot.exit := Bot.RecordedToHistory |}
    else dispatch runtime cfg account event botId chatHistories now h.
Proof.
  intros Hg. unfold Bot.handleKookMessage. rewrite bool_decide_eq_true_2 by done.
  reflexivity.
Qed.

Lemma handle_at_mention_gate runtime cfg account event botId chatHistories now h :
  reachesMentionGate account event ->
  handle runtime cfg account event botId chatHistories now h
  = if requireMentionOf account event && negb (Bot.checkBotMentioned event botId)
    then {| Bot.host := h;
            Bot.chatHistories :=
              (fun historyMap =>
                 History.recordPendingHistoryEntryIfEnabled historyMap
                   (target_id event) (limitOf cfg)
                   (Bot.pendingEntry txt event botId now)) <$> chatHistories;
            Bot.exit := Bot.RecordedToHistory |}
    else dispatch runtime cfg account event botId chatHistories now h.
Proof.
  intros (Hg & Hallow & Hen). rewrite handle_group by done.
  rewrite Hallow. simpl. by rewrite bool_decide_eq_false_2.
Qed.

Lemma dispatch_exit runtime cfg account event botId chatHistories now h :
  (exists r, Bot.exit (dispatch runtime cfg account event botId chatHistories now h)
             = Bot.DispatchComplete r)
  \/ (exists err, Bot.exit (dispatch runtime cfg account event botId chatHistories now h)
                  = Bot.DispatchFailed err).
Proof.
  unfold Bot.dispatchMessage. destruct (getKookRuntime runtime) as [core|err]; simpl.
  - destruct (dispatchReplyFromConfig core _ cfg _) as [r|err]; simpl; eauto.
  - eauto.
Qed.

Lemma usesHistory_group event (m : HistoryMap) :
  channel_type event = GROUP ->
  target_id event <> "" ->
  Bot.usesHistory event (Some m) = Some m.
Proof.
  intros Hg Hne. unfold Bot.usesHistory.
  rewrite bool_decide_eq_true_2 by done. simpl.
  apply String.eqb_neq in Hne. by rewrite Hne.
Qed.

Lemma checkBotMentioned_unknown event : Bot.checkBotMentioned event None = false.
Proof. reflexivity. Qed.

End HandlerFacts.

(** C6. Under the policy "disabled" [isGroupAllowed] rejects whatever the
    allow-list holds, under "open" it accepts, and under "allowlist" it
    accepts exactly when the string form of some entry of the allow-list
    equals the guild id or the channel id.  In the handler, a group event
    under the effective policy "disabled" is turned away at the gate with
    nothing recorded and nothing dispatched, whatever the allow-list. *)
Theorem group_policy_decision
    (allowFrom : list AllowEntry) (guildId channelId : string) :
  Bot.isGroupAllowed "disabled" allowFrom guildId channelId = false
  /\ Bot.isGroupAllowed "open" allowFrom guildId channelId = true
  /\ (Bot.isGroupAllowed "allowlist" allowFrom guildId channelId = true
      <-> exists entry, entry ∈ allowFrom
                        /\ (String_ entry = guildId \/ String_ entry = channelId))
  /\ (forall txt DEFAULT_GROUP_HISTORY_LIMIT runtime cfg account event botId
             chatHistories now h,
        channel_type event = GROUP ->
        Bot.resolveGroupPolicy (config account) = "disabled" ->
        Bot.handleKookMessage txt DEFAULT_GROUP_HISTORY_LIMIT runtime cfg account
          event botId chatHistories now h
        = {| Bot.host := h; Bot.chatHistories := chatHistories;
             Bot.exit := Bot.NotInGroupAllowlist |}).
Proof.
  split; [apply isGroupAllowed_disabled|].
  split; [apply isGroupAllowed_open|].
  split; [apply isGroupAllowed_allowlist|].
  intros txt lim runtime cfg account event botId chatHistories now h Hg Hpol.
  rewrite handle_group by done. by rewrite Hpol.
Qed.

Lemma group_policy_decision_witness :
  let event := Example.groupText "user" "channel" "hi" ["bot"] in
  Bot.handleKookMessage Example.text 50 (Some Example.runtime) Example.cfg
    Example.accountWithChannelPolicy event (Some "bot") (Some ∅) 1 Example.host0
  = {| Bot.host := Example.host0; Bot.chatHistories := Some ∅;
       Bot.exit := Bot.NotInGroupAllowlist |}.
Proof.
  intros event.
  exact (proj2 (proj2 (proj2
           (group_policy_decision [AStr "channel"] "guild" "channel")))
           Example.text 50%Z (Some Example.runtime) Example.cfg
           Example.accountWithChannelPolicy event (Some "bot") (Some ∅) 1%Z
           Example.host0 eq_refl eq_refl).
Defined.

(** The claim of C4 as it is worded fails: no per-channel value takes part.
    With "disabled" on the account and a [groupPolicy] of "open" on the
    entry of the channel, the chain of the spec yields "open", the handler
    resolves "disabled" and turns the message away. *)
Lemma per_channel_group_policy_ignored :
  let account := Example.accountWithChannelPolicy in
  let event := Example.groupText "user" "channel" "hi" [] in
  let groupConfig :=
    Bot.lookupGroupConfig (config account) (target_id event)
      (extra event ≫= guild_id) in
  perChannelGroupPolicy groupConfig = Some "open"
  /\ Spec.effectiveGroupPolicy (perChannelGroupPolicy groupConfig)
       (groupPolicy (config account)) = "open"
  /\ Bot.resolveGroupPolicy (config account) = "disabled"
  /\ Bot.exit (Bot.handleKookMessage Example.text 50 (Some Example.runtime)
                 Example.cfg account event (Some "bot") (Some ∅) 1 Example.host0)
     = Bot.NotInGroupAllowlist.
Proof. repeat split. Qed.

(** C4, amended. The effective group policy of a group event is the
    [groupPolicy] of the resolved account configuration, and "allowlist"
    when that is absent; the outcome of the group gate is that of
    [isGroupAllowed] under this policy, so the entries of [groups] have no
    part in it. *)
Theorem group_policy_resolution (txt : JS.Text) (DEFAULT_GROUP_HISTORY_LIMIT : Z)
    (runtime : option PluginRuntime) (cfg : ClawdbotConfig)
    (account : ResolvedKookAccount) (event : KookEventData) (botId : option string)
    (chatHistories : option HistoryMap) (now : Z) (h : Host) :
  channel_type event = GROUP ->
  let kookCfg := config account in
  let effective := default "allowlist" (groupPolicy kookCfg) in
  let rejected acc :=
    Bot.exit (Bot.handleKookMessage txt DEFAULT_GROUP_HISTORY_LIMIT runtime cfg acc
                event botId chatHistories now h) = Bot.NotInGroupAllowlist in
  Bot.resolveGroupPolicy kookCfg = effective
  /\ (rejected account
      <-> Bot.isGroupAllowed effective (default [] (groupAllowFrom kookCfg))
            (default "" (extra event ≫= guild_id)) (target_id event) = false)
  /\ (forall groups',
        rejected
          {| accountId := accountId account; enabled := enabled account;
             configured := configured account; token := token account;
             config :=
               {| dmPolicy := dmPolicy kookCfg; allowFrom := allowFrom kookCfg;
                  groupPolicy := groupPolicy kookCfg;
                  groupAllowFrom := groupAllowFrom kookCfg;
                  requireMention := requireMention kookCfg;
                  groups := groups' |} |}
        <-> rejected account).
Proof.
  intros Hg kookCfg effective rejected.
  assert (forall acc,
            rejected acc
            <-> Bot.isGroupAllowed (default "allowlist" (groupPolicy (config acc)))
                  (default [] (groupAllowFrom (config acc)))
                  (default "" (extra event ≫= guild_id)) (target_id event) = false)
    as Hgate.
  { intros acc. unfold rejected. rewrite handle_group by done.
    unfold Bot.resolveGroupPolicy, JS.nullish.
    destruct (Bot.isGroupAllowed _ _ _ _); simpl; [|done].
    split; [|done]. intros Hex. exfalso.
    repeat case_match; simpl in Hex; try discriminate.
    destruct (dispatch_exit txt DEFAULT_GROUP_HISTORY_LIMIT runtime cfg acc event
                botId chatHistories now h) as [[r Hr]|[err Hr]];
      rewrite Hr in Hex; discriminate. }
  split; [done|]. split; [apply Hgate|].
  intros groups'. rewrite !Hgate. reflexivity.
Qed.

Lemma group_policy_resolution_witness :
  let account := Example.accountWithChannelPolicy in
  let event := Example.groupText "user" "channel" "hi" [] in
  Bot.resolveGroupPolicy (config account) = "disabled"
  /\ Bot.exit (Bot.handleKookMessage Example.text 50 (Some Example.runtime)
                 Example.cfg account event (Some "bot") (Some ∅) 1 Example.host0)
     = Bot.NotInGroupAllowlist.
Proof.
  intros account event.
  destruct (group_policy_resolution Example.text 50 (Some Example.runtime)
              Example.cfg account event (Some "bot") (Some ∅) 1 Example.host0
              eq_refl) as (Hres & Hgate & _).
  split; [exact Hres|]. apply Hgate. reflexivity.
Defined.

(** ** The pending history buffer *)

Lemma entriesOf_record (m : HistoryMap) (key : string) (limit : Z) (e : HistoryEntry) :
  History.entriesOf (History.recordPendingHistoryEntryIfEnabled m key limit e) key
  = History.evictOldest limit (History.entriesOf m key ++ [e]).
Proof.
  unfold History.recordPendingHistoryEntryIfEnabled, History.entriesOf.
  by rewrite lookup_insert_eq.
Qed.

Lemma entriesOf_clear (m : HistoryMap) (key : string) (limit : Z) :
  History.entriesOf (History.clearHistoryEntriesIfEnabled m key limit) key = [].
Proof.
  unfold History.clearHistoryEntriesIfEnabled, History.entriesOf.
  by rewrite lookup_insert_eq.
Qed.

Lemma evictOldest_fits (limit : Z) (l : list HistoryEntry) :
  (Z.of_nat (length l) <= limit)%Z -> History.evictOldest limit l = l.
Proof.
  intros H. unfold History.evictOldest.
  replace (length l - Z.to_nat limit)%nat with 0%nat by lia. done.
Qed.

Lemma evictOldest_length (limit : Z) (l : list HistoryEntry) :
  (0 <= limit)%Z -> (Z.of_nat (length (History.evictOldest limit l)) <= limit)%Z.
Proof.
  intros H. unfold History.evictOldest. rewrite length_drop. lia.
Qed.

(** The claim of C2 as it is worded fails for a channel whose id is the
    empty string: the unaddressed message is buffered under that key, but
    [isGroup && historyKey && chatHistories] is falsy for an empty key, so
    the addressed message is dispatched without the buffered entry and the
    buffer is not cleared after the dispatch has returned. *)
Lemma empty_channel_id_skips_history :
  let handle := Bot.handleKookMessage Example.text 50 (Some Example.runtime)
                  Example.cfg Example.account in
  let m1 := Example.groupText "user" "" "one" [] in
  let m2 := Example.groupText "user" "" "two" ["bot"] in
  let r1 := handle m1 (Some "bot") (Some ∅) 1%Z Example.host0 in
  let r2 := handle m2 (Some "bot") (Bot.chatHistories r1) 2%Z (Bot.host r1) in
  let entry := {| sender := "user"; body := "user: one"; timestamp := 1;
                  messageId := "m-one" |} in
  Bot.exit r1 = Bot.RecordedToHistory
  /\ History.entriesOf (default ∅ (Bot.chatHistories r1)) "" = [entry]
  /\ Bot.exit r2 = Bot.DispatchComplete {| queuedFinal := true; counts_final := 1 |}
  /\ (Body ∘ fst <$> dispatches (Bot.host r2))
     = [Bot.envelopeOfCurrent Example.text Example.runtime Example.cfg m2
          (Some "bot") 2]
  /\ History.entriesOf (default ∅ (Bot.chatHistories r2)) "" = [entry].
Proof. repeat split. Qed.

(** C2, amended. Take a group message in a channel with a non-empty id
    that has got as far as the mention gate, and a history map.  If a
    mention is required and the bot is not mentioned, the message is appended
    to the buffer of the channel (the oldest entries beyond the history limit
    being evicted) and the handler returns without dispatching.  If the bot
    is mentioned, the message is dispatched once, its body being the
    formatted entries of the buffer, in order, ahead of its own envelope;
    when the dispatch returns the buffer of the channel is cleared, and when
    it throws the history map is left as it was. *)
Theorem pending_history_flow (txt : JS.Text) (DEFAULT_GROUP_HISTORY_LIMIT : Z)
    (core : PluginRuntime) (cfg : ClawdbotConfig) (account : ResolvedKookAccount)
    (event : KookEventData) (botId : option string) (m : HistoryMap)
    (now : Z) (h : Host) :
  reachesMentionGate account event ->
  target_id event <> "" ->
  let channelId := target_id event in
  let limit := Bot.historyLimitOf DEFAULT_GROUP_HISTORY_LIMIT cfg in
  let handle runtime :=
    Bot.handleKookMessage txt DEFAULT_GROUP_HISTORY_LIMIT runtime cfg account event
      botId (Some m) now h in
  let entry := Bot.pendingEntry txt event botId now in
  let ctx := Bot.inboundContext txt DEFAULT_GROUP_HISTORY_LIMIT core cfg account
               event botId (Some m) now in
  let dispatcher := Bot.replyDispatcher core cfg account event in
  (requireMentionOf account event = true ->
   Bot.checkBotMentioned event botId = false ->
   forall runtime,
     Bot.exit (handle runtime) = Bot.RecordedToHistory
     /\ Bot.host (handle runtime) = h
     /\ Bot.chatHistories (handle runtime)
        = Some (<[channelId :=
                    History.evictOldest limit (History.entriesOf m channelId ++ [entry])]>
                  m)
     /\ ((Z.of_nat (length (History.entriesOf m channelId)) < limit)%Z ->
         History.entriesOf (default ∅ (Bot.chatHistories (handle runtime))) channelId
         = History.entriesOf m channelId ++ [entry]))
  /\ (Bot.checkBotMentioned event botId = true ->
      dispatches (Bot.host (handle (Some core)))
      = (dispatches h ++ [(finalizeInboundContext core ctx, dispatcher)])%list
      /\ Body ctx
         = foldr (fun e acc =>
                    Bot.formatEntry core (resolveEnvelopeFormatOptions core cfg)
                      channelId e +:+ acc)
             (Bot.envelopeOfCurrent txt core cfg event botId now)
             (History.entriesOf m channelId)
      /\ (forall r,
            dispatchReplyFromConfig core (finalizeInboundContext core ctx) cfg dispatcher
            = Returned r ->
            Bot.exit (handle (Some core)) = Bot.DispatchComplete r
            /\ Bot.chatHistories (handle (Some core)) = Some (<[channelId := []]> m)
            /\ History.entriesOf
                 (default ∅ (Bot.chatHistories (handle (Some core)))) channelId = [])
      /\ (forall err,
            dispatchReplyFromConfig core (finalizeInboundContext core ctx) cfg dispatcher
            = Threw err ->
            Bot.exit (handle (Some core)) = Bot.DispatchFailed err
            /\ Bot.chatHistories (handle (Some core)) = Some m)).
Proof.
  intros Hgate Hne channelId limit handle entry ctx dispatcher.
  pose proof Hgate as (Hg & _ & _).
  split.
  - intros Hreq Hnm runtime. subst handle. simpl.
    rewrite handle_at_mention_gate by done. rewrite Hreq, Hnm. simpl.
    split; [done|]. split; [done|]. split; [done|].
    intros Hroom. simpl. subst channelId limit entry.
    rewrite entriesOf_record.
    apply evictOldest_fits. rewrite length_app. simpl. lia.
  - intros Hm. subst handle. simpl.
    rewrite handle_at_mention_gate by done. rewrite Hm, andb_false_r.
    unfold Bot.dispatchMessage. simpl getKookRuntime. cbv iota beta.
    fold ctx dispatcher.
    split; [|split; [|split]].
    + destruct (dispatchReplyFromConfig core _ cfg dispatcher); reflexivity.
    + subst ctx. unfold Bot.inboundContext. simpl.
      rewrite usesHistory_group by done. reflexivity.
    + intros r Hr. rewrite Hr. simpl.
      rewrite usesHistory_group by done. simpl.
      split; [done|]. split; [done|].
      apply (entriesOf_clear m channelId limit).
    + intros err Herr. rewrite Herr. done.
Qed.

Lemma pending_history_flow_witness :
  let handle := Bot.handleKookMessage Example.text 50 (Some Example.runtime)
                  Example.cfg Example.account in
  let m1 := Example.groupText "user" "c" "one" [] in
  let m2 := Example.groupText "user" "c" "two" ["bot"] in
  let r1 := handle m1 (Some "bot") (Some ∅) 1%Z Example.host0 in
  let entry := {| sender := "user"; body := "user: one"; timestamp := 1;
                  messageId := "m-one" |} in
  let r2 := handle m2 (Some "bot") (Some {[ "c" := [entry] ]}) 2%Z Example.host0 in
  (Bot.exit r1 = Bot.RecordedToHistory /\ Bot.host r1 = Example.host0)
  /\ Bot.exit r2 = Bot.DispatchComplete {| queuedFinal := true; counts_final := 1 |}
  /\ History.entriesOf (default ∅ (Bot.chatHistories r2)) "c" = [].
Proof.
  intros handle m1 m2 r1 entry r2.
  assert (reachesMentionGate Example.account m1) as G1
    by (split; [reflexivity|split; [reflexivity|discriminate]]).
  assert (reachesMentionGate Example.account m2) as G2
    by (split; [reflexivity|split; [reflexivity|discriminate]]).
  assert (("c" : string) <> "") as Hne by discriminate.
  split.
  - destruct (proj1 (pending_history_flow Example.text 50 Example.runtime
                       Example.cfg Example.account m1 (Some "bot") ∅ 1
                       Example.host0 G1 Hne)
                eq_refl eq_refl (Some Example.runtime)) as (H1 & H2 & _).
    split; [exact H1 | exact H2].
  - destruct (proj2 (pending_history_flow Example.text 50 Example.runtime
                       Example.cfg Example.account m2 (Some "bot")
                       {[ "c" := [entry] ]} 2 Example.host0 G2 Hne)
                eq_refl) as (_ & _ & Hok & _).
    destruct (Hok {| queuedFinal := true; counts_final := 1 |} eq_refl)
      as (H1 & _ & H3).
    split; [exact H1 | exact H3].
Defined.

(** ** A session without a bot id *)

Lemma fetchBotId_failed
    (botInfo : Completion (Monitor.KookApiResponse Monitor.KookUserData)) :
  match botInfo with
  | Threw _ => True
  | Returned res => Monitor.code res <> 0%Z
  end ->
  Monitor.fetchBotId botInfo = None.
Proof.
  destruct botInfo as [res|err]; simpl; [|done].
  intros Hcode. by destruct (Z.eqb_spec (Monitor.code res) 0).
Qed.

Lemma handle_unknown_bot (txt : JS.Text) (DEFAULT_GROUP_HISTORY_LIMIT : Z)
    runtime cfg account event chatHistories now h :
  channel_type event = GROUP ->
  requireMentionOf account event = true ->
  Bot.host (Bot.handleKookMessage txt DEFAULT_GROUP_HISTORY_LIMIT runtime cfg account
              event None chatHistories now h) = h.
Proof.
  intros Hg Hreq. rewrite handle_group by done.
  rewrite Hreq, checkBotMentioned_unknown. simpl.
  by repeat case_match.
Qed.

(** The claim of C10 as it is worded fails for the messages that the gates
    ahead of the mention gate turn away: under the default policy, with an
    empty allow-list, a group message in a channel where a mention is
    required is neither dispatched nor recorded. *)
Lemma blocked_group_message_not_recorded :
  let account := Example.defaultAccount in
  let event := Example.groupText "user" "c" "one" [] in
  let r := Bot.handleKookMessage Example.text 50 (Some Example.runtime) Example.cfg
             account event None (Some ∅) 1 Example.host0 in
  requireMentionOf account event = true
  /\ Bot.exit r = Bot.NotInGroupAllowlist
  /\ Bot.chatHistories r = Some ∅
  /\ History.entriesOf (default ∅ (Bot.chatHistories r)) (target_id event) = [].
Proof. repeat split. Qed.

(** C10, amended. When the self-identity probe fails, the session starts
    all the same, with no bot id; no event then counts as a mention of the
    bot.  So a group message that reaches the mention gate (the group policy
    lets it in and its group is not switched off) where a mention is required
    is recorded to the buffer of its channel and the handler returns, and
    over any series of group messages in channels where a mention is
    required the handler leaves the host untouched: nothing is dispatched. *)
Theorem unknown_bot_never_dispatches (txt : JS.Text) (DEFAULT_GROUP_HISTORY_LIMIT : Z)
    (runtime : option PluginRuntime) (cfg : ClawdbotConfig)
    (account : ResolvedKookAccount) :
  (forall botInfo,
     JS.truthy (token account) = true ->
     match botInfo with
     | Threw _ => True
     | Returned res => Monitor.code res <> 0%Z
     end ->
     Monitor.connectWebSocket account botInfo false
     = (Monitor.with_fetching true (Monitor.initial None false), [Monitor.GetGateway]))
  /\ (forall event, Bot.checkBotMentioned event None = false)
  /\ (forall event (m : HistoryMap) now h,
        reachesMentionGate account event ->
        requireMentionOf account event = true ->
        let r := Bot.handleKookMessage txt DEFAULT_GROUP_HISTORY_LIMIT runtime cfg
                   account event None (Some m) now h in
        Bot.exit r = Bot.RecordedToHistory
        /\ Bot.host r = h
        /\ Bot.chatHistories r
           = Some (History.recordPendingHistoryEntryIfEnabled m (target_id event)
                     (Bot.historyLimitOf DEFAULT_GROUP_HISTORY_LIMIT cfg)
                     (Bot.pendingEntry txt event None now)))
  /\ (forall events chatHistories h,
        Forall (fun en => channel_type (fst en) = GROUP
                          /\ requireMentionOf account (fst en) = true) events ->
        fst (Bot.handleAll txt DEFAULT_GROUP_HISTORY_LIMIT runtime cfg account None
               events chatHistories h) = h).
Proof.
  split; [|split; [|split]].
  - intros botInfo Htok Hfail. unfold Monitor.connectWebSocket.
    rewrite Htok, (fetchBotId_failed botInfo Hfail). reflexivity.
  - apply checkBotMentioned_unknown.
  - intros event m now h Hgate Hreq r. subst r.
    rewrite handle_at_mention_gate by done.
    rewrite Hreq, checkBotMentioned_unknown. done.
  - intros events. induction events as [|[event now] events IH];
      intros chatHistories h Hall; [done|].
    inversion Hall as [|? ? [Hg Hreq] Hrest]; subst. simpl in Hg, Hreq.
    simpl. rewrite IH by done.
    by apply handle_unknown_bot.
Qed.

Lemma unknown_bot_never_dispatches_witness :
  let m1 := Example.groupText "user" "c" "one" ["bot"] in
  let m2 := Example.groupText "user" "c" "two" [] in
  Monitor.connectWebSocket Example.account (Threw "network") false
  = (Monitor.with_fetching true (Monitor.initial None false), [Monitor.GetGateway])
  /\ fst (Bot.handleAll Example.text 50 (Some Example.runtime) Example.cfg
            Example.account None [(m1, 1%Z); (m2, 2%Z)] (Some ∅) Example.host0)
     = Example.host0.
Proof.
  intros m1 m2.
  destruct (unknown_bot_never_dispatches Example.text 50 (Some Example.runtime)
              Example.cfg Example.account) as (Hstart & _ & _ & Hall).
  split.
  - exact (Hstart (Threw "network") eq_refl I).
  - apply Hall. repeat constructor.
Defined.

(** * Further properties *)

(** ** The states a session goes through *)




(** ** Sessions that end *)

Lemma step_inert (st : Monitor.Session) (e : Monitor.Event) :
  inert st ->
  inert (fst (Monitor.step st e))
  /\ Forall (fun a => reachesOut a = false) (snd (Monitor.step st e)).
Proof.
  unfold inert. session st. intros (-> & -> & Hres).
  destruct cn as [[rs hb he res al]|].
  - specialize (Hres _ eq_refl). simpl in Hres. subst res.
    destruct e as [ |r| |data| | | | | ]; simpl;
      unfold Monitor.handleAbort, Monitor.onOpen, Monitor.onMessage, Monitor.onFrame,
        Monitor.onClose, Monitor.onHelloTimeout, Monitor.resolveByReconnect,
        Monitor.settle; simpl;
      repeat (case_match; simpl in *; simplify_eq);
      (split; [repeat split; try done; intros; by simplify_eq
              | repeat constructor]).
  - clear Hres.
    destruct e as [ |r| |data| | | | | ]; simpl;
      repeat (case_match; simpl in *; simplify_eq);
      (split; [repeat split; try done; intros; by simplify_eq
              | repeat constructor]).
Qed.

Lemma run_inert (es : list Monitor.Event) :
  forall st, inert st ->
             inert (fst (Monitor.run st es))
             /\ Forall (fun a => reachesOut a = false) (snd (Monitor.run st es)).
Proof.
  induction es as [|e es IH]; intros st Hst; [by split; [|constructor]|].
  destruct (step_inert st e Hst) as [H1 A1].
  destruct (IH _ H1) as [H2 A2].
  rewrite run_cons, run_snd_cons. split; [done|]. by apply Forall_app.
Qed.

(** X2. A session whose account has no token is rejected by
    [connectWebSocket] before the self-identity probe is used, and stays so:
    whatever happens afterwards, it does nothing at all (no gateway request,
    no socket, no timer) and its outcome does not change. *)
Theorem no_token_never_connects (account : ResolvedKookAccount)
    (botInfo : Completion (Monitor.KookApiResponse Monitor.KookUserData))
    (aborted : bool) (es : list Monitor.Event) :
  JS.truthy (token account) = false ->
  let start := Monitor.connectWebSocket account botInfo aborted in
  snd start = []
  /\ Monitor.outcome (fst start)
     = Monitor.Rejected ("KOOK account " +:+ JS.dquote +:+ accountId account
                         +:+ JS.dquote +:+ " has no token")
  /\ Monitor.botId (fst start) = None
  /\ snd (Monitor.run (fst start) es) = []
  /\ Monitor.outcome (fst (Monitor.run (fst start) es))
     = Monitor.outcome (fst start).
Proof.
  intros Htok start. subst start. unfold Monitor.connectWebSocket.
  rewrite Htok. simpl. repeat split.
  - set (o := Monitor.Rejected _). generalize o. clear. intros o.
    generalize aborted.
    induction es as [|e es IH]; intros ab; [done|].
    rewrite run_snd_cons.
    destruct e as [ |r| |data| | | | | ]; simpl; try apply IH.
    destruct ab; simpl; [apply IH | exact (IH true)].
  - by rewrite run_settled.
Qed.

Lemma no_token_never_connects_witness :
  let account := {| accountId := "default"; enabled := true; configured := false;
                    token := None; config := Example.kookConfig |} in
  snd (Monitor.run (fst (Monitor.connectWebSocket account (Example.botInfo "bot")
                           false))
         [Example.gateway; Monitor.WsOpen; Monitor.ReconnectTimerFired]) = [].
Proof.
  intros account.
  exact (proj1 (proj2 (proj2 (proj2
           (no_token_never_connects account (Example.botInfo "bot") false
              [Example.gateway; Monitor.WsOpen; Monitor.ReconnectTimerFired]
              eq_refl))))).
Defined.

(** X3. A failed gateway request ends the session for good: [connect]
    throws, the session is rejected with nothing else done, and from then on
    it neither requests the endpoint again, nor opens a socket, nor arms the
    reconnect timer; the failure is not retried. *)
Theorem gateway_failure_is_final (st : Monitor.Session)
    (r : Completion (Monitor.KookApiResponse Monitor.KookGatewayData))
    (es : list Monitor.Event) :
  sessionConsistent st = true ->
  Monitor.fetching st = true ->
  gatewayFailed r ->
  let st' := fst (Monitor.step st (Monitor.GatewayResponse r)) in
  snd (Monitor.step st (Monitor.GatewayResponse r)) = []
  /\ (exists err, Monitor.outcome st' = Monitor.Rejected err)
  /\ Forall (fun a => reachesOut a = false) (snd (Monitor.run st' es))
  /\ Monitor.outcome (fst (Monitor.run st' es)) = Monitor.outcome st'.
Proof.
  intros Hst Hf Hfail st'.
  assert (snd (Monitor.step st (Monitor.GatewayResponse r)) = []
          /\ (exists err, Monitor.outcome st' = Monitor.Rejected err)
          /\ inert st') as (Hacts & [err Herr] & Hin).
  { subst st'. revert Hst.
    unfold sessionConsistent, closureConsistent, pending, backingOff, inert.
    session st. subst fe. unfold Monitor.gatewayResponded, Monitor.settle.
    destruct r as [gw|err]; simpl in *.
    - destruct (Z.eqb_spec (Monitor.code gw) 0) as [?|_]; [done|]. simpl.
      destruct cn as [[rs hb he [] al]|], wa, oc; simpl;
        rewrite ?andb_false_r; intros Hst; try discriminate Hst;
        (split; [done|]); (split; [eauto|]); repeat split; intros; by simplify_eq.
    - destruct cn as [[rs hb he [] al]|], wa, oc; simpl;
        rewrite ?andb_false_r; intros Hst; try discriminate Hst;
        (split; [done|]); (split; [eauto|]); repeat split; intros; by simplify_eq. }
  split; [done|]. split; [eauto|].
  split; [by apply run_inert|].
  rewrite run_settled; [done|]. by rewrite Herr.
Qed.

Lemma gateway_failure_is_final_witness :
  let st' := fst (Monitor.step (Example.started "bot") Example.gatewayRefused) in
  Monitor.outcome st' = Monitor.Rejected "Failed to get KOOK gateway: unauthorized"
  /\ Forall (fun a => reachesOut a = false)
       (snd (Monitor.run st' [Monitor.ReconnectTimerFired; Example.gateway])).
Proof.
  intros st'.
  destruct (gateway_failure_is_final (Example.started "bot")
              (Returned {| Monitor.code := 401; Monitor.message := "unauthorized";
                           Monitor.data := {| Monitor.url := EmptyString |} |})
              [Monitor.ReconnectTimerFired; Example.gateway]
              eq_refl eq_refl ltac:(simpl; lia)) as (_ & _ & Hquiet & _).
  split; [reflexivity | exact Hquiet].
Defined.



(** ** Backoff across sockets *)

Lemma refusedRound_run (st : Monitor.Session) (gatewayUrl : string) :
  Monitor.fetching st = true ->
  Monitor.aborted st = false ->
  let r := Monitor.run st (refusedRound gatewayUrl) in
  Monitor.fetching (fst r) = true
  /\ Monitor.aborted (fst r) = false
  /\ Monitor.reconnectAttempt (fst r) = (Monitor.reconnectAttempt st + 1)%Z
  /\ reconnectTimers (snd r)
     = [Monitor.reconnectWait (Monitor.reconnectAttempt st + 1)].
Proof.
  intros Hf Hab r. subst r. session st. subst fe ab. done.
Qed.

Lemma openedRound_run (st : Monitor.Session) (gatewayUrl : string) :
  Monitor.fetching st = true ->
  Monitor.aborted st = false ->
  let r := Monitor.run st (openedRound gatewayUrl) in
  Monitor.fetching (fst r) = true
  /\ Monitor.aborted (fst r) = false
  /\ Monitor.reconnectAttempt (fst r) = 1%Z
  /\ reconnectTimers (snd r) = [2000%Z].
Proof.
  intros Hf Hab r. subst r. session st. subst fe ab. done.
Qed.

Lemma reconnectTimers_app (a b : list Monitor.Action) :
  reconnectTimers (a ++ b) = reconnectTimers a ++ reconnectTimers b.
Proof. apply omap_app. Qed.

Lemma run_snd_app (st : Monitor.Session) (es1 es2 : list Monitor.Event) :
  snd (Monitor.run st (es1 ++ es2))
  = snd (Monitor.run st es1) ++ snd (Monitor.run (fst (Monitor.run st es1)) es2).
Proof.
  revert st. induction es1 as [|e es1 IH]; intros st; [done|].
  rewrite <- app_comm_cons, !run_snd_cons, run_cons, IH. by rewrite app_assoc.
Qed.

(** X5. The backoff grows only across sockets that never open.  From a
    session that awaits the gateway endpoint, [n] rounds in a row in which
    the socket closes before it opens arm the reconnect timer with the waits
    of the attempts [a+1], ..., [a+n], [a] being the attempt count at the
    start; [n] rounds in which the socket opens before it closes arm it with
    2000 ms every time. *)
Theorem backoff_grows_without_open (urls : list string) (st : Monitor.Session) :
  Monitor.fetching st = true ->
  Monitor.aborted st = false ->
  let refused := Monitor.run st (concat (refusedRound <$> urls)) in
  let opened := Monitor.run st (concat (openedRound <$> urls)) in
  reconnectTimers (snd refused)
  = (fun k => Monitor.reconnectWait (Monitor.reconnectAttempt st + Z.of_nat k))
      <$> seq 1 (length urls)
  /\ Monitor.reconnectAttempt (fst refused)
     = (Monitor.reconnectAttempt st + Z.of_nat (length urls))%Z
  /\ reconnectTimers (snd opened) = replicate (length urls) 2000%Z.
Proof.
  intros Hf Hab. cbv zeta.
  assert (forall st, Monitor.fetching st = true -> Monitor.aborted st = false ->
            let refused := Monitor.run st (concat (refusedRound <$> urls)) in
            reconnectTimers (snd refused)
            = (fun k => Monitor.reconnectWait
                          (Monitor.reconnectAttempt st + Z.of_nat k))
                <$> seq 1 (length urls)
            /\ Monitor.reconnectAttempt (fst refused)
               = (Monitor.reconnectAttempt st + Z.of_nat (length urls))%Z)
    as Hrefused.
  { clear. induction urls as [|u urls IH]; intros st Hf Hab.
    - simpl. split; [done|lia].
    - cbv zeta. rewrite fmap_cons, concat_cons.
      destruct (refusedRound_run st u Hf Hab) as (Hf1 & Hab1 & Hatt1 & Ht1).
      destruct (IH _ Hf1 Hab1) as [IHt IHa].
      rewrite run_snd_app, run_app, reconnectTimers_app, Ht1, IHt, IHa, Hatt1.
      split; [|simpl length; lia].
      simpl length. rewrite <- cons_seq, fmap_cons. simpl app. f_equal.
      rewrite <- (fmap_S_seq 1), <- list_fmap_compose.
      apply list_fmap_ext. intros i k Hk. simpl. f_equal. lia. }
  assert (forall st, Monitor.fetching st = true -> Monitor.aborted st = false ->
            reconnectTimers (snd (Monitor.run st (concat (openedRound <$> urls))))
            = replicate (length urls) 2000%Z) as Hopened.
  { clear. induction urls as [|u urls IH]; intros st Hf Hab; [done|].
    rewrite fmap_cons, concat_cons.
    destruct (openedRound_run st u Hf Hab) as (Hf1 & Hab1 & _ & Ht1).
    rewrite run_snd_app, reconnectTimers_app, Ht1, (IH _ Hf1 Hab1). done. }
  destruct (Hrefused st Hf Hab) as [H1 H2]. split; [done|]. split; [done|].
  by apply Hopened.
Qed.

Lemma backoff_grows_without_open_witness :
  let st := Example.started "bot" in
  let urls := ["wss://a"; "wss://b"; "wss://c"] in
  reconnectTimers (snd (Monitor.run st (concat (refusedRound <$> urls))))
  = [2000%Z; 4000%Z; 8000%Z]
  /\ reconnectTimers (snd (Monitor.run st (concat (openedRound <$> urls))))
     = [2000%Z; 2000%Z; 2000%Z].
Proof.
  intros st urls.
  destruct (backoff_grows_without_open urls st eq_refl eq_refl) as (H1 & _ & H2).
  split; [exact H1 | exact H2].
Defined.

(** ** Frames that change little *)

(** X6. On an open socket, a message that does not parse is logged and
    changes nothing; a frame whose signal is none of 0, 1, 5, 6 (a pong
    among them) changes nothing and does nothing; a resume acknowledgement
    (s = 6) only replaces the session id, by the one it carries if it
    carries one. *)
Theorem frames_without_effect (st : Monitor.Session) (c : Monitor.Conn) :
  Monitor.conn st = Some c ->
  Monitor.readyState c = Monitor.OPEN ->
  Monitor.step st (Monitor.WsMessage Monitor.Unparseable)
  = (st, [Monitor.LogParseError])
  /\ (forall f,
        Monitor.frame_s f <> 0%Z -> Monitor.frame_s f <> 1%Z ->
        Monitor.frame_s f <> 5%Z -> Monitor.frame_s f <> 6%Z ->
        Monitor.step st (Monitor.WsMessage (Monitor.Parsed f)) = (st, []))
  /\ (forall f,
        Monitor.frame_s f = 6%Z ->
        Monitor.step st (Monitor.WsMessage (Monitor.Parsed f))
        = (Monitor.with_sessionId
             (default (Monitor.sessionId st)
                (Monitor.payload_session_id (Monitor.frame_d f))) st, [])).
Proof.
  intros Hc Hr. split; [|split].
  - by rewrite (step_message_open st c _ Hc Hr).
  - intros f H0 H1 H5 H6. rewrite (step_message_open st c _ Hc Hr). simpl.
    unfold Monitor.onFrame.
    destruct (Z.eqb_spec (Monitor.frame_s f) 1); [done|].
    destruct (Z.eqb_spec (Monitor.frame_s f) 0); [done|].
    destruct (Z.eqb_spec (Monitor.frame_s f) 3); [done|].
    destruct (Z.eqb_spec (Monitor.frame_s f) 5); [done|].
    destruct (Z.eqb_spec (Monitor.frame_s f) 6); done.
  - intros f H6. rewrite (step_message_open st c _ Hc Hr). simpl.
    unfold Monitor.onFrame. by rewrite H6.
Qed.

Lemma frames_without_effect_witness :
  let st := Example.live "bot" in
  let pong := {| Monitor.frame_s := 3; Monitor.frame_d := Monitor.SessionData None;
                 Monitor.frame_sn := None |} in
  Monitor.step st (Monitor.WsMessage (Monitor.Parsed pong)) = (st, []).
Proof.
  intros st pong.
  destruct (frames_without_effect st
              {| Monitor.readyState := Monitor.OPEN; Monitor.heartbeatTimer := true;
                 Monitor.helloTimer := false; Monitor.resolved := false;
                 Monitor.abortListener := true |} eq_refl eq_refl)
    as (_ & Hother & _).
  apply Hother; simpl; lia.
Defined.

(** ** The heartbeat *)

Lemma step_stray (st : Monitor.Session) (e : Monitor.Event) :
  Monitor.strayHeartbeats st <= Monitor.strayHeartbeats (fst (Monitor.step st e)).
Proof.
  session st.
  destruct e as [ |r| |data| | | | | ]; simpl;
    unfold Monitor.handleAbort, Monitor.gatewayResponded, Monitor.onOpen,
      Monitor.onMessage, Monitor.onFrame, Monitor.onClose, Monitor.onHelloTimeout,
      Monitor.resolveByReconnect, Monitor.reconnectTimerFired,
      Monitor.scheduleReconnect, Monitor.connect, Monitor.settle; simpl;
    repeat (case_match; simpl in *; simplify_eq);
    unfold Monitor.with_conn, Monitor.with_sessionId, Monitor.with_sn,
      Monitor.with_waiting, Monitor.with_reconnectAttempt, Monitor.with_outcome,
      Monitor.with_aborted, Monitor.with_fetching, Monitor.with_strayHeartbeats;
    simpl; lia.
Qed.

Lemma run_stray (es : list Monitor.Event) :
  forall st,
    Monitor.strayHeartbeats st <= Monitor.strayHeartbeats (fst (Monitor.run st es)).
Proof.
  induction es as [|e es IH]; intros st; [done|].
  rewrite run_cons. etrans; [apply (step_stray st e)|apply IH].
Qed.

(** X7. A hello frame that arrives while the heartbeat ticker runs starts
    a second ticker and overwrites the handle of the first, which nothing can
    clear any more: whatever happens afterwards (cleanup, abort, close), a
    heartbeat tick still tries to send a ping. *)
Theorem repeated_hello_leaks_ticker (st : Monitor.Session) (c : Monitor.Conn)
    (f : Monitor.KookSignalFrame) (es : list Monitor.Event) :
  Monitor.conn st = Some c ->
  Monitor.readyState c = Monitor.OPEN ->
  Monitor.heartbeatTimer c = true ->
  Monitor.frame_s f = 1%Z ->
  let st1 := fst (Monitor.step st (Monitor.WsMessage (Monitor.Parsed f))) in
  let st2 := fst (Monitor.run st1 es) in
  snd (Monitor.step st (Monitor.WsMessage (Monitor.Parsed f)))
  = (if Monitor.helloTimer c then [Monitor.ClearHelloTimer] else [])
      ++ [Monitor.SetHeartbeatTimer 30000]
  /\ Monitor.strayHeartbeats st1 = S (Monitor.strayHeartbeats st)
  /\ Monitor.step st2 Monitor.HeartbeatTick = (st2, [Monitor.WsSendPing (Monitor.sn st2)]).
Proof.
  intros Hc Hr Hhb Hs st1 st2.
  destruct (step_hello_frame st c f Hc Hr Hs) as (Ha & _).
  split; [exact Ha|].
  assert (Monitor.strayHeartbeats st1 = S (Monitor.strayHeartbeats st)) as Hstray.
  { subst st1. rewrite (step_message_open st c _ Hc Hr). simpl.
    unfold Monitor.onFrame. rewrite Hs, Hhb. done. }
  split; [done|].
  pose proof (run_stray es st1) as Hle. fold st2 in Hle.
  simpl. rewrite (bool_decide_eq_true_2 (Monitor.strayHeartbeats st2 <> 0)) by lia.
  by rewrite orb_true_r.
Qed.

Lemma repeated_hello_leaks_ticker_witness :
  let st1 := fst (Monitor.step (Example.live "bot") Example.hello) in
  let st2 := fst (Monitor.run st1 [Monitor.Abort; Monitor.WsClosed]) in
  Monitor.strayHeartbeats st1 = 1
  /\ Monitor.step st2 Monitor.HeartbeatTick = (st2, [Monitor.WsSendPing 0]).
Proof.
  intros st1 st2.
  destruct (repeated_hello_leaks_ticker (Example.live "bot")
              {| Monitor.readyState := Monitor.OPEN; Monitor.heartbeatTimer := true;
                 Monitor.helloTimer := false; Monitor.resolved := false;
                 Monitor.abortListener := true |}
              {| Monitor.frame_s := 1;
                 Monitor.frame_d := Monitor.SessionData (Some "session-1");
                 Monitor.frame_sn := None |}
              [Monitor.Abort; Monitor.WsClosed] eq_refl eq_refl eq_refl eq_refl)
    as (_ & H1 & H2).
  split; [exact H1 | exact H2].
Defined.

(** X8. The ping of a heartbeat tick carries the sequence number of the
    last event frame that bore one: after a series of event frames on a live
    socket, the tick sends the ping with that number, and with the number
    held before when no frame of the series bore one. *)
Theorem heartbeat_carries_last_sequence (st : Monitor.Session) (c : Monitor.Conn)
    (fs : list Monitor.KookSignalFrame) :
  Monitor.conn st = Some c ->
  Monitor.readyState c = Monitor.OPEN ->
  Monitor.heartbeatTimer c = true ->
  Forall (fun f => Monitor.frame_s f = 0%Z) fs ->
  let st' := fst (Monitor.run st (messagesOf fs)) in
  Monitor.step st' Monitor.HeartbeatTick
  = (st', [Monitor.WsSendPing (lastSn (Monitor.sn st) fs)]).
Proof.
  intros Hc Hr Hhb Hall st'.
  destruct (run_event_frames fs st c Hc Hr Hall) as [Hsn Hc'].
  fold st' in Hsn, Hc'. simpl. rewrite Hc', Hsn. simpl. by rewrite Hhb.
Qed.

Lemma heartbeat_carries_last_sequence_witness :
  let ev := Example.groupText "user" "channel" "hi" [] in
  let st' := fst (Monitor.run (Example.live "bot")
                    (messagesOf [Example.eventFrame ev 7; Example.eventFrame ev 4])) in
  Monitor.step st' Monitor.HeartbeatTick = (st', [Monitor.WsSendPing 4]).
Proof.
  intros ev st'.
  exact (heartbeat_carries_last_sequence (Example.live "bot")
           {| Monitor.readyState := Monitor.OPEN; Monitor.heartbeatTimer := true;
              Monitor.helloTimer := false; Monitor.resolved := false;
              Monitor.abortListener := true |}
           [Example.eventFrame ev 7; Example.eventFrame ev 4]
           eq_refl eq_refl eq_refl ltac:(repeat constructor)).
Defined.

(** ** The handler beyond the group gates *)

Section HandlerMore.

Context (txt : JS.Text) (DEFAULT_GROUP_HISTORY_LIMIT : Z).

Abbreviation handle' := (Bot.handleKookMessage txt DEFAULT_GROUP_HISTORY_LIMIT).
Abbreviation dispatch' := (Bot.dispatchMessage txt DEFAULT_GROUP_HISTORY_LIMIT).

Lemma handle_direct runtime cfg account event botId chatHistories now h :
  channel_type event <> GROUP ->
  handle' runtime cfg account event botId chatHistories now h
  = if dmAllowed account event
    then dispatch' runtime cfg account event botId chatHistories now h
    else {| Bot.host := h; Bot.chatHistories := chatHistories;
            Bot.exit := Bot.NotInDmAllowlist |}.
Proof.
  intros Hg. unfold Bot.handleKookMessage, dmAllowed.
  rewrite bool_decide_eq_false_2 by done.
  by destruct (Bot.isDmAllowed _ _ _).
Qed.

Lemma dispatch_attempts runtime cfg account event botId chatHistories now h :
  attemptsDispatch
    (Bot.exit (dispatch' runtime cfg account event botId chatHistories now h)) = true.
Proof.
  destruct (dispatch_exit txt DEFAULT_GROUP_HISTORY_LIMIT runtime cfg account event
              botId chatHistories now h) as [[r Hr]|[err Hr]]; by rewrite Hr.
Qed.

Lemma usesHistory_direct event chatHistories :
  channel_type event <> GROUP -> Bot.usesHistory event chatHistories = None.
Proof.
  intros Hg. unfold Bot.usesHistory. by rewrite bool_decide_eq_false_2.
Qed.

Lemma dispatch_direct_histories runtime cfg account event botId chatHistories now h :
  channel_type event <> GROUP ->
  Bot.chatHistories (dispatch' runtime cfg account event botId chatHistories now h)
  = chatHistories.
Proof.
  intros Hg. unfold Bot.dispatchMessage.
  destruct (getKookRuntime runtime) as [core|err]; [|done]. simpl.
  destruct (dispatchReplyFromConfig core _ cfg _); [|done]. simpl.
  by rewrite usesHistory_direct.
Qed.

End HandlerMore.

Lemma isDmAllowed_allowlist (allowFrom : list AllowEntry) (senderId : string) :
  Bot.isDmAllowed "allowlist" allowFrom senderId = true
  <-> exists entry, entry ∈ allowFrom /\ String_ entry = senderId.
Proof.
  unfold Bot.isDmAllowed. simpl. rewrite existsb_exists. split.
  - intros (entry & Hin & Hm). exists entry.
    split; [by apply list_elem_of_In | by apply strict_eq_true].
  - intros (entry & Hin & Hm). exists entry.
    split; [by apply list_elem_of_In | by apply strict_eq_true].
Qed.

(** X9. The direct-message gate lets a sender through under every policy
    but "allowlist", under which it lets through exactly the senders whose id
    is the string form of an entry of the allow-list; so under "pairing", the
    default, the handler gates nothing.  A message that is no group message
    (a broadcast included) goes through this gate and no other: it is turned
    away with nothing done, or it reaches the dispatch. *)
Theorem dm_policy_decision (allowFrom : list AllowEntry) (senderId : string) :
  (forall dmPolicy,
     dmPolicy <> "allowlist" -> Bot.isDmAllowed dmPolicy allowFrom senderId = true)
  /\ (Bot.isDmAllowed "allowlist" allowFrom senderId = true
      <-> exists entry, entry ∈ allowFrom /\ String_ entry = senderId)
  /\ (forall txt DEFAULT_GROUP_HISTORY_LIMIT runtime cfg account event botId
             chatHistories now h,
        channel_type event <> GROUP ->
        let r := Bot.handleKookMessage txt DEFAULT_GROUP_HISTORY_LIMIT runtime cfg
                   account event botId chatHistories now h in
        (dmAllowed account event = true -> attemptsDispatch (Bot.exit r) = true)
        /\ (dmAllowed account event = false ->
            r = {| Bot.host := h; Bot.chatHistories := chatHistories;
                   Bot.exit := Bot.NotInDmAllowlist |})
        /\ (dmPolicy (config account) = None -> attemptsDispatch (Bot.exit r) = true)).
Proof.
  split; [|split].
  - intros dmPolicy Hne. unfold Bot.isDmAllowed.
    destruct (JS.strict_eq dmPolicy "open"); [done|].
    destruct (JS.strict_eq dmPolicy "allowlist") eqn:E; [|done].
    by apply strict_eq_true in E.
  - apply isDmAllowed_allowlist.
  - intros txt lim runtime cfg account event botId chatHistories now h Hg r.
    subst r. rewrite handle_direct by done.
    split; [|split].
    + intros ->. apply dispatch_attempts.
    + by intros ->.
    + intros Hnone. unfold dmAllowed. rewrite Hnone. simpl. apply dispatch_attempts.
Qed.

Lemma dm_policy_decision_witness :
  let event :=
    {| channel_type := PERSON; type_ := 1; target_id := "bot"; author_id := "user";
       content := "hi"; msg_id := "m"; msg_timestamp := 0; nonce := "";
       extra := None |} in
  attemptsDispatch
    (Bot.exit (Bot.handleKookMessage Example.text 50 (Some Example.runtime)
                 Example.cfg Example.defaultAccount event (Some "bot") (Some ∅) 1
                 Example.host0)) = true.
Proof.
  intros event.
  exact (proj2 (proj2 (proj2 (proj2 (dm_policy_decision [] "user"))
           Example.text 50%Z (Some Example.runtime) Example.cfg
           Example.defaultAccount event (Some "bot") (Some ∅) 1%Z Example.host0
           ltac:(discriminate))) eq_refl).
Defined.

(** X10. The handler reaches its dispatch exactly when the gates let the
    message through: a group message when it gets as far as the mention gate
    and either no mention is required or the bot is mentioned, any other
    message when the direct-message gate lets its sender through.  When it
    does not reach the dispatch, the host is left as it was. *)
Theorem dispatch_iff_gates (txt : JS.Text) (DEFAULT_GROUP_HISTORY_LIMIT : Z)
    (runtime : option PluginRuntime) (cfg : ClawdbotConfig)
    (account : ResolvedKookAccount) (event : KookEventData) (botId : option string)
    (chatHistories : option HistoryMap) (now : Z) (h : Host) :
  let r := Bot.handleKookMessage txt DEFAULT_GROUP_HISTORY_LIMIT runtime cfg account
             event botId chatHistories now h in
  (channel_type event = GROUP ->
   (attemptsDispatch (Bot.exit r) = true
    <-> reachesMentionGate account event
        /\ (requireMentionOf account event = false
            \/ Bot.checkBotMentioned event botId = true)))
  /\ (channel_type event <> GROUP ->
      (attemptsDispatch (Bot.exit r) = true <-> dmAllowed account event = true))
  /\ (attemptsDispatch (Bot.exit r) = false -> Bot.host r = h).
Proof.
  intros r. subst r. split; [|split].
  - intros Hg. rewrite handle_group by done. unfold reachesMentionGate.
    destruct (Bot.isGroupAllowed _ _ _ _) eqn:Hallow; simpl.
    2: { split; [done|]. intros [(_ & ? & _) _]. done. }
    case_bool_decide as Hen; simpl.
    { split; [done|]. intros [(_ & _ & ?) _]. done. }
    assert (Bot.lookupGroupConfig (config account) (target_id event)
              (extra event ≫= guild_id) ≫= gc_enabled <> Some false) as Hen'
      by done.
    destruct (requireMentionOf account event) eqn:Hreq,
      (Bot.checkBotMentioned event botId) eqn:Hm; simpl;
      rewrite ?dispatch_attempts;
      (split; [intros Hx; first [discriminate Hx | split; [done|auto]]
              | intros [_ [Hx|Hx]]; first [discriminate Hx | done]]).
  - intros Hg. rewrite handle_direct by done.
    destruct (dmAllowed account event); simpl; [|done].
    by rewrite dispatch_attempts.
  - destruct (decide (channel_type event = GROUP)) as [Hg|Hg].
    + rewrite handle_group by done.
      repeat case_match; simpl; try done; by rewrite dispatch_attempts.
    + rewrite handle_direct by done.
      case_match; simpl; [by rewrite dispatch_attempts | done].
Qed.

Lemma dispatch_iff_gates_witness :
  let event := Example.groupText "user" "c" "hi" ["bot"] in
  attemptsDispatch
    (Bot.exit (Bot.handleKookMessage Example.text 50 (Some Example.runtime)
                 Example.cfg Example.account event (Some "bot") (Some ∅) 1
                 Example.host0)) = true.
Proof.
  intros event.
  apply (proj1 (dispatch_iff_gates Example.text 50 (Some Example.runtime)
                  Example.cfg Example.account event (Some "bot") (Some ∅) 1
                  Example.host0) eq_refl).
  split; [|by right].
  split; [reflexivity|split; [reflexivity|discriminate]].
Defined.

(** X11. A message that is no group message never reads nor changes the
    history map: whatever the outcome, the map comes back as it was given,
    and the body that is dispatched is the envelope of the message alone. *)
Theorem direct_messages_bypass_history (txt : JS.Text)
    (DEFAULT_GROUP_HISTORY_LIMIT : Z) (runtime : option PluginRuntime)
    (cfg : ClawdbotConfig) (account : ResolvedKookAccount) (event : KookEventData)
    (botId : option string) (chatHistories : option HistoryMap) (now : Z) (h : Host) :
  channel_type event <> GROUP ->
  Bot.chatHistories
    (Bot.handleKookMessage txt DEFAULT_GROUP_HISTORY_LIMIT runtime cfg account event
       botId chatHistories now h) = chatHistories
  /\ (forall core,
        Body (Bot.inboundContext txt DEFAULT_GROUP_HISTORY_LIMIT core cfg account
                event botId chatHistories now)
        = Bot.envelopeOfCurrent txt core cfg event botId now).
Proof.
  intros Hg. split.
  - rewrite handle_direct by done.
    destruct (dmAllowed account event); [|done].
    by apply dispatch_direct_histories.
  - intros core. unfold Bot.inboundContext. simpl.
    by rewrite usesHistory_direct.
Qed.

Lemma direct_messages_bypass_history_witness :
  let event :=
    {| channel_type := BROADCAST; type_ := 1; target_id := "c"; author_id := "user";
       content := "hi"; msg_id := "m"; msg_timestamp := 0; nonce := "";
       extra := None |} in
  let buffered := {| sender := "user"; body := "user: one"; timestamp := 1;
                     messageId := "m-one" |} in
  Bot.chatHistories
    (Bot.handleKookMessage Example.text 50 (Some Example.runtime) Example.cfg
       Example.account event (Some "bot") (Some {[ "c" := [buffered] ]}) 2
       Example.host0)
  = Some {[ "c" := [buffered] ]}.
Proof.
  intros event buffered.
  exact (proj1 (direct_messages_bypass_history Example.text 50
                  (Some Example.runtime) Example.cfg Example.account event
                  (Some "bot") (Some {[ "c" := [buffered] ]}) 2 Example.host0
                  ltac:(discriminate))).
Defined.







(** ** Targets and ids *)

Lemma append_nil (s : string) : EmptyString +:+ s = s.
Proof. reflexivity. Qed.

Lemma append_cons x (s t : string) : String x s +:+ t = String x (s +:+ t).
Proof. reflexivity. Qed.

(** Pushes the appends of a goal past the characters in front of them. *)
Ltac push_append := rewrite ?append_cons, ?append_nil.

Lemma append_assoc (a b c : string) : (a +:+ b) +:+ c = a +:+ (b +:+ c).
Proof. induction a as [|x a IH]; [done|]. push_append. by rewrite IH. Qed.

Lemma lowerCase_app_inv (a b s : string) :
  lowerCase s = a +:+ b ->
  exists s1 s2, s = s1 +:+ s2 /\ lowerCase s1 = a /\ lowerCase s2 = b.
Proof.
  revert s. induction a as [|x a IH]; intros s Hs.
  - by exists EmptyString, s.
  - rewrite append_cons in Hs.
    destruct s as [|y s]; [discriminate|]. simpl in Hs. injection Hs as Hy Hs.
    destruct (IH s Hs) as (s1 & s2 & -> & H1 & H2).
    exists (String y s1), s2. simpl. by rewrite Hy, H1.
Qed.

Lemma dropPrefixI_app (p pre s : string) :
  lowerCase pre = lowerCase p -> Chars.dropPrefixI p (pre +:+ s) = Some s.
Proof.
  revert pre. induction p as [|x p IH]; intros pre Hpre.
  - by destruct pre.
  - destruct pre as [|y pre]; [discriminate|]. rewrite append_cons. simpl in *.
    injection Hpre as Hy Hpre. unfold Chars.eqIgnoreCase.
    rewrite Hy, Ascii.eqb_refl. by apply IH.
Qed.

Lemma dropPrefixI_first (p s : string) x y :
  Chars.toLower x <> Chars.toLower y ->
  Chars.dropPrefixI (String x p) (String y s) = None.
Proof.
  intros Hne. simpl. unfold Chars.eqIgnoreCase.
  by apply Ascii.eqb_neq in Hne as ->.
Qed.






Lemma digit_lower a : Chars.isDigit a = true -> Chars.toLower a = a.
Proof.
  unfold Chars.isDigit, Chars.toLower, Chars.isUpper.
  rewrite andb_true_iff, !N.leb_le. intros [H1 H2].
  destruct (N.leb_spec 65 (Chars.code a)); [lia|done].
Qed.

Lemma numeric_no_prefix (p id : string) x :
  Chars.isDigit x = false ->
  Chars.all Chars.isDigit id = true ->
  Chars.dropPrefixI (String x p) id = None.
Proof.
  intros Hx Hid. destruct id as [|y id]; [done|]. simpl in Hid.
  apply andb_true_iff in Hid as [Hy _].
  simpl. unfold Chars.eqIgnoreCase.
  destruct (Ascii.eqb_spec (Chars.toLower x) (Chars.toLower y)) as [E|E]; [|done].
  exfalso. rewrite (digit_lower y Hy) in E.
  assert (Chars.isDigit (Chars.toLower x) = true) as Hlx by by rewrite E.
  revert Hx Hlx. unfold Chars.isDigit, Chars.toLower, Chars.isUpper, Chars.code.
  destruct (N.leb_spec 65 (Ascii.N_of_ascii x)), (N.leb_spec (Ascii.N_of_ascii x) 90);
    simpl; try congruence.
  rewrite Ascii.N_ascii_embedding by lia.
  rewrite !andb_true_iff, !N.leb_le. lia.
Qed.

Lemma stripKookKind_prefixed (pre id : string) :
  lowerCase pre ∈ kindPrefixes -> Chars.stripKookKind (pre +:+ id) = id.
Proof.
  intros Hpre. unfold kindPrefixes in Hpre.
  repeat (apply elem_of_cons in Hpre as [Hpre|Hpre]);
    [..|by apply elem_of_nil in Hpre];
    change (lowerCase pre = "kook:" +:+ "channel:") in Hpre
    || change (lowerCase pre = "kook:" +:+ "user:") in Hpre
    || change (lowerCase pre = "kook:" +:+ "dm:") in Hpre
    || change (lowerCase pre = "kook:" +:+ "group:") in Hpre;
    apply lowerCase_app_inv in Hpre as (p1 & p2 & -> & H1 & H2);
    unfold Chars.stripKookKind;
    rewrite append_assoc, (dropPrefixI_app "kook:" p1) by done.
  - by rewrite (dropPrefixI_app "channel:" p2).
  - rewrite (dropPrefixI_app "user:" p2) by done.
    destruct p2 as [|y p2]; [discriminate|]. injection H2 as Hy _.
    rewrite append_cons.
    rewrite dropPrefixI_first by by rewrite Hy. done.
  - rewrite (dropPrefixI_app "dm:" p2) by done.
    destruct p2 as [|y p2]; [discriminate|]. injection H2 as Hy _.
    rewrite append_cons.
    rewrite !dropPrefixI_first by by rewrite Hy. done.
  - rewrite (dropPrefixI_app "group:" p2) by done.
    destruct p2 as [|y p2]; [discriminate|]. injection H2 as Hy _.
    rewrite append_cons.
    rewrite !dropPrefixI_first by by rewrite Hy. done.
Qed.


(** X14. [normalizeTarget] of [send.ts] turns a target that begins, in
    whatever letter case, with [kook:channel:], [kook:user:], [kook:dm:] or
    [kook:group:] into what follows the prefix, trimmed (provided that does
    not itself begin with [kook:]).  A target that does not begin with
    [kook:] is only trimmed: a bare [user:] prefix stays. *)
Theorem normalizeTarget_strips_kook_prefixes (pre id : string) :
  Chars.dropPrefixI "kook:" id = None ->
  (lowerCase pre ∈ kindPrefixes -> Send.normalizeTarget (pre +:+ id) = Chars.trim id)
  /\ Send.normalizeTarget id = Chars.trim id
  /\ Send.normalizeTarget ("user:" +:+ id) = Chars.trim ("user:" +:+ id).
Proof.
  intros Hid. split; [|split].
  - intros Hpre. unfold Send.normalizeTarget.
    rewrite (stripKookKind_prefixed pre id Hpre).
    unfold Chars.stripKook. by rewrite Hid.
  - unfold Send.normalizeTarget, Chars.stripKookKind.
    rewrite Hid. unfold Chars.stripKook. by rewrite Hid.
  - reflexivity.
Qed.

Lemma normalizeTarget_strips_kook_prefixes_witness :
  Send.normalizeTarget "KOOK:Channel:12345 " = "12345"
  /\ Send.normalizeTarget "user:12345" = "user:12345".
Proof.
  destruct (normalizeTarget_strips_kook_prefixes "KOOK:Channel:" "12345 " eq_refl)
    as (H1 & _ & _).
  destruct (normalizeTarget_strips_kook_prefixes "" "12345" eq_refl)
    as (_ & _ & H3).
  split; [apply H1; set_solver | exact H3].
Defined.

Lemma stripKookUser_numeric (id : string) :
  Chars.all Chars.isDigit id = true ->
  Chars.stripKookUser id = id
  /\ Chars.stripKookUser ("kook:" +:+ id) = id
  /\ Chars.stripKookUser ("kook:user:" +:+ id) = id.
Proof.
  intros Hd.
  assert (forall p x, Chars.isDigit x = false ->
                      Chars.dropPrefixI (String x p) id = None) as Hno
    by (intros; by apply numeric_no_prefix).
  assert (Chars.dropPrefixI "kook:" ("kook:" +:+ id) = Some id) as Hdrop
    by by apply dropPrefixI_app.
  unfold Chars.stripKookUser. split; [by rewrite Hno|]. split.
  - by rewrite Hdrop, Hno.
  - change ("kook:user:" +:+ id) with ("kook:" +:+ ("user:" +:+ id)).
    by rewrite (dropPrefixI_app "kook:" "kook:"), (dropPrefixI_app "user:" "user:").
Qed.



(** ** Sending *)

Lemma canSend_token (account : ResolvedKookAccount) :
  canSend account = true ->
  exists tok, token account = Some tok /\ configured account = true
              /\ Chars.isEmpty tok = false.
Proof.
  unfold canSend, JS.truthy. destruct (configured account); [|done].
  destruct (token account) as [tok|]; [|done]. simpl.
  rewrite negb_true_iff. by exists tok.
Qed.

(** X16. [sendMessageKook] and [createKookDmSession] throw before they make
    any request when the account is not configured or has no token, and so
    does [sendMessageKook] when nothing is left of the target once its
    prefixes and the white space around it are removed. *)
Theorem send_refused_without_request
    (net : Client.Network Client.KookMessageCreateData)
    (chats : Client.Network Client.KookUserChatData)
    (account : ResolvedKookAccount) (params : Send.SendKookMessageParams)
    (userId : string) (trace : list Client.HttpRequest) :
  (canSend account = false ->
   exists err,
     Send.sendMessageKook net account params trace = (trace, Threw err)
     /\ Send.createKookDmSession chats account userId trace = (trace, Threw err))
  /\ (Send.normalizeTarget (Send.to params) = "" ->
      exists err, Send.sendMessageKook net account params trace = (trace, Threw err)).
Proof.
  unfold canSend, Send.sendMessageKook, Send.createKookDmSession. split; intros H.
  - rewrite <- negb_andb, H. simpl. by eexists.
  - rewrite H. simpl. destruct (_ || _); by eexists.
Qed.

Lemma send_refused_without_request_witness :
  exists err,
    Send.sendMessageKook Sample.offline Example.account
      {| Send.to := "kook:channel: "; Send.text := "hi";
         Send.replyToMessageId := None; Send.isDm := false |} []
    = ([], Threw err).
Proof.
  apply (send_refused_without_request Sample.offline (fun _ _ => Threw "fetch failed")
           Example.account
           {| Send.to := "kook:channel: "; Send.text := "hi";
              Send.replyToMessageId := None; Send.isDm := false |} "1" []).
  reflexivity.
Defined.

Lemma isEmpty_false (s : string) : Chars.isEmpty s = false <-> s <> "".
Proof. unfold Chars.isEmpty. apply String.eqb_neq. Qed.

(** What [sendMessageKook] does once its two guards are passed. *)
Lemma sendMessageKook_passes
    (net : Client.Network Client.KookMessageCreateData)
    (account : ResolvedKookAccount) (params : Send.SendKookMessageParams)
    (trace : list Client.HttpRequest) (tok : string) :
  configured account = true -> token account = Some tok ->
  Chars.isEmpty tok = false ->
  Chars.isEmpty (Send.normalizeTarget (Send.to params)) = false ->
  let sent := Send.sendMessageKook net account params trace in
  fst sent = trace ++ [sentRequest tok params]
  /\ returned (snd sent) = accepted (net trace (sentRequest tok params))
  /\ forall result,
       snd sent = Returned result ->
       exists res, net trace (sentRequest tok params) = Returned res
                   /\ Send.messageId result = Client.created_msg_id (Monitor.data res)
                   /\ Send.chatId result = Send.normalizeTarget (Send.to params).
Proof.
  intros Hc Ht Htok Htarget.
  unfold Send.sendMessageKook, sentRequest. rewrite Hc, Ht. simpl.
  unfold Chars.isEmpty in Htok. unfold JS.truthy. rewrite Htok. simpl.
  rewrite Htarget.
  destruct (Send.isDirectMessage _ _); unfold Client.bind, Client.call; simpl;
    (destruct (net trace _) as [res|err] eqn:Hnet; simpl;
     [destruct (Monitor.code res =? 0)%Z; simpl|]);
    (split; [done|split; [done|]]); intros result Hres; simplify_eq;
    eexists; (split; [done|]); done.
Qed.

Lemma sentRequest_fields (tok : string) (params : Send.SendKookMessageParams) :
  Chars.isEmpty (Send.normalizeTarget (Send.to params)) = false ->
  let targetId := Send.normalizeTarget (Send.to params) in
  let direct := Send.isDirectMessage (Send.isDm params) (Send.to params) in
  let byChatCode := direct && Chars.isChatCode targetId in
  let req := sentRequest tok params in
  Client.method req = "POST"
  /\ Client.url req
     = Client.KOOK_API_BASE
       +:+ (if direct then "/direct-message/create" else "/message/create")
  /\ Client.headers req
     = [("Authorization", "Bot " +:+ tok); ("Content-Type", "application/json")]
  /\ Client.searchParams req = []
  /\ field "content" req = Some (Client.JStr (Send.text params))
  /\ field "type" req = Some (Client.JNum 9)
  /\ field "quote" req = Client.JStr <$> Send.quoteOf (Send.replyToMessageId params)
  /\ field (if byChatCode then "chat_code" else "target_id") req
     = Some (Client.JStr targetId)
  /\ field (if byChatCode then "target_id" else "chat_code") req = None.
Proof.
  intros Htarget targetId direct byChatCode req.
  subst req byChatCode. unfold sentRequest. fold targetId direct.
  fold targetId in Htarget.
  unfold field, Send.quoteOf, JS.truthy.
  destruct direct, (Chars.isChatCode targetId),
    (Send.replyToMessageId params) as [quote|];
    simpl; unfold Client.optionalField, Chars.isEmpty in *;
    rewrite ?Htarget; simpl;
    try (destruct (String.eqb quote "") eqn:Hq; simpl; rewrite ?Hq; simpl);
    done.
Qed.

(** X17. Past its guards [sendMessageKook] makes exactly one request, a
    POST with the bot token: to the direct-message endpoint when the message
    is a direct one and to the channel endpoint otherwise.  The body carries
    the text as KMarkdown (type 9), the replied-to message as [quote] when
    that is a non-empty id, and the normalized target under [target_id], or
    under [chat_code] when the message is direct and the target is 24 or
    more hexadecimal digits; the call returns iff the platform answers with
    code 0. *)
Theorem send_makes_one_request
    (net : Client.Network Client.KookMessageCreateData)
    (account : ResolvedKookAccount) (params : Send.SendKookMessageParams)
    (trace : list Client.HttpRequest) :
  canSend account = true ->
  Send.normalizeTarget (Send.to params) <> "" ->
  let targetId := Send.normalizeTarget (Send.to params) in
  let direct := Send.isDirectMessage (Send.isDm params) (Send.to params) in
  let byChatCode := direct && Chars.isChatCode targetId in
  exists req,
    fst (Send.sendMessageKook net account params trace) = trace ++ [req]
    /\ returned (snd (Send.sendMessageKook net account params trace))
       = accepted (net trace req)
    /\ Client.method req = "POST"
    /\ Client.url req
       = Client.KOOK_API_BASE
         +:+ (if direct then "/direct-message/create" else "/message/create")
    /\ Client.headers req
       = [("Authorization", "Bot " +:+ default "" (token account));
          ("Content-Type", "application/json")]
    /\ Client.searchParams req = []
    /\ field "content" req = Some (Client.JStr (Send.text params))
    /\ field "type" req = Some (Client.JNum 9)
    /\ field "quote" req = Client.JStr <$> Send.quoteOf (Send.replyToMessageId params)
    /\ field (if byChatCode then "chat_code" else "target_id") req
       = Some (Client.JStr targetId)
    /\ field (if byChatCode then "target_id" else "chat_code") req = None.
Proof.
  intros Hsend Htarget targetId direct byChatCode.
  destruct (canSend_token account Hsend) as (tok & Ht & Hc & Htok).
  apply isEmpty_false in Htarget.
  destruct (sendMessageKook_passes net account params trace tok Hc Ht Htok Htarget)
    as (Hreq & Hret & _).
  exists (sentRequest tok params). split; [exact Hreq|]. split; [exact Hret|].
  rewrite Ht. apply (sentRequest_fields tok params Htarget).
Qed.

Lemma send_makes_one_request_witness :
  exists req,
    fst (Send.sendMessageKook Sample.offline Example.account
           {| Send.to := "kook:channel:12345"; Send.text := "hi";
              Send.replyToMessageId := Some "m1"; Send.isDm := false |} [])
    = [req]
    /\ field "target_id" req = Some (Client.JStr "12345")
    /\ field "quote" req = Some (Client.JStr "m1").
Proof.
  destruct (send_makes_one_request Sample.offline Example.account
              {| Send.to := "kook:channel:12345"; Send.text := "hi";
                 Send.replyToMessageId := Some "m1"; Send.isDm := false |} []
              eq_refl ltac:(vm_compute; discriminate))
    as (req & H1 & _ & _ & _ & _ & _ & _ & _ & H2 & H3 & _).
  exists req. split; [exact H1|]. split; [exact H3 | exact H2].
Defined.

Lemma toLower_idem a : Chars.toLower (Chars.toLower a) = Chars.toLower a.
Proof. by destruct a as [[] [] [] [] [] [] [] []]. Qed.

Lemma dropPrefix_insensitive (p s r : string) :
  Chars.dropPrefix p s = Some r -> Chars.dropPrefixI p s = Some r.
Proof.
  revert s. induction p as [|x p IH]; intros s; [done|].
  destruct s as [|y s]; [done|]. simpl.
  destruct (Ascii.eqb_spec x y) as [->|]; [|done].
  unfold Chars.eqIgnoreCase. rewrite Ascii.eqb_refl. apply IH.
Qed.

Lemma dropPrefixI_lower (p pre s : string) :
  Chars.dropPrefixI p (lowerCase pre +:+ s) = None ->
  Chars.dropPrefixI p (pre +:+ s) = None.
Proof.
  revert p. induction pre as [|y pre IH]; intros p; [done|].
  destruct p as [|x p]; [done|]. simpl lowerCase. rewrite !append_cons. simpl.
  unfold Chars.eqIgnoreCase. rewrite toLower_idem.
  destruct (Ascii.eqb _ _); [apply IH|done].
Qed.

Lemma dropPrefix_same_letters (p pre s r : string) :
  lowerCase pre = lowerCase p -> Chars.dropPrefix p (pre +:+ s) = Some r -> pre = p.
Proof.
  revert pre. induction p as [|x p IH]; intros pre Hpre Hdrop.
  - by destruct pre.
  - destruct pre as [|y pre]; [done|]. rewrite append_cons in Hdrop. simpl in *.
    injection Hpre as _ Hpre.
    destruct (Ascii.eqb_spec x y) as [->|]; [|done].
    f_equal. by apply IH.
Qed.

(** Only the prefixes [user:] and [kook:user:], letter for letter, make a
    target a direct one. *)
Lemma kind_prefix_not_direct (pre id : string) :
  lowerCase pre ∈ kindPrefixes -> pre <> "kook:user:" ->
  Send.isDirectMessage false (pre +:+ id) = false.
Proof.
  intros Hpre Hne. unfold Send.isDirectMessage, Chars.startsWith.
  destruct (Chars.dropPrefix "user:" (pre +:+ id)) as [r|] eqn:H1.
  { apply dropPrefix_insensitive in H1.
    rewrite dropPrefixI_lower in H1; [done|].
    unfold kindPrefixes in Hpre.
    repeat (apply elem_of_cons in Hpre as [Hpre|Hpre]);
      [..|by apply elem_of_nil in Hpre]; by rewrite Hpre. }
  destruct (Chars.dropPrefix "kook:user:" (pre +:+ id)) as [r|] eqn:H2; [|done].
  destruct (decide (lowerCase pre = "kook:user:")) as [Hu|Hu].
  { by apply dropPrefix_same_letters in H2. }
  apply dropPrefix_insensitive in H2.
  rewrite dropPrefixI_lower in H2; [done|].
  unfold kindPrefixes in Hpre.
  repeat (apply elem_of_cons in Hpre as [Hpre|Hpre]);
    [..|by apply elem_of_nil in Hpre]; try done; by rewrite Hpre.
Qed.

(** X18. Whether a message is a direct one is read off the target letter
    for letter ([user:] or [kook:user:] in front), while the prefixes are
    removed whatever their case and for [channel], [user], [dm] and
    [group] alike.  So, without the [isDm] flag, a target such as
    [kook:dm:<id>] or [KOOK:USER:<id>] is sent to the channel endpoint, with
    the id as the channel. *)
Theorem only_exact_user_prefix_is_direct
    (net : Client.Network Client.KookMessageCreateData)
    (account : ResolvedKookAccount) (text : string) (replyTo : option string)
    (trace : list Client.HttpRequest) (pre id : string) :
  canSend account = true ->
  lowerCase pre ∈ kindPrefixes -> pre <> "kook:user:" ->
  Chars.dropPrefixI "kook:" id = None -> Chars.trim id <> "" ->
  exists req,
    fst (Send.sendMessageKook net account
           {| Send.to := pre +:+ id; Send.text := text;
              Send.replyToMessageId := replyTo; Send.isDm := false |} trace)
    = trace ++ [req]
    /\ Client.url req = Client.KOOK_API_BASE +:+ "/message/create"
    /\ field "target_id" req = Some (Client.JStr (Chars.trim id)).
Proof.
  intros Hsend Hpre Hne Hid Hnonempty.
  destruct (canSend_token account Hsend) as (tok & Ht & Hc & Htok).
  assert (Send.normalizeTarget (pre +:+ id) = Chars.trim id) as Htarget.
  { unfold Send.normalizeTarget. rewrite (stripKookKind_prefixed pre id Hpre).
    unfold Chars.stripKook. by rewrite Hid. }
  apply isEmpty_false in Hnonempty.
  set (params := {| Send.to := pre +:+ id; Send.text := text;
                    Send.replyToMessageId := replyTo; Send.isDm := false |}).
  assert (Chars.isEmpty (Send.normalizeTarget (Send.to params)) = false) as Hto
    by (simpl; by rewrite Htarget).
  destruct (sendMessageKook_passes net account params trace tok Hc Ht Htok Hto)
    as (Hreq & _).
  destruct (sentRequest_fields tok params Hto)
    as (_ & Hurl & _ & _ & _ & _ & _ & Htgt & _).
  simpl in Hurl, Htgt.
  rewrite (kind_prefix_not_direct pre id Hpre Hne) in Hurl, Htgt.
  rewrite Htarget in Htgt.
  exists (sentRequest tok params). split; [exact Hreq|]. split; [exact Hurl | exact Htgt].
Qed.

Lemma only_exact_user_prefix_is_direct_witness :
  exists req,
    fst (Send.sendMessageKook Sample.offline Example.account
           {| Send.to := "kook:dm:12345"; Send.text := "hi";
              Send.replyToMessageId := None; Send.isDm := false |} [])
    = [req]
    /\ Client.url req = Client.KOOK_API_BASE +:+ "/message/create"
    /\ field "target_id" req = Some (Client.JStr "12345").
Proof.
  apply (only_exact_user_prefix_is_direct Sample.offline
           Example.account "hi" None [] "kook:dm:" "12345" eq_refl).
  - set_solver.
  - discriminate.
  - reflexivity.
  - vm_compute. discriminate.
Defined.

(** ** Replies *)

Lemma trimEnd_cons (a : Ascii.ascii) (s : string) :
  Chars.isSpace a = false -> Chars.trimEnd (String a s) = String a (Chars.trimEnd s).
Proof. intros Ha. simpl. rewrite Ha. by destruct (Chars.trimEnd s). Qed.

Lemma normalizeTarget_user (id : string) :
  Send.normalizeTarget ("user:" +:+ id) = "user:" +:+ Chars.trimEnd id.
Proof.
  unfold Send.normalizeTarget, Chars.trim.
  change (Chars.trimStart (Chars.stripKook (Chars.stripKookKind ("user:" +:+ id))))
    with ("user:" +:+ id).
  push_append. by rewrite !trimEnd_cons.
Qed.

(** The trace of the loop of [deliver]. *)
Lemma sendChunks_trace
    (net : Client.Network Client.KookMessageCreateData)
    (account : ResolvedKookAccount) (to : string) (replyTo : option string)
    (isDm : bool) (tok : string) :
  configured account = true -> token account = Some tok ->
  Chars.isEmpty tok = false ->
  Chars.isEmpty (Send.normalizeTarget to) = false ->
  forall chunks trace,
    let sent := ReplyDispatcher.sendChunks net account to replyTo isDm chunks trace in
    let mk chunk :=
      sentRequest tok {| Send.to := to; Send.text := chunk;
                         Send.replyToMessageId := replyTo; Send.isDm := isDm |} in
    exists n,
      (n <= length chunks)%nat
      /\ fst sent = trace ++ (mk <$> take n chunks)
      /\ (returned (snd sent) = true -> n = length chunks)
      /\ (accepting net -> returned (snd sent) = true).
Proof.
  intros Hc Ht Htok Hto chunks.
  induction chunks as [|chunk chunks IH]; intros trace; simpl.
  { exists 0%nat. by rewrite app_nil_r. }
  set (params := {| Send.to := to; Send.text := chunk;
                    Send.replyToMessageId := replyTo; Send.isDm := isDm |}).
  destruct (sendMessageKook_passes net account params trace tok Hc Ht Htok Hto)
    as (Hreq & Hret & _).
  unfold Client.bind.
  destruct (Send.sendMessageKook net account params trace) as [trace' [result|err]];
    simpl in Hreq, Hret; subst trace'.
  - destruct (IH (trace ++ [sentRequest tok params])) as (n & Hn & Hfst & Hall & Hacc).
    exists (S n). split; [simpl; lia|]. split.
    + rewrite Hfst. simpl. by rewrite <- app_assoc.
    + split; [intros H; by rewrite (Hall H) | exact Hacc].
  - exists 1%nat. split; [simpl; lia|]. split; [done|].
    split; [done|]. intros Hacc. by rewrite (Hacc trace _) in Hret.
Qed.

(** X19. [deliver] sends nothing for a reply whose text is absent or blank.
    Otherwise it posts the chunks of the text in their order, one request
    per chunk, each awaited before the next: what it has sent is at any end
    the first chunks of the text, it returns only once all are sent, and it
    does return when the platform accepts every one. *)
Theorem deliver_sends_chunks_in_order
    (net : Client.Network Client.KookMessageCreateData)
    (account : ResolvedKookAccount) (chunkTextWithMode : string -> list string)
    (channelId : string) (replyTo : option string) (isDm : bool)
    (payloadText : option string) (trace : list Client.HttpRequest) :
  canSend account = true ->
  Send.normalizeTarget (if isDm then "user:" +:+ channelId else channelId) <> "" ->
  let text := JS.nullish payloadText "" in
  let delivered :=
    ReplyDispatcher.deliver net account chunkTextWithMode channelId replyTo isDm
      payloadText trace in
  (Chars.trim text = "" -> delivered = (trace, Returned tt))
  /\ (Chars.trim text <> "" ->
      exists n reqs,
        (n <= length (chunkTextWithMode text))%nat
        /\ fst delivered = trace ++ reqs
        /\ field "content" <$> reqs
           = (fun chunk => Some (Client.JStr chunk)) <$> take n (chunkTextWithMode text)
        /\ (returned (snd delivered) = true -> n = length (chunkTextWithMode text))
        /\ (accepting net -> returned (snd delivered) = true)).
Proof.
  intros Hsend Hto text delivered. subst delivered.
  unfold ReplyDispatcher.deliver. fold text. split.
  - intros ->. done.
  - intros Htext. apply isEmpty_false in Htext. rewrite Htext.
    destruct (canSend_token account Hsend) as (tok & Ht & Hc & Htok).
    apply isEmpty_false in Hto.
    destruct (sendChunks_trace net account _ replyTo isDm tok Hc Ht Htok Hto
                (chunkTextWithMode text) trace) as (n & Hn & Hfst & Hall & Hacc).
    exists n. eexists. split; [exact Hn|]. split; [exact Hfst|].
    split; [|split; [exact Hall | exact Hacc]].
    rewrite <- list_fmap_compose. apply list_fmap_ext. intros i chunk _. simpl.
    by destruct (sentRequest_fields tok
                   {| Send.to := if isDm then "user:" +:+ channelId else channelId;
                      Send.text := chunk; Send.replyToMessageId := replyTo;
                      Send.isDm := isDm |} Hto) as (_ & _ & _ & _ & H & _).
Qed.

Lemma deliver_sends_chunks_in_order_witness :
  exists reqs,
    fst (ReplyDispatcher.deliver Sample.online Example.account
           (fun text => [text; text]) "12345" None false (Some "hi") [])
    = reqs
    /\ field "content" <$> reqs = [Some (Client.JStr "hi"); Some (Client.JStr "hi")].
Proof.
  destruct (deliver_sends_chunks_in_order Sample.online
              Example.account (fun text => [text; text]) "12345" None false
              (Some "hi") [] eq_refl ltac:(vm_compute; discriminate))
    as (_ & H).
  destruct (H ltac:(vm_compute; discriminate)) as (n & reqs & Hn & Hfst & Hc & Hall & Hacc).
  exists reqs. split; [exact Hfst|].
  rewrite Hc, (Hall (Hacc (fun _ _ => eq_refl))). reflexivity.
Defined.

Lemma sentRequest_user (tok id text : string) (replyTo : option string) (isDm : bool) :
  addressesPrefixedUser id
    (sentRequest tok {| Send.to := "user:" +:+ id; Send.text := text;
                        Send.replyToMessageId := replyTo; Send.isDm := isDm |}).
Proof.
  set (params := {| Send.to := "user:" +:+ id; Send.text := text;
                    Send.replyToMessageId := replyTo; Send.isDm := isDm |}).
  assert (Chars.isEmpty (Send.normalizeTarget (Send.to params)) = false) as Hto
    by (simpl; by rewrite normalizeTarget_user).
  destruct (sentRequest_fields tok params Hto)
    as (_ & Hurl & _ & _ & _ & _ & _ & Htgt & Hother).
  simpl in Hurl, Htgt, Hother. rewrite normalizeTarget_user in Htgt, Hother.
  assert (Send.isDirectMessage isDm ("user:" +:+ id) = true) as Hdirect
    by by destruct isDm.
  rewrite Hdirect in Hurl, Htgt, Hother.
  change (Chars.isChatCode ("user:" +:+ Chars.trimEnd id)) with false in Htgt, Hother.
  by split.
Qed.

(** X20. A direct message whose target is written [user:<id>] goes to the
    direct-message endpoint with [target_id] set to [user:<id>] itself (the
    id trimmed at its end): [normalizeTarget] removes prefixes only after
    [kook:], and a chat code is never recognised behind the prefix.  This is
    the target of every reply [deliver] sends for a direct message and of
    the pairing approval notice. *)
Theorem direct_replies_keep_user_prefix
    (net : Client.Network Client.KookMessageCreateData)
    (account : ResolvedKookAccount) (trace : list Client.HttpRequest)
    (id : string) (replyTo : option string) :
  canSend account = true ->
  (forall text isDm,
     exists req,
       fst (Send.sendMessageKook net account
              {| Send.to := "user:" +:+ id; Send.text := text;
                 Send.replyToMessageId := replyTo; Send.isDm := isDm |} trace)
       = trace ++ [req]
       /\ addressesPrefixedUser id req)
  /\ (forall chunkTextWithMode payloadText,
        exists reqs,
          fst (ReplyDispatcher.deliver net account chunkTextWithMode id replyTo true
                 payloadText trace)
          = trace ++ reqs
          /\ Forall (addressesPrefixedUser id) reqs)
  /\ (forall PAIRING_APPROVED_MESSAGE,
        exists req,
          fst (Channel.notifyApproval PAIRING_APPROVED_MESSAGE net account id trace)
          = trace ++ [req]
          /\ addressesPrefixedUser id req).
Proof.
  intros Hsend.
  destruct (canSend_token account Hsend) as (tok & Ht & Hc & Htok).
  assert (Chars.isEmpty (Send.normalizeTarget ("user:" +:+ id)) = false) as Hto
    by by rewrite normalizeTarget_user.
  assert (forall text isDm replyTo,
            fst (Send.sendMessageKook net account
                   {| Send.to := "user:" +:+ id; Send.text := text;
                      Send.replyToMessageId := replyTo; Send.isDm := isDm |} trace)
            = trace ++ [sentRequest tok
                          {| Send.to := "user:" +:+ id; Send.text := text;
                             Send.replyToMessageId := replyTo; Send.isDm := isDm |}])
    as Hone.
  { clear replyTo. intros text isDm replyTo.
    by destruct (sendMessageKook_passes net account
                   {| Send.to := "user:" +:+ id; Send.text := text;
                      Send.replyToMessageId := replyTo; Send.isDm := isDm |}
                   trace tok Hc Ht Htok Hto) as (Hreq & _). }
  split; [|split].
  - intros text isDm. eexists. split; [apply Hone|]. apply sentRequest_user.
  - intros chunkTextWithMode payloadText. unfold ReplyDispatcher.deliver.
    destruct (Chars.isEmpty (Chars.trim _)).
    { exists []. by rewrite app_nil_r. }
    destruct (sendChunks_trace net account _ replyTo true tok Hc Ht Htok Hto
                (chunkTextWithMode (JS.nullish payloadText "")) trace)
      as (n & _ & Hfst & _).
    eexists. split; [exact Hfst|].
    apply Forall_fmap, Forall_forall. intros chunk _. apply sentRequest_user.
  - intros PAIRING_APPROVED_MESSAGE.
    unfold Channel.notifyApproval, Client.bind.
    specialize (Hone PAIRING_APPROVED_MESSAGE true None).
    destruct (Send.sendMessageKook _ _ _ _) as [trace' [result|err]];
      simpl in *; subst trace'; eexists; (split; [done|]); apply sentRequest_user.
Qed.

Lemma direct_replies_keep_user_prefix_witness :
  exists req,
    fst (Send.sendMessageKook Sample.online Example.account
           {| Send.to := "user:2418200000"; Send.text := "hi";
              Send.replyToMessageId := None; Send.isDm := true |} [])
    = [req]
    /\ field "target_id" req = Some (Client.JStr "user:2418200000").
Proof.
  destruct (direct_replies_keep_user_prefix Sample.online Example.account []
              "2418200000" None eq_refl) as (H & _).
  destruct (H "hi" true) as (req & Hreq & _ & Htgt & _).
  exists req. split; [exact Hreq | exact Htgt].
Defined.

(** ** The outbound adapter *)

Lemma send_accepted
    (net : Client.Network Client.KookMessageCreateData)
    (account : ResolvedKookAccount) (to text tok : string)
    (trace : list Client.HttpRequest) :
  configured account = true -> token account = Some tok ->
  Chars.isEmpty tok = false ->
  Chars.isEmpty (Send.normalizeTarget to) = false ->
  accepting net ->
  exists req result,
    Outbound.send net account to text trace = (trace ++ [req], Returned result)
    /\ field "content" req = Some (Client.JStr text).
Proof.
  intros Hc Ht Htok Hto Hnet. unfold Outbound.send.
  set (params := {| Send.to := to; Send.text := text; Send.replyToMessageId := None;
                    Send.isDm := Outbound.isDmTarget to |}).
  destruct (sendMessageKook_passes net account params trace tok Hc Ht Htok Hto)
    as (Hreq & Hret & _).
  destruct (sentRequest_fields tok params Hto) as (_ & _ & _ & _ & Hcontent & _).
  rewrite Hnet in Hret.
  destruct (Send.sendMessageKook net account params trace) as [trace' [result|err]];
    [|done]. simpl in Hreq. subst trace'.
  by exists (sentRequest tok params), result.
Qed.

(** X21. On a platform that accepts what it is sent, [sendMedia] posts the
    text first when that is not blank, and then one more message: the media
    URL as a link when there is one, and otherwise the text, so that without
    a media URL a text that is not blank is posted twice. *)
Theorem media_falls_back_to_text
    (net : Client.Network Client.KookMessageCreateData)
    (account : ResolvedKookAccount) (to : string) (text mediaUrl : option string)
    (trace : list Client.HttpRequest) :
  canSend account = true -> Send.normalizeTarget to <> "" -> accepting net ->
  let sent := Outbound.sendMedia net account to text mediaUrl trace in
  exists reqs,
    fst sent = trace ++ reqs
    /\ returned (snd sent) = true
    /\ field "content" <$> reqs
       = (fun body => Some (Client.JStr body))
         <$> ((if JS.truthy (Chars.trim <$> text) then [default "" text] else [])
              ++ [if JS.truthy mediaUrl then default "" mediaUrl
                  else default "" text])
    /\ (JS.truthy (Chars.trim <$> text) = true -> JS.truthy mediaUrl = false ->
        exists req, reqs = [req; req]).
Proof.
  intros Hsend Hto Hnet sent. subst sent.
  destruct (canSend_token account Hsend) as (tok & Ht & Hc & Htok).
  apply isEmpty_false in Hto.
  unfold Outbound.sendMedia, Client.bind, Client.ret, JS.nullish.
  destruct (JS.truthy (Chars.trim <$> text)) eqn:Htext.
  - destruct (send_accepted net account to (default "" text) tok trace
                Hc Ht Htok Hto Hnet) as (req1 & r1 & H1 & Hc1).
    rewrite H1.
    destruct (JS.truthy mediaUrl).
    + destruct (send_accepted net account to (default "" mediaUrl) tok
                  (trace ++ [req1]) Hc Ht Htok Hto Hnet) as (req2 & r2 & H2 & Hc2).
      rewrite H2. exists [req1; req2]. simpl. rewrite <- app_assoc, Hc1, Hc2.
      by repeat split.
    + pose proof H1 as H2. unfold Outbound.send in H1, H2 |- *.
      destruct (sendMessageKook_passes net account
                  {| Send.to := to; Send.text := default "" text;
                     Send.replyToMessageId := None;
                     Send.isDm := Outbound.isDmTarget to |}
                  (trace ++ [req1]) tok Hc Ht Htok Hto) as (Hreq & Hret & _).
      destruct (sendMessageKook_passes net account
                  {| Send.to := to; Send.text := default "" text;
                     Send.replyToMessageId := None;
                     Send.isDm := Outbound.isDmTarget to |}
                  trace tok Hc Ht Htok Hto) as (Hreq1 & _).
      rewrite H1 in Hreq1. simpl in Hreq1. apply app_inv_head in Hreq1.
      injection Hreq1 as ->.
      rewrite Hnet in Hret.
      destruct (Send.sendMessageKook net account _ (trace ++ _))
        as [trace' [result|err]]; [|done]. simpl in Hreq. subst trace'.
      eexists [_; _]. simpl. rewrite <- app_assoc, !Hc1.
      repeat split; eauto.
  - destruct (JS.truthy mediaUrl).
    + destruct (send_accepted net account to (default "" mediaUrl) tok trace
                  Hc Ht Htok Hto Hnet) as (req2 & r2 & H2 & Hc2).
      rewrite H2. exists [req2]. simpl. rewrite Hc2. by repeat split.
    + destruct (send_accepted net account to (default "" text) tok trace
                  Hc Ht Htok Hto Hnet) as (req2 & r2 & H2 & Hc2).
      rewrite H2. exists [req2]. simpl. rewrite Hc2. by repeat split.
Qed.

Lemma media_falls_back_to_text_witness :
  exists req,
    fst (Outbound.sendMedia Sample.online Example.account "12345" (Some "hi") None [])
    = [req; req]
    /\ field "content" req = Some (Client.JStr "hi").
Proof.
  destruct (media_falls_back_to_text Sample.online Example.account "12345"
              (Some "hi") None [] eq_refl ltac:(vm_compute; discriminate)
              (fun _ _ => eq_refl)) as (reqs & Hfst & _ & Hcontent & Htwice).
  destruct (Htwice eq_refl eq_refl) as (req & ->).
  exists req. split; [exact Hfst|]. by injection Hcontent.
Defined.

(** ** The probe *)

(** X22. [probeKook] reports success exactly when it is given a non-empty
    token and the platform answers the identity request with code 0; the
    bot id it reports is then the one [fetchBotId] gives the session, and
    every failure carries an error text.  [probeAccount], which answers an
    account without a token itself, succeeds in the same cases. *)
Theorem probe_agrees_with_session_identity
    (tok : option string) (account : ResolvedKookAccount)
    (botInfo : Completion (Monitor.KookApiResponse Monitor.KookUserData)) :
  let probe := Probe.probeKook tok botInfo in
  Probe.ok probe = JS.truthy tok && accepted botInfo
  /\ Probe.botId probe = (if JS.truthy tok then Monitor.fetchBotId botInfo else None)
  /\ Probe.ok probe = match Probe.error probe with Some _ => false | None => true end
  /\ Probe.ok (Channel.probeAccount account botInfo)
     = Probe.ok (Probe.probeKook (token account) botInfo).
Proof.
  unfold Channel.probeAccount, Probe.probeKook, Monitor.fetchBotId, accepted.
  destruct (JS.truthy tok), (JS.truthy (token account)), botInfo as [res|err];
    simpl; try destruct (Monitor.code res =? 0)%Z; simpl; repeat split; done.
Qed.

(** ** Editing the configuration *)

Section ConfigEdits.

Context (DEFAULT_ACCOUNT_ID : string).

Abbreviation raw := (rawAccount DEFAULT_ACCOUNT_ID).

Lemma rawAccount_other (accountId other : string) (cfg : Channel.Config)
    (section : Channel.KookSection) (entry : option Channel.AccountEntry) :
  other <> accountId ->
  (if JS.strict_eq accountId DEFAULT_ACCOUNT_ID
   then Channel.sec_accounts section = Channel.sec_accounts (Channel.sectionOf cfg)
   else section
        = Channel.withAccounts (Channel.sectionOf cfg)
            (partial_alter (fun _ => entry) accountId
               (Channel.accountsOf (Channel.sectionOf cfg)))) ->
  raw (Channel.withSection cfg section) other = raw cfg other.
Proof.
  intros Hne Hsection. unfold rawAccount, JS.strict_eq in *.
  change (Channel.sectionOf (Channel.withSection cfg section)) with section.
  destruct (String.eqb_spec accountId DEFAULT_ACCOUNT_ID) as [->|Hid].
  - apply String.eqb_neq in Hne as ->.
    unfold Channel.accountsOf. by rewrite Hsection.
  - subst section.
    destruct (String.eqb other DEFAULT_ACCOUNT_ID); [done|].
    unfold Channel.entryOf, Channel.accountsOf at 1. simpl.
    by rewrite lookup_partial_alter_ne.
Qed.

(** X23. Enabling, naming, configuring or deleting an account touches the
    keys of that account alone: every other account, the default one
    included, reads as before, and so does all the configuration outside
    [channels.kook]. *)
Theorem account_edits_are_local (cfg : Channel.Config) (accountId other : string)
    (enabled : bool) (name inputToken : option string) :
  other <> accountId ->
  let edits :=
    [Channel.setAccountEnabled DEFAULT_ACCOUNT_ID cfg accountId enabled;
     Channel.deleteAccount DEFAULT_ACCOUNT_ID cfg accountId;
     Channel.applyAccountName DEFAULT_ACCOUNT_ID cfg accountId name;
     Channel.applyAccountConfig DEFAULT_ACCOUNT_ID cfg accountId inputToken] in
  Forall (fun cfg' => raw cfg' other = raw cfg other
                      /\ Channel.rest cfg' = Channel.rest cfg) edits.
Proof.
  intros Hne edits. subst edits.
  unfold Channel.setAccountEnabled, Channel.deleteAccount, Channel.applyAccountName,
    Channel.applyAccountConfig.
  destruct (JS.strict_eq accountId DEFAULT_ACCOUNT_ID) eqn:Hd;
    rewrite !Forall_cons, Forall_nil; repeat split.
  all: first
    [ by apply (rawAccount_other accountId other cfg _ None Hne); rewrite Hd
    | by eapply (rawAccount_other accountId other cfg _ (Some _) Hne); rewrite Hd ].
Qed.


Lemma entry_written (cfg : Channel.Config) (section : Channel.KookSection)
    (accounts : gmap string Channel.AccountEntry) (accountId : string)
    (entry : Channel.AccountEntry) :
  Channel.entryOf
    (Channel.accountsOf
       (Channel.sectionOf
          (Channel.withSection cfg
             (Channel.withAccounts section (<[accountId := entry]> accounts)))))
    accountId
  = entry.
Proof.
  unfold Channel.entryOf, Channel.accountsOf, Channel.sectionOf. simpl.
  by rewrite lookup_insert_eq.
Qed.

(** X24. [applyAccountConfig] enables the account and stores the token of
    the input trimmed, whatever it is: what it stores is a usable (non-empty)
    token exactly when [validateInput] has no complaint about the input, and
    the other keys of the account stay. *)
Theorem stored_token_usable_iff_valid (cfg : Channel.Config) (accountId : string)
    (inputToken : option string) :
  let stored :=
    raw (Channel.applyAccountConfig DEFAULT_ACCOUNT_ID cfg accountId inputToken)
      accountId in
  Channel.acc_token stored = Chars.trim <$> inputToken
  /\ JS.truthy (Channel.acc_token stored)
     = match Channel.validateInput inputToken with
       | None => true
       | Some _ => false
       end
  /\ Channel.acc_enabled stored = Some true
  /\ Channel.acc_name stored = Channel.acc_name (raw cfg accountId)
  /\ Channel.acc_policies stored = Channel.acc_policies (raw cfg accountId).
Proof.
  unfold rawAccount, Channel.applyAccountConfig, Channel.validateInput, JS.strict_eq.
  destruct (String.eqb accountId DEFAULT_ACCOUNT_ID).
  - simpl. by destruct (JS.truthy (Chars.trim <$> inputToken)).
  - rewrite entry_written. simpl.
    by destruct (JS.truthy (Chars.trim <$> inputToken)).
Qed.


End ConfigEdits.

Lemma account_edits_are_local_witness :
  rawAccount "default"
    (Channel.deleteAccount "default" Sample.settings "work") "default"
  = rawAccount "default" Sample.settings "default".
Proof.
  pose proof (account_edits_are_local "default" Sample.settings "work" "default"
                true None None ltac:(discriminate)) as H.
  apply Forall_cons in H as [_ H]. apply Forall_cons in H as [[H _] _]. exact H.
Defined.


(** ** The mention requirement, as the plugin reports it *)



(** ** The REST client *)

(** X27. Every call of the client goes under the API base with the bot
    token in its [Authorization] header.  The two reads are GETs without a
    body, and only the gateway request has a query, [compress]; the five
    writes are POSTs with a JSON body and no query. *)
Theorem client_calls_are_authorised (tok : string) (compress : Z)
    (cm : Client.ChannelMessageParams) (dm : Client.DirectMessageParams)
    (msg_id content target_id : string) :
  let reads := [Client.getGateway tok compress; Client.getBotInfo tok] in
  let writes :=
    [Client.sendChannelMessage tok cm; Client.sendDirectMessage tok dm;
     Client.updateChannelMessage tok msg_id content;
     Client.deleteChannelMessage tok msg_id; Client.createUserChat tok target_id] in
  Forall (authorised tok) (reads ++ writes)
  /\ Forall plainGet reads
  /\ Forall jsonPost writes
  /\ Client.searchParams (Client.getGateway tok compress)
     = [("compress", pretty compress)]
  /\ Client.searchParams (Client.getBotInfo tok) = [].
Proof.
  unfold authorised, plainGet, jsonPost. simpl.
  split; [|split; [|split]]; [..|done];
    repeat (apply Forall_cons_2 || apply Forall_nil_2);
    repeat split; try done; by eexists.
Qed.

(** ** Allow-lists *)

Lemma length_append (a b : string) :
  String.length (a +:+ b) = (String.length a + String.length b)%nat.
Proof. induction a as [|x a IH]; [done|]. rewrite append_cons. simpl. by rewrite IH. Qed.

Lemma append_longer (x : Ascii.ascii) (a b : string) : String x a +:+ b <> b.
Proof.
  intros H. apply (f_equal String.length) in H.
  rewrite length_append in H. simpl in H. lia.
Qed.

(** X28. The gates of the handler compare an allow-list entry with the id
    letter for letter, while the plugin shows and normalizes entries with
    [kook:] or [kook:user:] taken off: an entry written [kook:user:<id>] is
    displayed as [<id>] and yet lets neither the sender nor the channel of
    that id through. *)
Theorem prefixed_allow_entries_do_not_match (id : string) :
  Chars.all Chars.isDigit id = true ->
  Forall (fun entry =>
            Channel.normalizeAllowEntry entry = id
            /\ Channel.formatAllowFrom [AStr entry] = [id]
            /\ Bot.isDmAllowed "allowlist" [AStr entry] id = false
            /\ Bot.isGroupAllowed "allowlist" [AStr entry] id id = false)
         ["kook:" +:+ id; "kook:user:" +:+ id]
  /\ Bot.isDmAllowed "allowlist" [AStr id] id = true
  /\ Channel.formatAllowFrom [AStr id] = [id].
Proof.
  intros Hd. destruct (stripKookUser_numeric id Hd) as (H0 & H1 & H2).
  assert (forall entry,
            Bot.isDmAllowed "allowlist" [AStr entry] id = String.eqb entry id)
    as Hdm.
  { intros entry. unfold Bot.isDmAllowed, JS.strict_eq. simpl.
    by destruct (String.eqb entry id). }
  assert (forall entry,
            Bot.isGroupAllowed "allowlist" [AStr entry] id id = String.eqb entry id)
    as Hgroup.
  { intros entry. unfold Bot.isGroupAllowed, JS.strict_eq. simpl.
    by destruct (String.eqb entry id). }
  assert (forall x a, String.eqb (String x a +:+ id) id = false) as Hne
    by (intros; apply String.eqb_neq, append_longer).
  unfold Channel.normalizeAllowEntry, Channel.formatAllowFrom.
  split; [|split].
  - repeat (apply Forall_cons_2 || apply Forall_nil_2);
      (split; [done|]); (split; [simpl; by f_equal|]);
      by rewrite Hdm, Hgroup, Hne.
  - rewrite Hdm. apply String.eqb_refl.
  - simpl. by f_equal.
Qed.

Lemma prefixed_allow_entries_do_not_match_witness :
  Channel.formatAllowFrom [AStr "kook:user:2418200000"] = ["2418200000"]
  /\ Bot.isDmAllowed "allowlist" [AStr "kook:user:2418200000"] "2418200000" = false.
Proof.
  destruct (prefixed_allow_entries_do_not_match "2418200000" eq_refl) as (H & _).
  apply Forall_cons in H as [_ H]. apply Forall_cons in H as [(_ & H1 & H2 & _) _].
  split; [exact H1 | exact H2].
Defined.
